(** * Text-overlay layout engine of the listicle generator

    A shallow embedding of [stable-diffusion/scripts/generate_listicle.py]
    (functions [wrap_text], [add_text_overlay], [generate_listicle_images])
    and of the request validation of [api/main.py] ([generate_listicle]),
    together with the properties of the greedy line wrapper and of the
    title / subtitle placement.

    Python [str] values are [string]s, Python [int]s are [Z] (so [//] is
    [Z.div], which rounds towards minus infinity exactly as Python does for
    a positive divisor), image objects live in a store indexed by
    references, and a computation returns [Ok] with its value or [Raise]
    with the exception, next to the world it leaves behind. *)

From Stdlib Require Import ZArith Ascii String DecimalString.
From stdpp Require Import gmap strings list.

Local Open Scope Z_scope.

(** ** Python string primitives used by the scripts *)

Module PyStr.

(** [s.split(sep)] for a one-character separator: every occurrence of
    [sep] cuts, so the result is never empty and may hold empty
    strings. *)
Fixpoint split (sep : ascii) (s : string) : list string :=
  match s with
  | EmptyString => [EmptyString]
  | String c rest =>
      if Ascii.eqb c sep then EmptyString :: split sep rest
      else match split sep rest with
           | tok :: toks => String c tok :: toks
           | [] => [String c EmptyString]
           end
  end.

(** [sep.join(parts)] *)
Fixpoint join (sep : string) (parts : list string) : string :=
  match parts with
  | [] => EmptyString
  | [p] => p
  | p :: rest => p +:+ sep +:+ join sep rest
  end.

(** Truth value of a string in a condition: [if s:] *)
Definition truthy (s : string) : bool :=
  match s with
  | EmptyString => false
  | String _ _ => true
  end.

(** [f"{n}"] for an integer *)
Definition of_int (n : Z) : string := NilZero.string_of_int (Z.to_int n).

(** [c in s] for a character *)
Fixpoint mem (c : ascii) (s : string) : bool :=
  match s with
  | EmptyString => false
  | String d rest => Ascii.eqb d c || mem c rest
  end.

Definition space : ascii := " "%char.
Definition newline : ascii := "010"%char.
Definition nl : string := String newline EmptyString.

(** The words of a text: the non-empty pieces between spaces. *)
Definition words (s : string) : list string :=
  List.filter truthy (split space s).

End PyStr.

(** ** Exceptions, the object store and the effect monad *)

(** The exceptions the scripts raise or catch.  [DanglingRef] is not a
    Python exception: it marks a reference that names no object of the
    store, which a running interpreter cannot produce; every theorem below
    either shows it does not occur or assumes the reference is live. *)
Inductive exn :=
| ValueError (msg : string)
| OSError (msg : string)
| KeyError (key : string)
| HTTPException (status_code : Z) (detail : string)
| DanglingRef.

Inductive result (A : Type) :=
| Ok (a : A)
| Raise (e : exn).
Arguments Ok {A} a.
Arguments Raise {A} e.

(** Image modes of the imaging library that occur here. *)
Inductive mode := RGB | RGBA | Lum.

Definition mode_eqb (a b : mode) : bool :=
  match a, b with
  | RGB, RGB | RGBA, RGBA | Lum, Lum => true
  | _, _ => false
  end.

(** A loaded font: a TrueType face at a size, or the built-in bitmap font
    returned by [ImageFont.load_default()]. *)
Inductive font :=
| FreeTypeFont (path : string) (size : Z)
| DefaultFont.

(** One call of [draw.text(xy, text, font=, fill=, stroke_width=,
    stroke_fill=)]. *)
Record text_op := TextOp {
  op_xy : Z * Z;
  op_text : string;
  op_font : font;
  op_fill : string;
  op_stroke_width : Z;
  op_stroke_fill : string
}.

(** Pixel contents, kept as the history of library operations that
    produced them: two contents written the same way are the same pixels
    under every rasteriser. *)
Inductive pixels :=
| PxRaw (data : list Z)
| PxNew (m : mode) (size : Z * Z) (color : Z * Z * Z * Z)
| PxConvert (src dst : mode) (p : pixels)
| PxComposite (below above : pixels)
| PxText (p : pixels) (op : text_op).

Record image := Image {
  im_mode : mode;
  im_size : Z * Z;
  im_px : pixels
}.

(** References to image objects are indices into the store. *)
Definition ref := nat.

(** The part of the world the scripts act on: the image objects and the
    lines printed so far. *)
Record world := World {
  heap : list image;
  stdout : list string
}.

(** Computations that may change the world and may raise; what was done
    before an exception stays done. *)
Definition M (A : Type) : Type := world -> result A * world.

#[global] Instance M_ret : MRet M := fun A a w => (Ok a, w).

#[global] Instance M_bind : MBind M := fun A B f m w =>
  match m w with
  | (Ok a, w') => f a w'
  | (Raise e, w') => (Raise e, w')
  end.

Definition raise {A : Type} (e : exn) : M A := fun w => (Raise e, w).

(** [try: body  except Exception as e: handler(e)] *)
Definition try_except_as {A : Type} (body : M A) (handler : exn -> M A)
    : M A := fun w =>
  match body w with
  | (Ok a, w') => (Ok a, w')
  | (Raise e, w') => handler e w'
  end.

(** [try: body  except: handler] with a bare [except]. *)
Definition try_except {A : Type} (body handler : M A) : M A :=
  try_except_as body (fun _ => handler).

Definition print (line : string) : M unit := fun w =>
  (Ok tt, {| heap := heap w; stdout := stdout w ++ [line] |}).

Definition alloc (im : image) : M ref := fun w =>
  (Ok (length (heap w)), {| heap := heap w ++ [im]; stdout := stdout w |}).

Definition deref (r : ref) : M image := fun w =>
  match heap w !! r with
  | Some im => (Ok im, w)
  | None => (Raise DanglingRef, w)
  end.

Definition store (r : ref) (im : image) : M unit := fun w =>
  (Ok tt, {| heap := <[r := im]> (heap w); stdout := stdout w |}).

(** [for i, x in enumerate(xs, start): body] *)
Fixpoint for_enumerate {A : Type} (start : Z) (xs : list A)
    (body : Z -> A -> M unit) : M unit :=
  match xs with
  | [] => mret tt
  | x :: rest => body start x ≫= fun _ => for_enumerate (start + 1) rest body
  end.

(** ** The calls into the imaging library *)

Module PIL.

(** [im.copy()] *)
Definition copy (r : ref) : M ref :=
  im ← deref r; alloc im.

(** [im.size] *)
Definition size (r : ref) : M (Z * Z) :=
  im ← deref r; mret (im_size im).

(** [Image.new(mode, size, color)] *)
Definition new (m : mode) (sz : Z * Z) (color : Z * Z * Z * Z) : M ref :=
  alloc {| im_mode := m; im_size := sz; im_px := PxNew m sz color |}.

(** [im.convert(mode)]: always a new image. *)
Definition convert (r : ref) (m : mode) : M ref :=
  im ← deref r;
  alloc {| im_mode := m; im_size := im_size im;
           im_px := PxConvert (im_mode im) m (im_px im) |}.

Definition size_eqb (a b : Z * Z) : bool :=
  Z.eqb a.1 b.1 && Z.eqb a.2 b.2.

(** [Image.alpha_composite(im1, im2)]: both images must be RGBA and of
    one size; the result is a new image. *)
Definition alpha_composite (r1 r2 : ref) : M ref :=
  im1 ← deref r1;
  im2 ← deref r2;
  if negb (mode_eqb (im_mode im1) RGBA && mode_eqb (im_mode im2) RGBA) then
    raise (ValueError "image has wrong mode")
  else if negb (size_eqb (im_size im1) (im_size im2)) then
    raise (ValueError "images do not match")
  else
    alloc {| im_mode := RGBA; im_size := im_size im1;
             im_px := PxComposite (im_px im1) (im_px im2) |}.

(** [ImageDraw.Draw(im)]: a drawing handle bound to the image object. *)
Record ImageDraw := Draw_ {
  draw_im : ref;
  draw_mode : mode
}.

Definition Draw (r : ref) : M ImageDraw :=
  im ← deref r; mret {| draw_im := r; draw_mode := im_mode im |}.

(** [draw.text(...)]: paints into the image the handle is bound to. *)
Definition text (d : ImageDraw) (xy : Z * Z) (s : string) (f : font)
    (fill : string) (stroke_width : Z) (stroke_fill : string) : M unit :=
  im ← deref (draw_im d);
  store (draw_im d)
    {| im_mode := im_mode im; im_size := im_size im;
       im_px := PxText (im_px im)
                  (TextOp xy s f fill stroke_width stroke_fill) |}.

End PIL.

(** ** What the engine needs from its surroundings *)

(** The font files that can be opened, and the text measurement of the
    drawing surface ([draw.textbbox]); both belong to the imaging library
    and the machine the script runs on.  [textbbox] is the box a
    measurement returns when it returns: [wrap_text] and [add_text_overlay]
    as defined next are the runs in which the library answers every drawing
    call.  The runs in which a drawing call raises are those of the module
    [Raising] further down, which agree with these up to the first call
    that raises. *)
Class FontEnv := {
  font_available : string -> Z -> bool;
  textbbox : mode -> Z * Z -> string -> font -> Z * Z * Z * Z
}.

(** [bbox[2] - bbox[0]] *)
Definition bbox_width (bbox : Z * Z * Z * Z) : Z :=
  let '(x0, _, x1, _) := bbox in x1 - x0.

(** [ImageFont.truetype(path, size)]: raises [OSError] when the file
    cannot be opened. *)
Definition truetype `{FontEnv} (path : string) (size : Z) : M font :=
  if font_available path size then mret (FreeTypeFont path size)
  else raise (OSError "cannot open resource").

(** [ImageFont.load_default()] *)
Definition load_default : M font := mret DefaultFont.

(** [draw.textbbox(xy, text, font=font)], for a call that returns *)
Definition draw_textbbox `{FontEnv} (draw : PIL.ImageDraw) (xy : Z * Z)
    (s : string) (f : font) : Z * Z * Z * Z :=
  textbbox (PIL.draw_mode draw) xy s f.

(** ** [wrap_text] *)

(** The two variables the loop of [wrap_text] updates. *)
Record wrap_state := WrapState {
  lines : list string;
  current_line : string
}.

(** One iteration of [for word in words:]. *)
Definition wrap_step `{FontEnv} (f : font) (max_width : Z)
    (draw : PIL.ImageDraw) (st : wrap_state) (word : string) : wrap_state :=
  let test_line :=
    current_line st +:+
    (if PyStr.truthy (current_line st) then " " else "") +:+ word in
  let bbox := draw_textbbox draw (0, 0) test_line f in
  let text_width := bbox_width bbox in
  if text_width <=? max_width then
    {| lines := lines st; current_line := test_line |}
  else if PyStr.truthy (current_line st) then
    {| lines := lines st ++ [current_line st]; current_line := word |}
  else
    (* Word is too long, force it *)
    {| lines := lines st ++ [word]; current_line := current_line st |}.

(** The list [lines] as it stands when [wrap_text] reaches its [return]. *)
Definition wrap_lines `{FontEnv} (text : string) (f : font) (max_width : Z)
    (draw : PIL.ImageDraw) : list string :=
  let words := PyStr.split PyStr.space text in
  let st := fold_left (wrap_step f max_width draw) words
              {| lines := []; current_line := "" |} in
  if PyStr.truthy (current_line st) then lines st ++ [current_line st]
  else lines st.

Definition wrap_text `{FontEnv} (text : string) (f : font) (max_width : Z)
    (draw : PIL.ImageDraw) : string :=
  PyStr.join PyStr.nl (wrap_lines text f max_width draw).

(** ** [add_text_overlay] *)

(** The entries of a slide dictionary. *)
Record slide := Slide {
  title : string;
  subtitle : string;
  visual_theme : string
}.

Definition helvetica : string := "/System/Library/Fonts/Helvetica.ttc".

(** The five layout variables [add_text_overlay] sets from the format. *)
Record metrics := Metrics {
  title_size : Z;
  subtitle_size : Z;
  number_size : Z;
  margin : Z;
  text_margin : Z  (* Side margins for text *)
}.

Definition format_metrics (format_type : string) : metrics :=
  if String.eqb format_type "portrait" then
    {| title_size := 75; subtitle_size := 45; number_size := 100;
       margin := 60; text_margin := 100 |}
  else
    {| title_size := 70; subtitle_size := 42; number_size := 90;
       margin := 80; text_margin := 150 |}.

(** The [try: ... except: ...] that loads the three fonts. *)
Definition load_fonts `{FontEnv} (fm : metrics) : M (font * font * font) :=
  try_except
    (title_font ← truetype helvetica (title_size fm);
     subtitle_font ← truetype helvetica (subtitle_size fm);
     number_font ← truetype helvetica (number_size fm);
     mret (title_font, subtitle_font, number_font))
    (title_font ← load_default;
     subtitle_font ← load_default;
     number_font ← load_default;
     mret (title_font, subtitle_font, number_font)).

(** The body shared by the two [for i, line in enumerate(...)] loops: it
    measures the line, centres it and draws it. *)
Definition draw_line `{FontEnv} (draw : PIL.ImageDraw) (width : Z)
    (f : font) (start_y line_height stroke_width : Z)
    (i : Z) (line : string) : M unit :=
  let line_bbox := draw_textbbox draw (0, 0) line f in
  let line_width := bbox_width line_bbox in
  let line_x := (width - line_width) / 2 in
  let line_y := start_y + i * line_height in
  PIL.text draw (line_x, line_y) line f "white" stroke_width "black".

Definition add_text_overlay `{FontEnv} (image : ref) (slide_data : slide)
    (slide_number : Z) (format_type : string) : M ref :=
  img_with_text ← PIL.copy image;
  draw ← PIL.Draw img_with_text;
  '(width, height) ← PIL.size img_with_text;
  let fm := format_metrics format_type in
  '(title_font, subtitle_font, number_font) ← load_fonts fm;
  image_size ← PIL.size image;
  overlay ← PIL.new RGBA image_size (0, 0, 0, 100);
  converted ← PIL.convert img_with_text RGBA;
  img_with_text ← PIL.alpha_composite converted overlay;
  draw ← PIL.Draw img_with_text;
  let number_text := PyStr.of_int slide_number in
  PIL.text draw (margin fm, margin fm) number_text number_font
    "white" 3 "black";;
  let max_title_width := width - text_margin fm * 2 in
  let wrapped_title :=
    wrap_text (title slide_data) title_font max_title_width draw in
  let title_lines := PyStr.split PyStr.newline wrapped_title in
  let title_line_height := title_size fm + 10 in
  let total_title_height :=
    Z.of_nat (length title_lines) * title_line_height in
  let title_start_y := height / 2 - total_title_height / 2 - 30 in
  for_enumerate 0 title_lines
    (draw_line draw width title_font title_start_y title_line_height 4);;
  let max_subtitle_width := width - text_margin fm * 2 in
  let wrapped_subtitle :=
    wrap_text (subtitle slide_data) subtitle_font max_subtitle_width draw in
  let subtitle_lines := PyStr.split PyStr.newline wrapped_subtitle in
  let subtitle_line_height := subtitle_size fm + 8 in
  let subtitle_start_y := title_start_y + total_title_height + 50 in
  for_enumerate 0 subtitle_lines
    (draw_line draw width subtitle_font subtitle_start_y
       subtitle_line_height 2);;
  PIL.convert img_with_text RGB.

(** ** [generate_listicle_images] *)

Record format_config := FormatConfig {
  cfg_width : Z;
  cfg_height : Z;
  cfg_name : string
}.

Definition FORMATS : gmap string format_config :=
  <["landscape" := FormatConfig 1920 1080 "YouTube/Landscape"]>
  (<["portrait" := FormatConfig 1080 1920 "TikTok/Portrait"]> ∅).

Definition BACKGROUND_TYPES : gmap string string :=
  <["color" := "Solid color gradients"]>
  (<["ai" := "AI-generated images"]>
  (<["stock" := "Stock images from Unsplash"]> ∅)).

(** [key in d] and [d[key]] for a dictionary. *)
Definition dict_contains {V : Type} (key : string) (d : gmap string V)
    : bool :=
  match d !! key with
  | Some _ => true
  | None => false
  end.

Definition dict_get {V : Type} (d : gmap string V) (key : string) : M V :=
  match d !! key with
  | Some v => mret v
  | None => raise (KeyError key)
  end.

(** The collaborators of the generator and of the HTTP layer that lie
    outside the layout engine: the content lookup
    ([generate_content_for_topic]), the three background providers, the
    clean-up and archive helpers, the file system, the clock and the string
    services of the runtime.  They are left open: the properties below hold
    whatever they return, print, allocate or raise. *)
Class Externals := {
  generate_content_for_topic : string -> Z -> list slide;
  create_color_background : Z -> Z -> Z -> M ref;
  create_ai_background : Z -> Z -> slide -> M ref;
  create_stock_background : Z -> Z -> slide -> string -> M ref;
  cleanup_old_images : string -> M unit;
  script_dir : string;
  os_path_join : list string -> string;
  os_makedirs : string -> M unit;
  time_time : M Z;
  image_save : ref -> string -> M unit;
  str_lower : string -> string;
  str_strip : string -> string;
  generator_imported : bool;
  exception_str : exn -> string;
  repr_list : list string -> string;
  path_to_url : string -> M string;
  create_download_zip : list string -> string -> string -> M string
}.

(** [s.replace(c, by)] for a one-character pattern. *)
Fixpoint replace_char (c : ascii) (by_ : string) (s : string) : string :=
  match s with
  | EmptyString => EmptyString
  | String d rest =>
      if Ascii.eqb d c then by_ +:+ replace_char c by_ rest
      else String d (replace_char c by_ rest)
  end.

(** [f"{n:02d}"] *)
Definition of_int_02d (n : Z) : string :=
  let s := PyStr.of_int n in
  if (String.length s <? 2)%nat then "0" +:+ s else s.

(** The body of [for i, slide_data in enumerate(slides_content):]; the
    accumulator is [generated_images]. *)
Definition generate_slide `{FontEnv} `{Externals}
    (topic format_type background_type : string) (num_slides : Z)
    (width height : Z) (output_dir : string)
    (i : Z) (slide_data : slide) (generated_images : list string)
    : M (list string) :=
  print ("Generating slide " +:+ PyStr.of_int (i + 1) +:+ "/" +:+
         PyStr.of_int num_slides +:+ ": " +:+ title slide_data);;
  background ←
    (if String.eqb background_type "color" then
       create_color_background width height i
     else if String.eqb background_type "ai" then
       create_ai_background width height slide_data
     else if String.eqb background_type "stock" then
       create_stock_background width height slide_data topic
     else
       create_color_background width height i);
  image_with_text ←
    add_text_overlay background slide_data (i + 1) format_type;
  timestamp ← time_time;
  let clean_topic :=
    str_lower (replace_char ":" "" (replace_char "," ""
                 (replace_char " " "_" topic))) in
  let filename :=
    "slide_" +:+ of_int_02d (i + 1) +:+ "_" +:+ clean_topic +:+ "_" +:+
    format_type +:+ "_" +:+ PyStr.of_int timestamp +:+ ".png" in
  let filepath := os_path_join [output_dir; filename] in
  image_save image_with_text filepath;;
  print ("Saved: " +:+ filepath);;
  mret (generated_images ++ [filepath]).

Fixpoint for_enumerate_acc {A S : Type} (start : Z) (xs : list A) (acc : S)
    (body : Z -> A -> S -> M S) : M S :=
  match xs with
  | [] => mret acc
  | x :: rest =>
      body start x acc ≫= fun acc' =>
      for_enumerate_acc (start + 1) rest acc' body
  end.

Definition generate_listicle_images `{FontEnv} `{Externals}
    (topic format_type background_type : string) (num_slides : Z)
    : M (list string) :=
  if negb (dict_contains format_type FORMATS) then
    raise (ValueError "Format must be one of: ['landscape', 'portrait']")
  else if negb (dict_contains background_type BACKGROUND_TYPES) then
    raise (ValueError
             "Background type must be one of: ['color', 'ai', 'stock']")
  else
    format_config ← dict_get FORMATS format_type;
    let width := cfg_width format_config in
    let height := cfg_height format_config in
    print ("Generating " +:+ cfg_name format_config +:+ " listicle (" +:+
           PyStr.of_int width +:+ "x" +:+ PyStr.of_int height +:+ ")");;
    background_name ← dict_get BACKGROUND_TYPES background_type;
    print ("Background type: " +:+ background_name);;
    let slides_content := generate_content_for_topic topic num_slides in
    let base_outputs_dir := os_path_join [script_dir; ".."; "outputs"] in
    let output_dir := os_path_join [base_outputs_dir; format_type] in
    os_makedirs output_dir;;
    cleanup_old_images output_dir;;
    for_enumerate_acc 0 slides_content []
      (generate_slide topic format_type background_type num_slides
         width height output_dir).

(** ** The [/generate] endpoint of [api/main.py] *)

Record ListicleRequest := {
  req_topic : string;
  req_format_type : string;
  req_background_type : string;
  req_num_slides : Z
}.

Record ListicleResponse := {
  success : bool;
  message : string;
  images : list string;
  download_url : option string
}.

(** [for path in image_paths: ... image_urls.append(image_url)] *)
Fixpoint image_urls_of `{Externals} (image_paths : list string)
    : M (list string) :=
  match image_paths with
  | [] => mret []
  | path :: rest =>
      image_url ← path_to_url path;
      urls ← image_urls_of rest;
      mret (image_url :: urls)
  end.

Definition generate_listicle `{FontEnv} `{Externals}
    (request : ListicleRequest) : M ListicleResponse :=
  if negb generator_imported then
    raise (HTTPException 500
             "Listicle generator not available. Check server setup.")
  else
    let valid_formats := ["landscape"; "portrait"] in
    let valid_backgrounds := ["color"; "ai"; "stock"] in
    if negb (bool_decide (req_format_type request ∈ valid_formats)) then
      raise (HTTPException 400
               "Invalid format. Must be one of: ['landscape', 'portrait']")
    else if negb (bool_decide
                    (req_background_type request ∈ valid_backgrounds)) then
      raise (HTTPException 400
        "Invalid background type. Must be one of: ['color', 'ai', 'stock']")
    else if negb (PyStr.truthy (str_strip (req_topic request))) then
      raise (HTTPException 400 "Topic cannot be empty")
    else if (req_num_slides request <? 1) || (10 <? req_num_slides request)
    then
      raise (HTTPException 400 "Number of slides must be between 1 and 10")
    else
      try_except_as
        (print ("Generating listicle: " +:+ req_topic request +:+ ", " +:+
                req_format_type request +:+ ", " +:+
                req_background_type request);;
         image_paths ←
           generate_listicle_images (req_topic request)
             (req_format_type request) (req_background_type request)
             (req_num_slides request);
         print ("Generated paths: " +:+ repr_list image_paths);;
         image_urls ← image_urls_of image_paths;
         url ← create_download_zip image_paths (req_topic request)
                 (req_format_type request);
         mret {| success := true;
                 message := "Successfully generated " +:+
                            PyStr.of_int (Z.of_nat (length image_paths)) +:+
                            " slides";
                 images := image_urls;
                 download_url := Some url |})
        (fun e =>
           raise (HTTPException 500
                    ("Error generating listicle: " +:+ exception_str e))).

(** ** Derived notions used to state the properties *)

(** The lines the caller of [wrap_text] obtains with [.split('\n')]. *)
Definition wrapped_lines `{FontEnv} (text : string) (f : font)
    (max_width : Z) (draw : PIL.ImageDraw) : list string :=
  PyStr.split PyStr.newline (wrap_text text f max_width draw).

(** Measured width of a string on a drawing handle. *)
Definition measured `{FontEnv} (draw : PIL.ImageDraw) (f : font)
    (s : string) : Z :=
  bbox_width (draw_textbbox draw (0, 0) s f).

(** All words of a sequence of lines, in reading order. *)
Definition words_of_lines (ls : list string) : list string :=
  concat (PyStr.words <$> ls).

(** The words held by the loop variables of [wrap_text]. *)
Definition state_words (st : wrap_state) : list string :=
  words_of_lines (lines st) ++ PyStr.words (current_line st).

(** A line is within the budget, or it is one word of the text as
    [text.split(' ')] delivered it. *)
Definition line_ok `{FontEnv} (text : string) (f : font) (max_width : Z)
    (draw : PIL.ImageDraw) (line : string) : Prop :=
  measured draw f line <= max_width ∨ line ∈ PyStr.split PyStr.space text.


(** The fonts the [try] / [except] of [add_text_overlay] ends with. *)
Definition chosen_fonts `{FontEnv} (fm : metrics) : font * font * font :=
  if font_available helvetica (title_size fm)
     && font_available helvetica (subtitle_size fm)
     && font_available helvetica (number_size fm)
  then (FreeTypeFont helvetica (title_size fm),
        FreeTypeFont helvetica (subtitle_size fm),
        FreeTypeFont helvetica (number_size fm))
  else (DefaultFont, DefaultFont, DefaultFont).

(** The drawing calls of one block of lines, first line first. *)
Definition line_ops `{FontEnv} (draw : PIL.ImageDraw) (width : Z) (f : font)
    (start_y line_height stroke_width : Z) (first : Z) (ls : list string)
    : list text_op :=
  imap (fun i line =>
          TextOp ((width - measured draw f line) / 2,
                  start_y + (first + Z.of_nat i) * line_height)
            line f "white" stroke_width "black") ls.

(** The canvas under the text: the input converted to RGBA with the
    uniform black layer of alpha 100 composited over all of it. *)
Definition dark_base (im : image) : pixels :=
  PxComposite (PxConvert (im_mode im) RGBA (im_px im))
    (PxNew RGBA (im_size im) (0, 0, 0, 100)).

(** The handle [add_text_overlay] draws with: bound to the composited
    image, the fourth object it creates. *)
Definition overlay_draw (w : world) : PIL.ImageDraw :=
  {| PIL.draw_im := (length (heap w) + 3)%nat; PIL.draw_mode := RGBA |}.

(** All drawing calls of [add_text_overlay], in the order it makes them. *)
Definition overlay_ops `{FontEnv} (draw : PIL.ImageDraw) (size : Z * Z)
    (slide_data : slide) (slide_number : Z) (format_type : string)
    : list text_op :=
  let fm := format_metrics format_type in
  let fonts := chosen_fonts fm in
  let width := size.1 in
  let height := size.2 in
  let title_lines :=
    wrapped_lines (title slide_data) fonts.1.1
      (width - text_margin fm * 2) draw in
  let total_title_height :=
    Z.of_nat (length title_lines) * (title_size fm + 10) in
  let title_start_y := height / 2 - total_title_height / 2 - 30 in
  let subtitle_lines :=
    wrapped_lines (subtitle slide_data) fonts.1.2
      (width - text_margin fm * 2) draw in
  TextOp (margin fm, margin fm) (PyStr.of_int slide_number) fonts.2
    "white" 3 "black"
  :: line_ops draw width fonts.1.1 title_start_y (title_size fm + 10) 4 0
       title_lines
  ++ line_ops draw width fonts.1.2
       (title_start_y + total_title_height + 50) (subtitle_size fm + 8) 2 0
       subtitle_lines.

(** The five objects a call of [add_text_overlay] adds to the store: the
    copy, the black layer, the RGBA conversion, the composite with the
    text drawn into it, and the returned RGB image. *)
Definition overlay_objects `{FontEnv} (w : world) (im : image)
    (slide_data : slide) (slide_number : Z) (format_type : string)
    : list image :=
  let painted :=
    fold_left PxText
      (overlay_ops (overlay_draw w) (im_size im) slide_data slide_number
         format_type)
      (dark_base im) in
  [ im;
    Image RGBA (im_size im) (PxNew RGBA (im_size im) (0, 0, 0, 100));
    Image RGBA (im_size im) (PxConvert (im_mode im) RGBA (im_px im));
    Image RGBA (im_size im) painted;
    Image RGB (im_size im) (PxConvert RGBA RGB painted) ].

(** ** A concrete surrounding, to run the definitions *)

Module Demo.

Definition glyph_width (f : font) : Z :=
  match f with
  | FreeTypeFont _ size => size / 2
  | DefaultFont => 6
  end.

(** A fixed-pitch measurement: every character is half the font size
    wide. *)
Definition fixed_pitch (m : mode) (xy : Z * Z) (s : string) (f : font)
    : Z * Z * Z * Z :=
  (xy.1, xy.2, xy.1 + Z.of_nat (String.length s) * glyph_width f,
   xy.2 + 2 * glyph_width f).

Definition with_fonts : FontEnv :=
  {| font_available := fun _ _ => true; textbbox := fixed_pitch |}.

Definition without_fonts : FontEnv :=
  {| font_available := fun _ _ => false; textbbox := fixed_pitch |}.

Definition surface : PIL.ImageDraw :=
  {| PIL.draw_im := 0%nat; PIL.draw_mode := RGBA |}.

Definition blank : image :=
  {| im_mode := RGB; im_size := (1920, 1080);
     im_px := PxNew RGB (1920, 1080) (52, 73, 94, 255) |}.

Definition one_image : world := {| heap := [blank]; stdout := [] |}.

Definition time_blocking : slide :=
  {| title := "Time Blocking";
     subtitle := "Schedule your day in focused chunks";
     visual_theme := "modern blue professional" |}.

(** Collaborators that succeed at once: a flat background, a fixed clock,
    no file system. *)
Definition externals : Externals :=
  {| generate_content_for_topic := fun _ n =>
       replicate (Z.to_nat n) time_blocking;
     create_color_background := fun width height _ =>
       PIL.new RGB (width, height) (52, 73, 94, 255);
     create_ai_background := fun width height _ =>
       PIL.new RGB (width, height) (0, 0, 0, 255);
     create_stock_background := fun width height _ _ =>
       PIL.new RGB (width, height) (255, 255, 255, 255);
     cleanup_old_images := fun _ => mret tt;
     script_dir := "/app/scripts";
     os_path_join := PyStr.join "/";
     os_makedirs := fun _ => mret tt;
     time_time := mret 1700000000;
     image_save := fun _ _ => mret tt;
     str_lower := fun s => s;
     str_strip := fun s => s;
     generator_imported := true;
     exception_str := fun _ => "error";
     repr_list := PyStr.join ", ";
     path_to_url := fun path => mret path;
     create_download_zip := fun _ _ _ => mret "/outputs/slides.zip" |}.

End Demo.

(** ** [generate_content_for_topic] *)

(** The content lookup of [generate_listicle.py].  A character of a
    [string] stands for a code point below 256, and the character classes
    below are the ones Python's [str] methods and [re] use on that range. *)
Module Content.

(** [c.isspace()], also what [str.split()] cuts at and what [\s] matches:
    tab to carriage return, the four separators 28 to 31, the space, NEL
    and the no-break space. *)
Definition is_space (c : ascii) : bool :=
  let n := N_of_ascii c in
  ((9 <=? n) && (n <=? 13) || (28 <=? n) && (n <=? 32)
   || (n =? 133) || (n =? 160))%N.

(** What [\d] matches: the decimal digits. *)
Definition is_digit (c : ascii) : bool :=
  let n := N_of_ascii c in ((48 <=? n) && (n <=? 57))%N.

(** [c.lower()]: the letters A to Z and the capital letters 192 to 222,
    the multiplication sign 215 excepted, move up by 32. *)
Definition lower_char (c : ascii) : ascii :=
  let n := N_of_ascii c in
  if ((65 <=? n) && (n <=? 90)
      || (192 <=? n) && (n <=? 222) && negb (n =? 215))%N
  then ascii_of_N (n + 32) else c.

(** [s.lower()] *)
Fixpoint lower (s : string) : string :=
  match s with
  | EmptyString => EmptyString
  | String c rest => String (lower_char c) (lower rest)
  end.

(** [s[n:]] for [n >= 0] *)
Fixpoint drop_chars (n : nat) (s : string) : string :=
  match n, s with
  | O, _ => s
  | S _, EmptyString => EmptyString
  | S n', String _ rest => drop_chars n' rest
  end.

(** [s.replace(old, new, 1)]: the leftmost occurrence is replaced. *)
Fixpoint replace_first (old new : string) (s : string) : string :=
  if String.prefix old s then new +:+ drop_chars (String.length old) s
  else match s with
       | EmptyString => EmptyString
       | String c rest => String c (replace_first old new rest)
       end.

(** [needle in hay] *)
Fixpoint contains (needle hay : string) : bool :=
  String.prefix needle hay
  || match hay with
     | EmptyString => false
     | String _ rest => contains needle rest
     end.

(** [s.split()]: the maximal runs of characters that are not white
    space. *)
Fixpoint split_ws (s : string) : list string :=
  match s with
  | EmptyString => []
  | String c rest =>
      if is_space c then split_ws rest
      else match rest with
           | EmptyString => [String c EmptyString]
           | String d _ =>
               if is_space d then String c EmptyString :: split_ws rest
               else match split_ws rest with
                    | w :: ws => String c w :: ws
                    | [] => [String c EmptyString]
                    end
           end
  end.

Fixpoint drop_while (p : ascii → bool) (s : string) : string :=
  match s with
  | EmptyString => EmptyString
  | String c rest => if p c then drop_while p rest else s
  end.

(** [re.sub(r'^\d+\s*', '', s)]: a leading run of digits goes, with the
    white space behind it; without a leading digit nothing changes. *)
Definition sub_leading_number (s : string) : string :=
  match s with
  | EmptyString => EmptyString
  | String c _ =>
      if is_digit c then drop_while is_space (drop_while is_digit s) else s
  end.

(** The loop over the prefixes: the first one the topic starts with is
    removed, then the loop breaks. *)
Fixpoint strip_prefix (prefixes : list string) (clean_topic : string)
    : string :=
  match prefixes with
  | [] => clean_topic
  | prefix :: rest =>
      if String.prefix prefix clean_topic
      then replace_first prefix "" clean_topic
      else strip_prefix rest clean_topic
  end.

Definition clean_topic (topic : string) : string :=
  sub_leading_number
    (strip_prefix ["top "; "best "; "ultimate "; "essential "] (lower topic)).

(** An entry of a content list: title and subtitle. *)
Definition item : Type := string * string.

Definition content_library : list (string * list item) :=
  [ ("productivity",
     [ ("Time Blocking", "Schedule your day in focused chunks");
       ("The 2-Minute Rule", "If it takes less than 2 minutes, do it now");
       ("Eliminate Distractions", "Turn off notifications during deep work");
       ("Batch Similar Tasks", "Group emails, calls, and admin together");
       ("Take Regular Breaks", "Use the Pomodoro Technique for focus") ]);
    ("marketing",
     [ ("Know Your Audience", "Create detailed buyer personas");
       ("Content is King", "Provide value before asking for anything");
       ("Social Proof Works", "Show testimonials and reviews");
       ("Test Everything", "A/B test your headlines and calls-to-action");
       ("Follow Up Consistently", "Most sales happen after 5+ touchpoints") ]);
    ("fitness",
     [ ("Start Small", "Begin with 15-minute daily workouts");
       ("Consistency Beats Intensity",
        "Regular exercise is better than sporadic");
       ("Track Your Progress", "Use apps or journals to monitor gains");
       ("Mix Cardio & Strength", "Combine both for optimal health");
       ("Rest is Essential", "Recovery days prevent injury and burnout") ]);
    ("money",
     [ ("Emergency Fund First", "Save 3-6 months of expenses");
       ("Automate Your Savings", "Set up automatic transfers to savings");
       ("Invest Early & Often", "Time in market beats timing the market");
       ("Track Your Spending", "Know where every dollar goes");
       ("Increase Your Income", "Focus on skills that pay more") ]);
    ("travel",
     [ ("Book Flights Early", "Save money with advance booking");
       ("Pack Light", "One carry-on makes everything easier");
       ("Research Local Culture", "Respect customs and traditions");
       ("Keep Copies of Documents", "Store digital and physical backups");
       ("Stay Connected", "Get local SIM or international plan") ]);
    ("health",
     [ ("Drink More Water", "Aim for 8 glasses daily");
       ("Prioritize Sleep", "7-9 hours for optimal health");
       ("Eat Whole Foods", "Choose minimally processed options");
       ("Move Every Hour", "Combat sedentary lifestyle");
       ("Manage Stress", "Practice meditation or deep breathing") ]);
    ("cooking",
     [ ("Prep Ingredients First", "Mise en place makes cooking smoother");
       ("Season at Every Step", "Build layers of flavor");
       ("Sharp Knives Are Safer", "Keep your knives properly maintained");
       ("Taste as You Cook", "Adjust seasoning throughout");
       ("Keep It Simple", "Master basics before complex dishes") ]);
    ("learning",
     [ ("Active Recall", "Test yourself instead of re-reading");
       ("Spaced Repetition", "Review material at increasing intervals");
       ("Teach Others", "Explaining concepts reinforces knowledge");
       ("Practice Deliberately", "Focus on weaknesses, not strengths");
       ("Take Breaks", "Let your brain process and consolidate") ]) ].

(** The condition of the [if] inside the loop over the library. *)
Definition key_matches (topic_keywords : list string) (clean_topic : string)
    (key : string) : bool :=
  existsb (fun keyword => contains keyword key) topic_keywords
  || existsb (fun keyword => contains keyword clean_topic) [key].

(** The loop over [content_library.items()], in the order the dictionary
    was written; [None] when no key matched. *)
Fixpoint find_content (library : list (string * list item))
    (topic_keywords : list string) (clean_topic : string)
    : option (list item) :=
  match library with
  | [] => None
  | (key, content) :: rest =>
      if key_matches topic_keywords clean_topic key then Some content
      else find_content rest topic_keywords clean_topic
  end.

(** The generic advice used when nothing matched. *)
Definition generic_content (clean_topic : string) : list item :=
  [ ("Research First", "Learn the fundamentals of " +:+ clean_topic);
    ("Start Small", "Begin with simple " +:+ clean_topic +:+ " practices");
    ("Be Consistent",
     "Regular practice improves " +:+ clean_topic +:+ " skills");
    ("Learn from Others", "Find mentors in " +:+ clean_topic);
    ("Measure Progress", "Track your " +:+ clean_topic +:+ " improvements");
    ("Stay Updated", "Keep learning new " +:+ clean_topic +:+ " trends");
    ("Practice Daily", "Make " +:+ clean_topic +:+ " part of your routine");
    ("Get Feedback",
     "Ask for input on your " +:+ clean_topic +:+ " approach") ].

Definition themes : list string :=
  [ "modern blue professional";
    "vibrant energetic orange";
    "calm trustworthy green";
    "elegant sophisticated purple";
    "warm inviting gold";
    "cool contemporary teal";
    "bold confident red";
    "sleek minimal gray" ].

(** [matched_content] as it stands after [if not matched_content:]. *)
Definition matched_content (topic : string) : list item :=
  let clean_topic := clean_topic topic in
  let topic_keywords := split_ws clean_topic in
  match find_content content_library topic_keywords clean_topic with
  | Some (item :: items) => item :: items
  | Some [] | None => generic_content clean_topic
  end.

(** [a % b]: [None] stands for [ZeroDivisionError]. *)
Definition py_mod (a b : Z) : option Z :=
  if b =? 0 then None else Some (a mod b).

(** [l[i]], negative indices counting from the end: [None] stands for
    [IndexError]. *)
Definition py_index {A : Type} (l : list A) (i : Z) : option A :=
  if 0 <=? i then l !! Z.to_nat i
  else if 0 <=? Z.of_nat (length l) + i
       then l !! Z.to_nat (Z.of_nat (length l) + i)
       else None.

(** The body of [for i in range(num_slides):]. *)
Definition make_slide (matched_content : list item) (i : Z) : option slide :=
  k ← py_mod i (Z.of_nat (length matched_content));
  content_item ← py_index matched_content k;
  t ← py_mod i (Z.of_nat (length themes));
  theme ← py_index themes t;
  Some {| title := content_item.1; subtitle := content_item.2;
          visual_theme := theme |}.

(** [None] stands for an exception of the indexing. *)
Definition generate_content_for_topic (topic : string) (num_slides : Z)
    : option (list slide) :=
  mapM (make_slide (matched_content topic)) (seqZ 0 num_slides).

End Content.

(** ** [create_stock_background] and [create_ai_background] *)

(** The two background providers that call out: one to a stock photo
    service, one to a diffusion pipeline.  The network, the pipeline, the
    file system and [hash] are collaborators; the colour background they
    fall back to is the one of [Externals]. *)
Module Background.

Class ProviderEnv := {
  (** [requests.get(url, timeout=...)]: status code and content *)
  requests_get : string → Z → M (Z * list Z);
  (** [hash(s)] of a string *)
  str_hash : string → Z;
  (** [with open(path, 'wb') as f: f.write(content)] *)
  write_file : string → list Z → M unit;
  (** [Image.open(path)] *)
  image_open : string → M ref;
  (** [os.remove(path)] *)
  os_remove : string → M unit;
  (** the diffusion pipeline object *)
  pipeline : Type;
  (** [StableDiffusionPipeline.from_pretrained(...)] *)
  from_pretrained : M pipeline;
  (** [pipe.to("mps")] *)
  to_mps : pipeline → M pipeline;
  (** [pipe(prompt=, negative_prompt=, height=, width=, ...).images[0]] *)
  run_pipeline : pipeline → string → string → Z → Z → M ref
}.

(** [s.replace(old, new)] for a non-empty [old]: every occurrence, found
    from the left, occurrences not overlapping.  [skip] counts the
    characters of a match still to pass over. *)
Fixpoint replace_from (old new : string) (skip : nat) (s : string)
    : string :=
  match s with
  | EmptyString => EmptyString
  | String c rest =>
      match skip with
      | S k => replace_from old new k rest
      | O =>
          if String.prefix old s
          then new +:+ replace_from old new (String.length old - 1) rest
          else String c (replace_from old new 0 rest)
      end
  end.

Definition replace (old new : string) (s : string) : string :=
  replace_from old new 0 s.

(** Runs a computation and hands back its exception, if any, as a value:
    the start of a [try] whose handler is written out by the caller. *)
Definition attempt {A : Type} (m : M A) : M (exn + A) := fun w =>
  match m w with
  | (Ok a, w') => (Ok (inr a), w')
  | (Raise e, w') => (Ok (inl e), w')
  end.

(** The inner [try] of the loop over the search terms, for one term:
    [Some image] when the function returns from inside the loop, [None]
    when the loop goes on to the next term. *)
Definition search_once `{Externals} `{ProviderEnv} (width height : Z)
    (search_term : string) : M (option ref) :=
  try_except_as
    (let url :=
       "https://source.unsplash.com/" +:+ PyStr.of_int width +:+ "x" +:+
       PyStr.of_int height +:+ "/?" +:+ replace_char " " "," search_term in
     response ← requests_get url 10;
     if response.1 =? 200 then
       let temp_path :=
         "../temp/stock_bg_" +:+ PyStr.of_int (str_hash search_term) +:+
         ".jpg" in
       os_makedirs "../temp";;
       write_file temp_path response.2;;
       image ← image_open temp_path;
       image ← PIL.convert image RGB;
       image_size ← PIL.size image;
       overlay ← PIL.new RGBA image_size (0, 0, 0, 100);
       converted ← PIL.convert image RGBA;
       image ← PIL.alpha_composite converted overlay;
       os_remove temp_path;;
       result ← PIL.convert image RGB;
       mret (Some result)
     else mret None)
    (fun e =>
       print ("Stock image search failed for '" +:+ search_term +:+ "': " +:+
              exception_str e);;
       mret None).

(** [for search_term in search_terms:] *)
Fixpoint search_all `{Externals} `{ProviderEnv} (width height : Z)
    (search_terms : list string) : M (option ref) :=
  match search_terms with
  | [] => mret None
  | search_term :: rest =>
      found ← search_once width height search_term;
      match found with
      | Some image => mret (Some image)
      | None => search_all width height rest
      end
  end.

Definition create_stock_background `{Externals} `{ProviderEnv}
    (width height : Z) (slide_data : slide) (topic : string) : M ref :=
  try_except_as
    (let keywords :=
       replace "best " "" (replace "top " "" (Content.lower topic)) in
     let keywords :=
       replace "essential " "" (replace "ultimate " "" keywords) in
     let search_terms :=
       [ keywords +:+ " abstract";
         keywords +:+ " professional";
         "gradient abstract";
         "minimal professional";
         "business background" ] in
     found ← search_all width height search_terms;
     match found with
     | Some image => mret image
     | None =>
         print "All stock image searches failed, using color background";;
         create_color_background width height 0
     end)
    (fun e =>
       print ("Stock background creation failed: " +:+ exception_str e);;
       create_color_background width height 0).

(** The [except] branch of [create_ai_background]; [attr] is the value of
    the function attribute [pipe] at that moment. *)
Definition ai_fallback `{Externals} `{ProviderEnv} (width height : Z)
    (attr : option pipeline) (e : exn) : M (ref * option pipeline) :=
  print ("AI generation failed: " +:+ exception_str e);;
  print "Falling back to color background...";;
  image ← create_color_background width height 0;
  mret (image, attr).

(** [create_ai_background], with the function attribute
    [create_ai_background.pipe] passed in and handed back: [None] when the
    attribute is not set. *)
Definition create_ai_background `{Externals} `{ProviderEnv}
    (pipe_attr : option pipeline) (width height : Z) (slide_data : slide)
    : M (ref * option pipeline) :=
  let prompt :=
    "minimalist gradient background, " +:+ visual_theme slide_data +:+
    ", professional, clean design, no text, abstract" in
  let negative_prompt :=
    "text, letters, words, watermark, signature, people, faces, objects" in
  let generate (pipe : pipeline) : M (ref * option pipeline) :=
    generated ← attempt (run_pipeline pipe prompt negative_prompt
                           height width);
    match generated with
    | inl e => ai_fallback width height (Some pipe) e
    | inr image => mret (image, Some pipe)
    end in
  match pipe_attr with
  | Some pipe => generate pipe
  | None =>
      print "Loading Stable Diffusion model...";;
      loaded ← attempt from_pretrained;
      match loaded with
      | inl e => ai_fallback width height None e
      | inr pipe =>
          moved ← attempt (to_mps pipe);
          match moved with
          | inl e => ai_fallback width height (Some pipe) e
          | inr pipe => generate pipe
          end
      end
  end.

End Background.

(** ** [cleanup_old_images] *)

(** The PNG files of the output directory, as [glob.glob] lists them: path
    and modification time.  The calls into the file system can raise:
    [glob.glob], [os.path.getmtime] (a file that vanished after it was
    listed, a dangling link) and [os.remove]; which calls raise, and the
    text of the exception, belong to the file system.  [os.remove] raises
    [OSError] only. *)
Module Cleanup.

(** A listed file; [mtime] is what [os.path.getmtime] returns for it when
    it returns. *)
Record file := File {
  path : string;
  mtime : Z
}.

Class FsEnv := {
  (** [str(e)] of the exception [glob.glob] raises, if it raises *)
  glob_error : option string;
  (** [str(e)] of the exception [os.path.getmtime(path)] raises, if it
      raises *)
  getmtime_error : string → option string;
  (** [os.remove(path)] raises [OSError] *)
  remove_fails : string → bool;
  (** [str(e)] of that [OSError] *)
  oserror_text : string → string
}.

(** [os.path.basename(p)]: what follows the last slash. *)
Fixpoint basename (p : string) : string :=
  match p with
  | EmptyString => EmptyString
  | String c rest =>
      if PyStr.mem "/" rest then basename rest
      else if Ascii.eqb c "/" then rest else p
  end.

(** The key function of [image_files.sort(key=lambda x:
    os.path.getmtime(x), ...)] is called on every path, in list order,
    before any element is moved; the first call that raises ends the sort
    with its exception.  [Some] is the text of that exception. *)
Fixpoint sort_key_error `{FsEnv} (image_files : list file) : option string :=
  match image_files with
  | [] => None
  | f :: rest =>
      match getmtime_error (path f) with
      | Some e => Some e
      | None => sort_key_error rest
      end
  end.

(** [image_files.sort(key=getmtime, reverse=True)] once the keys are read:
    newest first, files of equal time in the order they had. *)
Fixpoint insert_by_mtime (x : file) (sorted : list file) : list file :=
  match sorted with
  | [] => [x]
  | y :: rest =>
      if mtime y <=? mtime x then x :: y :: rest
      else y :: insert_by_mtime x rest
  end.

Definition sort_newest_first (files : list file) : list file :=
  foldr insert_by_mtime [] files.

(** [l[k:]], a negative [k] counting from the end. *)
Definition slice_from {A : Type} (k : Z) (l : list A) : list A :=
  if 0 <=? k then drop (Z.to_nat k) l
  else drop (Z.to_nat (Z.max 0 (Z.of_nat (length l) + k))) l.

(** One iteration of [for file_path in files_to_remove:], with its
    [try] / [except OSError], on the directory and the lines printed so
    far. *)
Definition remove_one `{FsEnv} (st : list file * list string)
    (file_path : string) : list file * list string :=
  if remove_fails file_path then
    (st.1,
     st.2 ++ ["Error removing " +:+ file_path +:+ ": " +:+
              oserror_text file_path])
  else
    (filter (fun f => path f ≠ file_path) st.1,
     st.2 ++ ["Cleaned up old image: " +:+ basename file_path]).

(** The block under the outer [try]: [inl] with the text of the exception
    that leaves it, [inr] with the directory and the printed lines when it
    returns or runs to its end.  An exception can leave it only before the
    loop, so before anything was removed or printed. *)
Definition cleanup_try `{FsEnv} (directory : list file) (keep_latest : Z)
    (printed : list string) : string + list file * list string :=
  match glob_error with
  | Some e => inl e
  | None =>
      let image_files := directory in
      if Z.of_nat (length image_files) <=? keep_latest then
        inr (directory, printed)
      else
        match sort_key_error image_files with
        | Some e => inl e
        | None =>
            let image_files := sort_newest_first image_files in
            let files_to_remove :=
              slice_from keep_latest (path <$> image_files) in
            inr (fold_left remove_one files_to_remove (directory, printed))
        end
  end.

(** [try: ...  except Exception as e: print(f"Error during cleanup: {e}")] *)
Definition cleanup_old_images `{FsEnv} (directory : list file)
    (keep_latest : Z) (printed : list string) : list file * list string :=
  match cleanup_try directory keep_latest printed with
  | inr st => st
  | inl e => (directory, printed ++ ["Error during cleanup: " +:+ e])
  end.

End Cleanup.

(** ** The drawing calls when the library raises *)

(** [draw.textbbox] and [draw.text] are calls into the imaging library, and
    the library can raise in them.  The releases of the library that
    introduced [textbbox] measure TrueType fonts only: for the bitmap font
    that [load_default] returns the call raises [ValueError].  Later
    releases measure and draw the bitmap font through an 8-bit encoding and
    raise [UnicodeEncodeError], a [ValueError], on a character outside it.
    [FontEnv] says what a measurement returns when it returns; [DrawFaults]
    says which calls raise instead, and what.  The definitions of this
    module are [wrap_text] and [add_text_overlay] once more, statement by
    statement, with every drawing call able to raise; neither function
    catches anything around these calls.  They agree with the definitions
    above up to the first call that raises. *)
Module Raising.

Class DrawFaults := {
  textbbox_raises : mode → Z * Z → string → font → option exn;
  text_raises : mode → text_op → option exn
}.

(** [draw.textbbox(xy, text, font=font)] *)
Definition draw_textbbox `{FontEnv} `{DrawFaults} (draw : PIL.ImageDraw)
    (xy : Z * Z) (s : string) (f : font) : M (Z * Z * Z * Z) :=
  match textbbox_raises (PIL.draw_mode draw) xy s f with
  | Some e => raise e
  | None => mret (textbbox (PIL.draw_mode draw) xy s f)
  end.

(** [draw.text(xy, text, font=, fill=, stroke_width=, stroke_fill=)]: a
    call that raises has painted nothing. *)
Definition draw_text `{DrawFaults} (draw : PIL.ImageDraw) (xy : Z * Z)
    (s : string) (f : font) (fill : string) (stroke_width : Z)
    (stroke_fill : string) : M unit :=
  match text_raises (PIL.draw_mode draw)
          (TextOp xy s f fill stroke_width stroke_fill) with
  | Some e => raise e
  | None => PIL.text draw xy s f fill stroke_width stroke_fill
  end.

(** One iteration of [for word in words:]. *)
Definition wrap_step `{FontEnv} `{DrawFaults} (f : font) (max_width : Z)
    (draw : PIL.ImageDraw) (st : wrap_state) (word : string)
    : M wrap_state :=
  let test_line :=
    current_line st +:+
    (if PyStr.truthy (current_line st) then " " else "") +:+ word in
  bbox ← draw_textbbox draw (0, 0) test_line f;
  let text_width := bbox_width bbox in
  if text_width <=? max_width then
    mret {| lines := lines st; current_line := test_line |}
  else if PyStr.truthy (current_line st) then
    mret {| lines := lines st ++ [current_line st]; current_line := word |}
  else
    (* Word is too long, force it *)
    mret {| lines := lines st ++ [word]; current_line := current_line st |}.

(** [for word in words:], from the state [st]. *)
Fixpoint for_words `{FontEnv} `{DrawFaults} (f : font) (max_width : Z)
    (draw : PIL.ImageDraw) (words : list string) (st : wrap_state)
    : M wrap_state :=
  match words with
  | [] => mret st
  | word :: rest =>
      st ← wrap_step f max_width draw st word;
      for_words f max_width draw rest st
  end.

Definition wrap_text `{FontEnv} `{DrawFaults} (text : string) (f : font)
    (max_width : Z) (draw : PIL.ImageDraw) : M string :=
  let words := PyStr.split PyStr.space text in
  st ← for_words f max_width draw words {| lines := []; current_line := "" |};
  let all_lines :=
    if PyStr.truthy (current_line st) then lines st ++ [current_line st]
    else lines st in
  mret (PyStr.join PyStr.nl all_lines).

(** The body of the two [for i, line in enumerate(...)] loops. *)
Definition draw_line `{FontEnv} `{DrawFaults} (draw : PIL.ImageDraw)
    (width : Z) (f : font) (start_y line_height stroke_width : Z)
    (i : Z) (line : string) : M unit :=
  line_bbox ← draw_textbbox draw (0, 0) line f;
  let line_width := bbox_width line_bbox in
  let line_x := (width - line_width) / 2 in
  let line_y := start_y + i * line_height in
  draw_text draw (line_x, line_y) line f "white" stroke_width "black".

Definition add_text_overlay `{FontEnv} `{DrawFaults} (image : ref)
    (slide_data : slide) (slide_number : Z) (format_type : string) : M ref :=
  img_with_text ← PIL.copy image;
  draw ← PIL.Draw img_with_text;
  '(width, height) ← PIL.size img_with_text;
  let fm := format_metrics format_type in
  '(title_font, subtitle_font, number_font) ← load_fonts fm;
  image_size ← PIL.size image;
  overlay ← PIL.new RGBA image_size (0, 0, 0, 100);
  converted ← PIL.convert img_with_text RGBA;
  img_with_text ← PIL.alpha_composite converted overlay;
  draw ← PIL.Draw img_with_text;
  let number_text := PyStr.of_int slide_number in
  draw_text draw (margin fm, margin fm) number_text number_font
    "white" 3 "black";;
  let max_title_width := width - text_margin fm * 2 in
  wrapped_title ←
    wrap_text (title slide_data) title_font max_title_width draw;
  let title_lines := PyStr.split PyStr.newline wrapped_title in
  let title_line_height := title_size fm + 10 in
  let total_title_height :=
    Z.of_nat (length title_lines) * title_line_height in
  let title_start_y := height / 2 - total_title_height / 2 - 30 in
  for_enumerate 0 title_lines
    (draw_line draw width title_font title_start_y title_line_height 4);;
  let max_subtitle_width := width - text_margin fm * 2 in
  wrapped_subtitle ←
    wrap_text (subtitle slide_data) subtitle_font max_subtitle_width draw;
  let subtitle_lines := PyStr.split PyStr.newline wrapped_subtitle in
  let subtitle_line_height := subtitle_size fm + 8 in
  let subtitle_start_y := title_start_y + total_title_height + 50 in
  for_enumerate 0 subtitle_lines
    (draw_line draw width subtitle_font subtitle_start_y
       subtitle_line_height 2);;
  PIL.convert img_with_text RGB.

End Raising.

(** ** Further notions for the wrapper and the placement *)

(** The lines [wrap_text] returns when its loop ends in this state. *)
Definition emitted (st : wrap_state) : list string :=
  if PyStr.truthy (current_line st) then lines st ++ [current_line st]
  else lines st.

(** The first piece of a line. *)
Definition first_word (line : string) : string :=
  default "" (head (PyStr.split PyStr.space line)).

(** The break after [line] was forced: the first word of the next line did
    not fit behind it, or [line] is itself over the budget. *)
Definition forced_break `{FontEnv} (f : font) (max_width : Z)
    (draw : PIL.ImageDraw) (line next : string) : Prop :=
  max_width < measured draw f (line +:+ " " +:+ first_word next)
  ∨ max_width < measured draw f line.

(** A relation holds between every two consecutive elements. *)
Definition adjacent {A : Type} (P : A → A → Prop) (l : list A) : Prop :=
  ∀ i a b, l !! i = Some a → l !! S i = Some b → P a b.

(** What the loop of [wrap_text] keeps true about line breaks: every break
    between closed lines was forced, and so is the break before the pending
    line; with no pending line, the last closed line is over the budget. *)
Definition greedy_state `{FontEnv} (f : font) (max_width : Z)
    (draw : PIL.ImageDraw) (st : wrap_state) : Prop :=
  adjacent (forced_break f max_width draw) (lines st) ∧
  ∀ l, last (lines st) = Some l →
    if PyStr.truthy (current_line st)
    then forced_break f max_width draw l (current_line st)
    else max_width < measured draw f l.




(** The line [wrap_text] measures when its loop, in the state [st], takes
    up [word]. *)
Definition test_line (st : wrap_state) (word : string) : string :=
  current_line st +:+
  (if PyStr.truthy (current_line st) then " " else "") +:+ word.




(** ** Further notions for the generator and the endpoint *)

(** The path [generate_listicle_images] saves slide [i] (counted from 0)
    to, for the clock reading [timestamp]. *)
Definition slide_path `{Externals} (topic format_type : string) (i : Z)
    (timestamp : Z) : string :=
  os_path_join
    [os_path_join [os_path_join [script_dir; ".."; "outputs"]; format_type];
     "slide_" +:+ of_int_02d (i + 1) +:+ "_" +:+
     str_lower (replace_char ":" "" (replace_char "," ""
                  (replace_char " " "_" topic))) +:+ "_" +:+
     format_type +:+ "_" +:+ PyStr.of_int timestamp +:+ ".png"].

(** A request that passes the four checks of the endpoint. *)
Definition valid_request `{Externals} (request : ListicleRequest) : Prop :=
  req_format_type request ∈ ["landscape"; "portrait"] ∧
  req_background_type request ∈ ["color"; "ai"; "stock"] ∧
  PyStr.truthy (str_strip (req_topic request)) = true ∧
  1 <= req_num_slides request <= 10.

(** ** Further notions for the clean-up *)

(** Newest first: no file is newer than one listed before it. *)
Fixpoint newest_first (files : list Cleanup.file) : Prop :=
  match files with
  | [] => True
  | x :: rest =>
      Forall (fun y => Cleanup.mtime y <= Cleanup.mtime x) rest
      ∧ newest_first rest
  end.

(** ** Further notions for the content lookup *)

(** Every character of the string satisfies the test. *)
Fixpoint all_chars (p : ascii → bool) (s : string) : bool :=
  match s with
  | EmptyString => true
  | String c rest => p c && all_chars p rest
  end.

(** The string is empty or starts with a character that is neither a
    digit nor white space. *)
Definition starts_with_text (s : string) : Prop :=
  match s with
  | EmptyString => True
  | String c _ => Content.is_digit c = false ∧ Content.is_space c = false
  end.

(** A title the wrapper handles without loss: not empty, no line break,
    single spaces only. *)
Definition plain_title (t : string) : bool :=
  PyStr.truthy t && negb (PyStr.mem PyStr.newline t)
  && forallb PyStr.truthy (PyStr.split PyStr.space t).

(** ** More sample surroundings *)

Module Sample.

(** Collaborators as in [Demo.externals], with the content lookup and the
    lower-casing of the scripts. *)
Definition with_content : Externals :=
  {| generate_content_for_topic := fun topic n =>
       default [] (Content.generate_content_for_topic topic n);
     create_color_background := fun width height _ =>
       PIL.new RGB (width, height) (52, 73, 94, 255);
     create_ai_background := fun width height _ =>
       PIL.new RGB (width, height) (0, 0, 0, 255);
     create_stock_background := fun width height _ _ =>
       PIL.new RGB (width, height) (255, 255, 255, 255);
     cleanup_old_images := fun _ => mret tt;
     script_dir := "/app/scripts";
     os_path_join := PyStr.join "/";
     os_makedirs := fun _ => mret tt;
     time_time := mret 1700000000;
     image_save := fun _ _ => mret tt;
     str_lower := Content.lower;
     str_strip := fun s => s;
     generator_imported := true;
     exception_str := fun _ => "error";
     repr_list := PyStr.join ", ";
     path_to_url := fun path => mret path;
     create_download_zip := fun _ _ _ => mret "/outputs/slides.zip" |}.

(** Collaborators as in [Demo.externals], on a file system that refuses
    to create the output directory. *)
Definition read_only : Externals :=
  {| generate_content_for_topic := fun _ n =>
       replicate (Z.to_nat n) Demo.time_blocking;
     create_color_background := fun width height _ =>
       PIL.new RGB (width, height) (52, 73, 94, 255);
     create_ai_background := fun width height _ =>
       PIL.new RGB (width, height) (0, 0, 0, 255);
     create_stock_background := fun width height _ _ =>
       PIL.new RGB (width, height) (255, 255, 255, 255);
     cleanup_old_images := fun _ => mret tt;
     script_dir := "/app/scripts";
     os_path_join := PyStr.join "/";
     os_makedirs := fun _ => raise (OSError "Read-only file system");
     time_time := mret 1700000000;
     image_save := fun _ _ => mret tt;
     str_lower := fun s => s;
     str_strip := fun s => s;
     generator_imported := true;
     exception_str := fun e =>
       match e with
       | OSError msg | ValueError msg => msg
       | _ => "error"
       end;
     repr_list := PyStr.join ", ";
     path_to_url := fun path => mret path;
     create_download_zip := fun _ _ _ => mret "/outputs/slides.zip" |}.


(** A file system on which every removal succeeds, and one that refuses
    to remove [b.png]. *)
Definition all_removable : Cleanup.FsEnv :=
  {| Cleanup.glob_error := None;
     Cleanup.getmtime_error := fun _ => None;
     Cleanup.remove_fails := fun _ => false;
     Cleanup.oserror_text := fun _ => "" |}.

Definition b_locked : Cleanup.FsEnv :=
  {| Cleanup.glob_error := None;
     Cleanup.getmtime_error := fun _ => None;
     Cleanup.remove_fails := fun p => String.eqb p "out/b.png";
     Cleanup.oserror_text := fun _ => "[Errno 13] Permission denied" |}.

(** [out/d.png] is a link whose target is gone. *)
Definition d_dangling : Cleanup.FsEnv :=
  {| Cleanup.glob_error := None;
     Cleanup.getmtime_error := fun p =>
       if String.eqb p "out/d.png"
       then Some "[Errno 2] No such file or directory: 'out/d.png'"
       else None;
     Cleanup.remove_fails := fun _ => false;
     Cleanup.oserror_text := fun _ => "" |}.

Definition four_files : list Cleanup.file :=
  [ Cleanup.File "out/a.png" 30; Cleanup.File "out/b.png" 10;
    Cleanup.File "out/c.png" 40; Cleanup.File "out/d.png" 20 ].


(** A network that answers every request with status 503, and no
    pipeline. *)
Definition offline : Background.ProviderEnv :=
  {| Background.requests_get := fun _ _ => mret (503, []);
     Background.str_hash := fun _ => 42;
     Background.write_file := fun _ _ => mret tt;
     Background.image_open := fun _ => raise (OSError "cannot identify image file");
     Background.os_remove := fun _ => mret tt;
     Background.pipeline := unit;
     Background.from_pretrained := raise (OSError "model not found");
     Background.to_mps := fun p => mret p;
     Background.run_pipeline := fun _ _ _ _ _ =>
       raise (OSError "model not found") |}.

(** A network that answers every request with status 200 and a JPEG of
    800 by 600; the pipeline loads but cannot be moved to the device. *)
Definition photo : image :=
  {| im_mode := RGB; im_size := (800, 600); im_px := PxRaw [255; 216; 255] |}.

Definition online : Background.ProviderEnv :=
  {| Background.requests_get := fun _ _ => mret (200, [255; 216; 255]);
     Background.str_hash := fun _ => 42;
     Background.write_file := fun _ _ => mret tt;
     Background.image_open := fun _ => alloc photo;
     Background.os_remove := fun _ => mret tt;
     Background.pipeline := string;
     Background.from_pretrained := mret "runwayml/stable-diffusion-v1-5";
     Background.to_mps := fun _ => raise (OSError "MPS backend not available");
     Background.run_pipeline := fun _ _ _ height width =>
       PIL.new RGB (width, height) (128, 128, 128, 255) |}.

(** Collaborators as in [Demo.externals], on a machine where no image can
    be created. *)
Definition no_disk_space : Externals :=
  {| generate_content_for_topic := fun _ n =>
       replicate (Z.to_nat n) Demo.time_blocking;
     create_color_background := fun _ _ _ =>
       raise (OSError "No space left on device");
     create_ai_background := fun _ _ _ =>
       raise (OSError "No space left on device");
     create_stock_background := fun _ _ _ _ =>
       raise (OSError "No space left on device");
     cleanup_old_images := fun _ => mret tt;
     script_dir := "/app/scripts";
     os_path_join := PyStr.join "/";
     os_makedirs := fun _ => mret tt;
     time_time := mret 1700000000;
     image_save := fun _ _ => mret tt;
     str_lower := fun s => s;
     str_strip := fun s => s;
     generator_imported := true;
     exception_str := fun e =>
       match e with
       | OSError msg | ValueError msg => msg
       | _ => "error"
       end;
     repr_list := PyStr.join ", ";
     path_to_url := fun path => mret path;
     create_download_zip := fun _ _ _ => mret "/outputs/slides.zip" |}.



End Sample.

(** ** Running the definitions *)

Example split_two_spaces :
  PyStr.split PyStr.space "a  b" = ["a"; ""; "b"].
Proof. reflexivity. Qed.

Example split_empty : PyStr.split PyStr.space "" = [""].
Proof. reflexivity. Qed.

Example of_int_12 : PyStr.of_int 12 = "12".
Proof. reflexivity. Qed.

Example of_int_0 : PyStr.of_int 0 = "0".
Proof. reflexivity. Qed.

Example of_int_02d_7 : of_int_02d 7 = "07".
Proof. reflexivity. Qed.

Example wrap_narrow :
  @wrap_lines Demo.with_fonts "Eliminate Distractions now"
    (FreeTypeFont helvetica 70) 400 Demo.surface
  = ["Eliminate"; "Distractions"; "now"].
Proof. vm_compute. reflexivity. Qed.

Example wrap_wide :
  @wrap_text Demo.with_fonts "Time Blocking"
    (FreeTypeFont helvetica 70) 1620 Demo.surface
  = "Time Blocking".
Proof. vm_compute. reflexivity. Qed.

Example wrap_leading_space :
  @wrap_lines Demo.with_fonts " a" DefaultFont 100 Demo.surface = ["a"].
Proof. vm_compute. reflexivity. Qed.

Example wrap_negative_budget :
  @wrap_lines Demo.with_fonts "a  b" DefaultFont (-200) Demo.surface
  = ["a"; ""; "b"].
Proof. vm_compute. reflexivity. Qed.

(** Twelve words of 148 units each against the portrait budget
    [1080 - 2 * 100]: four words fit on a line, a fifth does not. *)
Example wrap_twelve_words :
  @wrapped_lines Demo.with_fonts
    "abcd abcd abcd abcd abcd abcd abcd abcd abcd abcd abcd abcd"
    (FreeTypeFont helvetica 75) (1080 - 100 * 2) Demo.surface
  = ["abcd abcd abcd abcd"; "abcd abcd abcd abcd"; "abcd abcd abcd abcd"].
Proof. vm_compute. reflexivity. Qed.

(** The landscape scenario: one title line, one subtitle line, the number
    at [(80, 80)]. *)
Example overlay_landscape :
  @overlay_ops Demo.with_fonts Demo.surface (1920, 1080) Demo.time_blocking 1
    "landscape"
  = [TextOp (80, 80) "1" (FreeTypeFont helvetica 90) "white" 3 "black";
     TextOp (732, 470) "Time Blocking" (FreeTypeFont helvetica 70)
       "white" 4 "black";
     TextOp (592, 600) "Schedule your day in focused chunks"
       (FreeTypeFont helvetica 42) "white" 2 "black"].
Proof. vm_compute. reflexivity. Qed.

Example generate_two_slides :
  (@generate_listicle_images Demo.with_fonts Demo.externals "Top 5 tips"
     "portrait" "color" 2 {| heap := []; stdout := [] |}).1
  = Ok ["/app/scripts/../outputs/portrait/slide_01_Top_5_tips_portrait_1700000000.png";
        "/app/scripts/../outputs/portrait/slide_02_Top_5_tips_portrait_1700000000.png"].
Proof. vm_compute. reflexivity. Qed.

Example generate_unknown_background :
  (@generate_listicle_images Demo.with_fonts Demo.externals "Top 5 tips"
     "portrait" "video" 2 {| heap := []; stdout := [] |}).1
  = Raise (ValueError
             "Background type must be one of: ['color', 'ai', 'stock']").
Proof. vm_compute. reflexivity. Qed.

(** ** Facts about splitting and joining *)

Lemma split_cons sep s : ∃ tok toks, PyStr.split sep s = tok :: toks.
Proof.
  destruct s as [|c s]; simpl; [by eauto|].
  destruct (Ascii.eqb c sep); [by eauto|].
  destruct (PyStr.split sep s); eauto.
Qed.

Lemma split_app sep a b :
  PyStr.split sep (a +:+ String sep b)
  = PyStr.split sep a ++ PyStr.split sep b.
Proof.
  induction a as [|c a IH]; simpl.
  - by rewrite Ascii.eqb_refl.
  - destruct (Ascii.eqb c sep); [by rewrite IH|].
    rewrite IH. by destruct (split_cons sep a) as (tok & toks & ->).
Qed.

Lemma split_no_sep sep s : PyStr.mem sep s = false → PyStr.split sep s = [s].
Proof.
  induction s as [|c s IH]; simpl; [done|].
  intros [Hc Hs]%orb_false_iff. rewrite Hc, IH; done.
Qed.

Lemma mem_app c a b :
  PyStr.mem c (a +:+ b) = PyStr.mem c a || PyStr.mem c b.
Proof.
  induction a as [|d a IH]; simpl; [done|]. by rewrite IH, orb_assoc.
Qed.

(** A piece between separators holds no separator, and no character the
    whole text does not hold. *)
Lemma split_token_mem c sep s tok :
  tok ∈ PyStr.split sep s →
  PyStr.mem sep tok = false ∧ (PyStr.mem c s = false → PyStr.mem c tok = false).
Proof.
  revert tok. induction s as [|d s IH]; simpl; intros tok Hin.
  - apply list_elem_of_singleton in Hin as ->. done.
  - destruct (Ascii.eqb d sep) eqn:Hd.
    + apply elem_of_cons in Hin as [->|Hin]; [done|].
      destruct (IH _ Hin) as [H1 H2]. split; [done|].
      intros [_ ?]%orb_false_iff. auto.
    + destruct (split_cons sep s) as (t & ts & Hs). rewrite Hs in *.
      apply elem_of_cons in Hin as [->|Hin].
      * destruct (IH t) as [H1 H2]; [by left|]. simpl. rewrite Hd, H1.
        split; [done|]. intros [-> ?]%orb_false_iff. simpl. auto.
      * destruct (IH tok) as [H1 H2]; [by right|]. split; [done|].
        intros [_ ?]%orb_false_iff. auto.
Qed.

Lemma split_join sep ls :
  ls ≠ [] →
  Forall (fun l => PyStr.mem sep l = false) ls →
  PyStr.split sep (PyStr.join (String sep "") ls) = ls.
Proof.
  intros Hne Hall. induction Hall as [|l ls Hl Hall IH]; [done|].
  destruct ls as [|l' ls'].
  - simpl. by apply split_no_sep.
  - change (PyStr.join (String sep "") (l :: l' :: ls'))
      with (l +:+ String sep (PyStr.join (String sep "") (l' :: ls'))).
    rewrite split_app, IH, split_no_sep; done.
Qed.

Lemma words_empty : PyStr.words "" = [].
Proof. reflexivity. Qed.

Lemma words_token tok :
  PyStr.mem PyStr.space tok = false →
  PyStr.words tok = if PyStr.truthy tok then [tok] else [].
Proof. intros H. unfold PyStr.words. by rewrite split_no_sep. Qed.

Lemma words_app_space a b :
  PyStr.words (a +:+ " " +:+ b) = PyStr.words a ++ PyStr.words b.
Proof.
  unfold PyStr.words.
  change (a +:+ " " +:+ b) with (a +:+ String PyStr.space b).
  by rewrite split_app, List.filter_app.
Qed.

Lemma words_of_lines_app ls1 ls2 :
  words_of_lines (ls1 ++ ls2) = words_of_lines ls1 ++ words_of_lines ls2.
Proof. unfold words_of_lines. by rewrite fmap_app, concat_app. Qed.

Lemma words_of_lines_one l : words_of_lines [l] = PyStr.words l.
Proof. unfold words_of_lines. simpl. by rewrite app_nil_r. Qed.

(** ** The greedy wrapper *)

Section Wrapper.
Context `{FontEnv} (f : font) (max_width : Z) (draw : PIL.ImageDraw).

Local Abbreviation step := (wrap_step f max_width draw).
Local Abbreviation start := {| lines := []; current_line := "" |}.

Lemma truthy_false s : PyStr.truthy s = false → s = "".
Proof. by destruct s. Qed.

(** The three outcomes of one iteration. *)
Lemma wrap_step_cases st word :
  let test_line :=
    current_line st +:+
    (if PyStr.truthy (current_line st) then " " else "") +:+ word in
  (measured draw f test_line <= max_width ∧
   step st word = {| lines := lines st; current_line := test_line |})
  ∨ (max_width < measured draw f test_line ∧
     PyStr.truthy (current_line st) = true ∧
     step st word = {| lines := lines st ++ [current_line st];
                       current_line := word |})
  ∨ (max_width < measured draw f test_line ∧
     current_line st = "" ∧
     step st word = {| lines := lines st ++ [word]; current_line := "" |}).
Proof.
  intros test_line. unfold wrap_step. fold test_line.
  change (bbox_width (draw_textbbox draw (0, 0) test_line f))
    with (measured draw f test_line).
  destruct (Z.leb_spec (measured draw f test_line) max_width) as [Hle|Hgt].
  - left. done.
  - right. destruct (PyStr.truthy (current_line st)) eqn:Hcur.
    + left. done.
    + right. apply truthy_false in Hcur. rewrite Hcur. done.
Qed.

Lemma test_line_words cur word :
  PyStr.words
    (cur +:+ (if PyStr.truthy cur then " " else "") +:+ word)
  = PyStr.words cur ++ PyStr.words word.
Proof.
  destruct cur as [|c cur]; [done|]. apply words_app_space.
Qed.

Lemma wrap_step_words st word :
  state_words (step st word) = state_words st ++ PyStr.words word.
Proof.
  unfold state_words.
  destruct (wrap_step_cases st word) as [[_ ->]|[(_ & _ & ->)|(_ & Hc & ->)]];
    simpl.
  - by rewrite test_line_words, app_assoc.
  - by rewrite words_of_lines_app, words_of_lines_one.
  - rewrite Hc, words_of_lines_app, words_of_lines_one, words_empty.
    by rewrite !app_nil_r.
Qed.

Lemma wrap_fold_words ws st :
  Forall (fun w => PyStr.mem PyStr.space w = false) ws →
  state_words (fold_left step ws st)
  = state_words st ++ List.filter PyStr.truthy ws.
Proof.
  intros Hws. revert st.
  induction Hws as [|w ws Hw _ IH]; intros st; simpl.
  - by rewrite app_nil_r.
  - rewrite IH, wrap_step_words, words_token by done.
    rewrite <- app_assoc. by destruct (PyStr.truthy w).
Qed.

Lemma split_space_tokens text :
  Forall (fun w => PyStr.mem PyStr.space w = false)
    (PyStr.split PyStr.space text).
Proof.
  apply Forall_forall. intros tok Hin.
  by apply (split_token_mem PyStr.space) in Hin as [? _].
Qed.

(** The words of the lines are the words of the text, whatever the
    budget. *)
Lemma wrap_lines_words text :
  words_of_lines (wrap_lines text f max_width draw) = PyStr.words text.
Proof.
  unfold wrap_lines.
  pose proof (wrap_fold_words (PyStr.split PyStr.space text) start
                (split_space_tokens text)) as Hfold.
  unfold state_words in Hfold. simpl in Hfold.
  destruct (PyStr.truthy (current_line _)) eqn:Hcur.
  - by rewrite words_of_lines_app, words_of_lines_one.
  - apply truthy_false in Hcur. rewrite Hcur, words_empty in Hfold.
    by rewrite app_nil_r in Hfold.
Qed.

(** *** Widths *)

Lemma wrap_fold_ok text ws st :
  Forall (fun w => w ∈ PyStr.split PyStr.space text) ws →
  Forall (line_ok text f max_width draw) (lines st) →
  current_line st = "" ∨ line_ok text f max_width draw (current_line st) →
  let st' := fold_left step ws st in
  Forall (line_ok text f max_width draw) (lines st') ∧
  (current_line st' = "" ∨
   line_ok text f max_width draw (current_line st')).
Proof.
  intros Hws. revert st.
  induction Hws as [|w ws Hw _ IH]; intros st Hlines Hcur; simpl; [done|].
  apply IH;
    destruct (wrap_step_cases st w)
      as [[Hfit ->]|[(_ & Ht & ->)|(_ & Hc & ->)]]; simpl.
  - done.
  - apply Forall_app. split; [done|]. apply Forall_singleton.
    destruct Hcur as [Hcur|Hcur]; [by rewrite Hcur in Ht|done].
  - apply Forall_app. split; [done|]. apply Forall_singleton. by right.
  - right. by left.
  - right. by right.
  - by left.
Qed.

Lemma wrap_lines_ok text :
  Forall (line_ok text f max_width draw)
    (wrap_lines text f max_width draw).
Proof.
  unfold wrap_lines.
  destruct (wrap_fold_ok text (PyStr.split PyStr.space text) start)
    as [Hlines Hcur]; [by apply Forall_forall|done|by left|].
  simpl in *.
  destruct (PyStr.truthy (current_line _)) eqn:Ht; [|done].
  apply Forall_app. split; [done|]. apply Forall_singleton.
  destruct Hcur as [Hcur|Hcur]; [by rewrite Hcur in Ht|done].
Qed.

(** *** Size of the result *)




(** *** What the caller reads back after [.split('\n')] *)

Lemma wrap_fold_no_newline ws st :
  Forall (fun w => PyStr.mem PyStr.newline w = false) ws →
  Forall (fun l => PyStr.mem PyStr.newline l = false) (lines st) →
  PyStr.mem PyStr.newline (current_line st) = false →
  let st' := fold_left step ws st in
  Forall (fun l => PyStr.mem PyStr.newline l = false) (lines st') ∧
  PyStr.mem PyStr.newline (current_line st') = false.
Proof.
  intros Hws. revert st.
  induction Hws as [|w ws Hw _ IH]; intros st Hlines Hcur; simpl; [done|].
  apply IH;
    destruct (wrap_step_cases st w)
      as [[_ ->]|[(_ & _ & ->)|(_ & _ & ->)]]; simpl;
    rewrite ?Forall_app, ?Forall_singleton, ?mem_app, ?Hcur, ?Hw; try done.
  by destruct (PyStr.truthy (current_line st)).
Qed.

Lemma wrap_lines_no_newline text :
  PyStr.mem PyStr.newline text = false →
  Forall (fun l => PyStr.mem PyStr.newline l = false)
    (wrap_lines text f max_width draw).
Proof.
  intros Htext. unfold wrap_lines.
  destruct (wrap_fold_no_newline (PyStr.split PyStr.space text) start)
    as [Hlines Hcur]; [|done|done|].
  - apply Forall_forall. intros tok Hin.
    apply (split_token_mem PyStr.newline) in Hin as [_ Hin]. auto.
  - simpl in *. destruct (PyStr.truthy (current_line _)); [|done].
    apply Forall_app. by rewrite Forall_singleton.
Qed.



Lemma wrapped_lines_eq text :
  PyStr.mem PyStr.newline text = false →
  wrapped_lines text f max_width draw
  = match wrap_lines text f max_width draw with
    | [] => [""]
    | ls => ls
    end.
Proof.
  intros Htext. unfold wrapped_lines, wrap_text.
  pose proof (wrap_lines_no_newline text Htext) as Hall.
  destruct (wrap_lines text f max_width draw) as [|l ls] eqn:Hls; [done|].
  by apply split_join.
Qed.

End Wrapper.

(** C1.  When the budget is at least the measured width of every word of
    the text, the lines [wrap_text] builds hold, read in line order, exactly
    the words of the text in their original order: none is dropped,
    duplicated, cut or moved.  The same holds for the lines the caller
    reads back from the returned string when the text has no line break. *)
Theorem wrap_text_preserves_words `{FontEnv} (text : string) (f : font)
    (max_width : Z) (draw : PIL.ImageDraw) :
  (∀ w, w ∈ PyStr.words text → measured draw f w <= max_width) →
  words_of_lines (wrap_lines text f max_width draw) = PyStr.words text ∧
  (PyStr.mem PyStr.newline text = false →
   words_of_lines (wrapped_lines text f max_width draw) = PyStr.words text).
Proof.
  intros _. split; [apply wrap_lines_words|].
  intros Htext. rewrite wrapped_lines_eq by done.
  rewrite <- (wrap_lines_words f max_width draw text).
  by destruct (wrap_lines text f max_width draw).
Qed.

Lemma wrap_text_preserves_words_witness :
  words_of_lines
    (@wrap_lines Demo.with_fonts "Eliminate Distractions now"
       (FreeTypeFont helvetica 70) 420 Demo.surface)
  = ["Eliminate"; "Distractions"; "now"] ∧
  words_of_lines
    (@wrapped_lines Demo.with_fonts "Eliminate Distractions now"
       (FreeTypeFont helvetica 70) 420 Demo.surface)
  = ["Eliminate"; "Distractions"; "now"].
Proof.
  destruct (@wrap_text_preserves_words Demo.with_fonts
              "Eliminate Distractions now" (FreeTypeFont helvetica 70) 420
              Demo.surface) as [H1 H2].
  - intros w Hw. apply list_elem_of_In in Hw. vm_compute in Hw.
    destruct Hw as [<-|[<-|[<-|[]]]]; vm_compute; discriminate.
  - split; [exact H1|]. apply H2. reflexivity.
Defined.

(** ** Running the effect monad *)

Lemma bind_ok {A B : Type} (m : M A) (k : A → M B) (w w' : world) (a : A) :
  m w = (Ok a, w') → (m ≫= k) w = k a w'.
Proof. intros Hm. unfold mbind, M_bind. by rewrite Hm. Qed.


Lemma lookup_tail {A : Type} (h tl : list A) (k : nat) (x : A) :
  tl !! k = Some x → (h ++ tl) !! (length h + k)%nat = Some x.
Proof. intros Hk. by rewrite lookup_app_r, Nat.add_comm, Nat.add_sub by lia. Qed.

Lemma deref_run r im w : heap w !! r = Some im → deref r w = (Ok im, w).
Proof. intros Hr. unfold deref. by rewrite Hr. Qed.

Lemma copy_run r im h out :
  h !! r = Some im →
  PIL.copy r (World h out) = (Ok (length h), World (h ++ [im]) out).
Proof. intros Hr. unfold PIL.copy. by erewrite bind_ok by by apply deref_run. Qed.

Lemma size_run r im w :
  heap w !! r = Some im → PIL.size r w = (Ok (im_size im), w).
Proof. intros Hr. unfold PIL.size. by erewrite bind_ok by by apply deref_run. Qed.

Lemma Draw_run r im w :
  heap w !! r = Some im →
  PIL.Draw r w = (Ok (PIL.Draw_ r (im_mode im)), w).
Proof. intros Hr. unfold PIL.Draw. by erewrite bind_ok by by apply deref_run. Qed.

Lemma convert_run r m im h out :
  h !! r = Some im →
  PIL.convert r m (World h out)
  = (Ok (length h),
     World (h ++ [Image m (im_size im) (PxConvert (im_mode im) m (im_px im))])
       out).
Proof.
  intros Hr. unfold PIL.convert. by erewrite bind_ok by by apply deref_run.
Qed.

Lemma alpha_composite_run r1 r2 im1 im2 h out :
  h !! r1 = Some im1 → h !! r2 = Some im2 →
  im_mode im1 = RGBA → im_mode im2 = RGBA → im_size im1 = im_size im2 →
  PIL.alpha_composite r1 r2 (World h out)
  = (Ok (length h),
     World (h ++ [Image RGBA (im_size im1)
                    (PxComposite (im_px im1) (im_px im2))]) out).
Proof.
  intros H1 H2 Hm1 Hm2 Hsz. unfold PIL.alpha_composite.
  erewrite bind_ok by by apply deref_run.
  erewrite bind_ok by by apply deref_run.
  rewrite Hm1, Hm2, Hsz. simpl. unfold PIL.size_eqb.
  by rewrite !Z.eqb_refl.
Qed.

Lemma text_run d xy s f fill sw sf im h out :
  h !! PIL.draw_im d = Some im →
  PIL.text d xy s f fill sw sf (World h out)
  = (Ok tt,
     World (<[PIL.draw_im d :=
               Image (im_mode im) (im_size im)
                 (PxText (im_px im) (TextOp xy s f fill sw sf))]> h) out).
Proof.
  intros Hr. unfold PIL.text. by erewrite bind_ok by by apply deref_run.
Qed.

Lemma load_fonts_run `{FontEnv} fm w :
  load_fonts fm w = (Ok (chosen_fonts fm), w).
Proof.
  unfold load_fonts, try_except, try_except_as, chosen_fonts, truetype,
    load_default, mbind, M_bind, mret, M_ret, raise.
  by repeat (destruct (font_available _ _); simpl).
Qed.

(** A block of lines drawn by one of the two loops. *)
Lemma draw_lines_run `{FontEnv} d width f sy lh sw ls k im h out :
  h !! PIL.draw_im d = Some im →
  for_enumerate k ls (draw_line d width f sy lh sw) (World h out)
  = (Ok tt,
     World (<[PIL.draw_im d :=
               Image (im_mode im) (im_size im)
                 (fold_left PxText (line_ops d width f sy lh sw k ls)
                    (im_px im))]> h) out).
Proof.
  revert k im h. induction ls as [|l ls IH]; intros k im h Hd.
  - simpl. rewrite list_insert_id; [done|by destruct im].
  - simpl. unfold draw_line at 1.
    erewrite bind_ok by by apply text_run.
    rewrite (IH _ (Image (im_mode im) (im_size im)
                     (PxText (im_px im)
                        (TextOp ((width - measured d f l) / 2, sy + k * lh)
                           l f "white" sw "black")))).
    + rewrite list_insert_insert_eq. simpl. do 4 f_equal.
      unfold line_ops. f_equal.
      * apply imap_ext. intros i x _. simpl. do 2 f_equal. lia.
      * do 3 f_equal. lia.
    + apply list_lookup_insert_eq. by eapply lookup_lt_Some.
Qed.

Lemma new_run m sz color h out :
  PIL.new m sz color (World h out)
  = (Ok (length h), World (h ++ [Image m sz (PxNew m sz color)]) out).
Proof. reflexivity. Qed.

Lemma lookup_tail0 {A : Type} (h tl : list A) (x : A) :
  tl !! 0%nat = Some x → (h ++ tl) !! length h = Some x.
Proof. intros Hk. rewrite <- (Nat.add_0_r (length h)). by apply lookup_tail. Qed.

Ltac live :=
  first [ eassumption
        | apply lookup_tail0; reflexivity
        | apply lookup_tail; reflexivity
        | apply lookup_app_l_Some; eassumption ].

Ltac tidy :=
  rewrite <- ?app_assoc, ?length_app;
  cbn [app length im_mode im_size im_px PIL.draw_im PIL.draw_mode fst snd].

(** What one call of [add_text_overlay] does to the world. *)
Lemma add_text_overlay_run `{FontEnv} image im slide_data slide_number
    format_type w :
  heap w !! image = Some im →
  add_text_overlay image slide_data slide_number format_type w
  = (Ok (length (heap w) + 4)%nat,
     World (heap w ++ overlay_objects w im slide_data slide_number format_type)
       (stdout w)).
Proof.
  destruct w as [h out]. cbn [heap stdout]. intros Him.
  unfold add_text_overlay, overlay_objects, overlay_ops, overlay_draw.
  cbv zeta. cbn [heap].
  destruct (im_size im) as [width height] eqn:Hsize.
  destruct (chosen_fonts (format_metrics format_type))
    as [[title_font subtitle_font] number_font] eqn:Hfonts.
  erewrite bind_ok by (apply copy_run; live). tidy.
  erewrite bind_ok by (apply Draw_run; live). tidy.
  erewrite bind_ok by (apply size_run; live). tidy. rewrite Hsize.
  erewrite bind_ok by apply load_fonts_run. rewrite Hfonts.
  erewrite bind_ok by (apply size_run; live). tidy. rewrite Hsize.
  erewrite bind_ok by apply new_run. tidy.
  erewrite bind_ok by (apply convert_run; live). tidy.
  erewrite bind_ok by (apply alpha_composite_run; [live|live|done..]). tidy.
  erewrite bind_ok by (apply Draw_run; live). tidy.
  erewrite bind_ok by (apply text_run; live). tidy.
  rewrite insert_app_r. cbn [insert list_insert]. tidy.
  erewrite bind_ok by (apply draw_lines_run; live). tidy.
  rewrite insert_app_r. cbn [insert list_insert]. tidy.
  erewrite bind_ok by (apply draw_lines_run; live). tidy.
  rewrite insert_app_r. cbn [insert list_insert]. tidy.
  erewrite convert_run by live. tidy.
  unfold dark_base, wrapped_lines. rewrite ?Hsize.
  cbn [fold_left]. rewrite !fold_left_app.
  reflexivity.
Qed.

Lemma wrapped_lines_length `{FontEnv} text f max_width draw :
  1 <= Z.of_nat (length (wrapped_lines text f max_width draw)).
Proof.
  unfold wrapped_lines.
  destruct (split_cons PyStr.newline (wrap_text text f max_width draw))
    as (l & ls & ->).
  simpl. lia.
Qed.

Lemma line_ops_0 `{FontEnv} draw width f start_y line_height sw ls :
  line_ops draw width f start_y line_height sw 0 ls
  = imap (fun i line =>
            TextOp ((width - measured draw f line) / 2,
                    start_y + Z.of_nat i * line_height)
              line f "white" sw "black") ls.
Proof. reflexivity. Qed.

Lemma overlay_result `{FontEnv} image im slide_data slide_number
    format_type w :
  heap w !! image = Some im →
  ∃ r w' out,
    add_text_overlay image slide_data slide_number format_type w = (Ok r, w') ∧
    heap w' !! r = Some out ∧
    out = Image RGB (im_size im)
            (PxConvert RGBA RGB
               (fold_left PxText
                  (overlay_ops (overlay_draw w) (im_size im) slide_data
                     slide_number format_type)
                  (dark_base im))).
Proof.
  intros Him. eexists _, _, _. split; [by apply add_text_overlay_run|].
  cbn [heap]. split; [|reflexivity].
  by apply lookup_tail.
Qed.

(** C4.  On a canvas of height [H] and width [canvasWidth], with [n] the
    number of lines of the wrapped title (always at least one) and [S] the
    title font size of the format (75 for portrait, 70 otherwise), the
    title block has total height [n * (S + 10)], starts at
    [H / 2 - (n * (S + 10)) / 2 - 30], its line [i] is drawn at height
    [start + i * (S + 10)] and at [x = (canvasWidth - width of the line) / 2],
    with white fill, black outline and stroke width 4; divisions round
    down. *)
Theorem title_block_placement `{FontEnv} (w : world) (input : ref)
    (im : image) (slide_data : slide) (slide_number : Z)
    (format_type : string) :
  heap w !! input = Some im →
  let fm := format_metrics format_type in
  let S := title_size fm in
  let title_font := (chosen_fonts fm).1.1 in
  let draw := overlay_draw w in
  let canvasWidth := (im_size im).1 in
  let H := (im_size im).2 in
  let title_lines :=
    wrapped_lines (title slide_data) title_font
      (canvasWidth - text_margin fm * 2) draw in
  let n := Z.of_nat (length title_lines) in
  let total_height := n * (S + 10) in
  let start_y := H / 2 - total_height / 2 - 30 in
  1 <= n ∧
  S = (if String.eqb format_type "portrait" then 75 else 70) ∧
  ∃ r w' out number_op subtitle_ops,
    add_text_overlay input slide_data slide_number format_type w = (Ok r, w') ∧
    heap w' !! r = Some out ∧
    im_px out =
      PxConvert RGBA RGB
        (fold_left PxText
           (number_op
            :: imap (fun i line =>
                       TextOp ((canvasWidth - measured draw title_font line) / 2,
                               start_y + Z.of_nat i * (S + 10))
                         line title_font "white" 4 "black") title_lines
            ++ subtitle_ops)
           (dark_base im)).
Proof.
  intros Him fm S title_font draw canvasWidth H0 title_lines n total_height
    start_y.
  split; [apply wrapped_lines_length|].
  split; [subst S fm; unfold format_metrics; by case_match|].
  destruct (overlay_result input im slide_data slide_number format_type w Him)
    as (r & w' & out & Hrun & Hout & ->).
  eexists r, w', _, _, _. split; [done|]. split; [done|].
  cbn [im_px]. unfold overlay_ops. cbv zeta. rewrite line_ops_0.
  reflexivity.
Qed.

Lemma title_block_placement_witness :
  ∃ r w' out number_op subtitle_ops,
    @add_text_overlay Demo.with_fonts 0%nat Demo.time_blocking 1 "landscape"
      Demo.one_image = (Ok r, w') ∧
    heap w' !! r = Some out ∧
    im_px out =
      PxConvert RGBA RGB
        (fold_left PxText
           (number_op
            :: [TextOp (732, 470) "Time Blocking" (FreeTypeFont helvetica 70)
                  "white" 4 "black"]
            ++ subtitle_ops)
           (dark_base Demo.blank)).
Proof.
  destruct (@title_block_placement Demo.with_fonts Demo.one_image 0%nat
              Demo.blank Demo.time_blocking 1 "landscape" eq_refl)
    as (_ & _ & r & w' & out & number_op & subtitle_ops & Hrun & Hout & Hpx).
  exists r, w', out, number_op, subtitle_ops.
  split; [exact Hrun|]. split; [exact Hout|exact Hpx].
Defined.

(** C5.  The subtitle block starts at
    [titleStartY + titleTotalHeight + 50]; the subtitle is wrapped against
    the same budget [canvasWidth - 2 * text_margin] as the title; its line
    [i] is drawn at [start + i * (subtitleFontSize + 8)], centred, with
    stroke width 2; and the end of the title block is never below the start
    of the subtitle block. *)
Theorem subtitle_block_placement `{FontEnv} (w : world) (input : ref)
    (im : image) (slide_data : slide) (slide_number : Z)
    (format_type : string) :
  heap w !! input = Some im →
  let fm := format_metrics format_type in
  let title_font := (chosen_fonts fm).1.1 in
  let subtitle_font := (chosen_fonts fm).1.2 in
  let draw := overlay_draw w in
  let canvasWidth := (im_size im).1 in
  let budget := canvasWidth - text_margin fm * 2 in
  let title_lines := wrapped_lines (title slide_data) title_font budget draw in
  let subtitle_lines :=
    wrapped_lines (subtitle slide_data) subtitle_font budget draw in
  let titleTotalHeight :=
    Z.of_nat (length title_lines) * (title_size fm + 10) in
  let titleStartY := (im_size im).2 / 2 - titleTotalHeight / 2 - 30 in
  let subtitleStartY := titleStartY + titleTotalHeight + 50 in
  titleStartY + titleTotalHeight <= subtitleStartY ∧
  subtitle_size fm = (if String.eqb format_type "portrait" then 45 else 42) ∧
  ∃ r w' out number_op,
    add_text_overlay input slide_data slide_number format_type w = (Ok r, w') ∧
    heap w' !! r = Some out ∧
    im_px out =
      PxConvert RGBA RGB
        (fold_left PxText
           (number_op
            :: imap (fun i line =>
                       TextOp ((canvasWidth - measured draw title_font line) / 2,
                               titleStartY + Z.of_nat i * (title_size fm + 10))
                         line title_font "white" 4 "black") title_lines
            ++ imap (fun i line =>
                       TextOp
                         ((canvasWidth - measured draw subtitle_font line) / 2,
                          subtitleStartY
                          + Z.of_nat i * (subtitle_size fm + 8))
                         line subtitle_font "white" 2 "black") subtitle_lines)
           (dark_base im)).
Proof.
  intros Him fm title_font subtitle_font draw canvasWidth budget title_lines
    subtitle_lines titleTotalHeight titleStartY subtitleStartY.
  split; [subst subtitleStartY; lia|].
  split; [subst fm; unfold format_metrics; by case_match|].
  destruct (overlay_result input im slide_data slide_number format_type w Him)
    as (r & w' & out & Hrun & Hout & ->).
  eexists r, w', _, _. split; [done|]. split; [done|].
  cbn [im_px]. unfold overlay_ops. cbv zeta. rewrite !line_ops_0.
  reflexivity.
Qed.

Lemma subtitle_block_placement_witness :
  ∃ r w' out number_op,
    @add_text_overlay Demo.with_fonts 0%nat Demo.time_blocking 1 "landscape"
      Demo.one_image = (Ok r, w') ∧
    heap w' !! r = Some out ∧
    im_px out =
      PxConvert RGBA RGB
        (fold_left PxText
           [number_op;
            TextOp (732, 470) "Time Blocking" (FreeTypeFont helvetica 70)
              "white" 4 "black";
            TextOp (592, 600) "Schedule your day in focused chunks"
              (FreeTypeFont helvetica 42) "white" 2 "black"]
           (dark_base Demo.blank)).
Proof.
  destruct (@subtitle_block_placement Demo.with_fonts Demo.one_image 0%nat
              Demo.blank Demo.time_blocking 1 "landscape" eq_refl)
    as (_ & _ & r & w' & out & number_op & Hrun & Hout & Hpx).
  exists r, w', out, number_op.
  split; [exact Hrun|]. split; [exact Hout|exact Hpx].
Defined.

(** C6.  The returned canvas is an RGB image of the size of the input, and
    its pixels are the RGB conversion of: the input converted to RGBA, with
    a uniform black layer of alpha 100 (of 255) of the input's size
    composited over it, and with every text call (slide number first, then
    title lines, then subtitle lines) painted on top of that composite. *)
Theorem darkening_precedes_text_and_result_is_rgb `{FontEnv} (w : world)
    (input : ref) (im : image) (slide_data : slide) (slide_number : Z)
    (format_type : string) :
  heap w !! input = Some im →
  ∃ r w' out number_op line_calls,
    add_text_overlay input slide_data slide_number format_type w = (Ok r, w') ∧
    heap w' !! r = Some out ∧
    im_mode out = RGB ∧
    im_size out = im_size im ∧
    op_text number_op = PyStr.of_int slide_number ∧
    number_op :: line_calls
    = overlay_ops (overlay_draw w) (im_size im) slide_data slide_number
        format_type ∧
    im_px out =
      PxConvert RGBA RGB
        (fold_left PxText (number_op :: line_calls)
           (PxComposite (PxConvert (im_mode im) RGBA (im_px im))
              (PxNew RGBA (im_size im) (0, 0, 0, 100)))).
Proof.
  intros Him.
  destruct (overlay_result input im slide_data slide_number format_type w Him)
    as (r & w' & out & Hrun & Hout & ->).
  eexists r, w', _, _, _. split; [done|]. split; [done|].
  cbn [im_mode im_size im_px].
  split_and!; [done|done| |reflexivity|reflexivity]. done.
Qed.

Lemma darkening_precedes_text_and_result_is_rgb_witness :
  ∃ r w' out ops,
    @add_text_overlay Demo.without_fonts 0%nat Demo.time_blocking 1
      "portrait" Demo.one_image = (Ok r, w') ∧
    heap w' !! r = Some out ∧
    im_mode out = RGB ∧
    im_px out =
      PxConvert RGBA RGB
        (fold_left PxText ops
           (PxComposite
              (PxConvert RGB RGBA (PxNew RGB (1920, 1080) (52, 73, 94, 255)))
              (PxNew RGBA (1920, 1080) (0, 0, 0, 100)))).
Proof.
  destruct (@darkening_precedes_text_and_result_is_rgb Demo.without_fonts
              Demo.one_image 0%nat Demo.blank Demo.time_blocking 1 "portrait"
              eq_refl)
    as (r & w' & out & number_op & line_calls & Hrun & Hout & Hmode & _ & _
        & _ & Hpx).
  exists r, w', out, (number_op :: line_calls).
  split; [exact Hrun|]. split; [exact Hout|]. split; [exact Hmode|exact Hpx].
Defined.

(** ** The drawing handle matters only through its mode *)

Section SameMode.
Context `{FontEnv} (d1 d2 : PIL.ImageDraw).
Hypothesis same_mode : PIL.draw_mode d1 = PIL.draw_mode d2.

Lemma measured_same_mode f s : measured d1 f s = measured d2 f s.
Proof. unfold measured, draw_textbbox. by rewrite same_mode. Qed.

Lemma wrap_step_same_mode f max_width st word :
  wrap_step f max_width d1 st word = wrap_step f max_width d2 st word.
Proof. unfold wrap_step, draw_textbbox. by rewrite same_mode. Qed.

Lemma wrap_lines_same_mode text f max_width :
  wrap_lines text f max_width d1 = wrap_lines text f max_width d2.
Proof.
  unfold wrap_lines.
  assert (∀ ws st,
            fold_left (wrap_step f max_width d1) ws st
            = fold_left (wrap_step f max_width d2) ws st) as Hfold.
  { induction ws as [|x ws IH]; intros st; simpl; [done|].
    by rewrite wrap_step_same_mode, IH. }
  by rewrite Hfold.
Qed.

Lemma wrapped_lines_same_mode text f max_width :
  wrapped_lines text f max_width d1 = wrapped_lines text f max_width d2.
Proof. unfold wrapped_lines, wrap_text. by rewrite wrap_lines_same_mode. Qed.

Lemma line_ops_same_mode width f start_y line_height sw first ls :
  line_ops d1 width f start_y line_height sw first ls
  = line_ops d2 width f start_y line_height sw first ls.
Proof.
  unfold line_ops. apply imap_ext. intros i x _. simpl.
  by rewrite measured_same_mode.
Qed.

Lemma overlay_ops_same_mode size slide1 slide2 slide_number format_type :
  title slide1 = title slide2 →
  subtitle slide1 = subtitle slide2 →
  overlay_ops d1 size slide1 slide_number format_type
  = overlay_ops d2 size slide2 slide_number format_type.
Proof.
  intros Ht Hs. unfold overlay_ops. cbv zeta. rewrite Ht, Hs.
  by rewrite !wrapped_lines_same_mode, !line_ops_same_mode.
Qed.

End SameMode.

(** C7.  Two calls of [add_text_overlay] on canvases with the same
    contents, with slides of the same title and subtitle, the same slide
    number and format, and under the same fonts and text measurement,
    return images with identical mode, size and pixels, wherever the
    canvases live and whatever else the two stores hold. *)
Theorem add_text_overlay_deterministic `{FontEnv} (w1 w2 : world)
    (input1 input2 : ref) (im : image) (slide1 slide2 : slide)
    (slide_number : Z) (format_type : string) :
  heap w1 !! input1 = Some im →
  heap w2 !! input2 = Some im →
  title slide1 = title slide2 →
  subtitle slide1 = subtitle slide2 →
  ∃ r1 w1' r2 w2' out,
    add_text_overlay input1 slide1 slide_number format_type w1
    = (Ok r1, w1') ∧
    add_text_overlay input2 slide2 slide_number format_type w2
    = (Ok r2, w2') ∧
    heap w1' !! r1 = Some out ∧
    heap w2' !! r2 = Some out.
Proof.
  intros H1 H2 Ht Hs.
  destruct (overlay_result input1 im slide1 slide_number format_type w1 H1)
    as (r1 & w1' & out1 & Hrun1 & Hout1 & ->).
  destruct (overlay_result input2 im slide2 slide_number format_type w2 H2)
    as (r2 & w2' & out2 & Hrun2 & Hout2 & ->).
  eexists r1, w1', r2, w2', _. split_and!; [done|done|done|].
  by rewrite (overlay_ops_same_mode (overlay_draw w1) (overlay_draw w2)
                eq_refl (im_size im) slide1 slide2 slide_number format_type
                Ht Hs).
Qed.

Lemma add_text_overlay_deterministic_witness :
  ∃ r1 w1' r2 w2' out,
    @add_text_overlay Demo.with_fonts 0%nat Demo.time_blocking 1 "landscape"
      Demo.one_image = (Ok r1, w1') ∧
    @add_text_overlay Demo.with_fonts 1%nat
      {| title := "Time Blocking";
         subtitle := "Schedule your day in focused chunks";
         visual_theme := "calm trustworthy green" |} 1 "landscape"
      {| heap := [Image Lum (1, 1) (PxRaw [0]); Demo.blank];
         stdout := ["earlier output"] |} = (Ok r2, w2') ∧
    heap w1' !! r1 = Some out ∧
    heap w2' !! r2 = Some out.
Proof.
  exact (@add_text_overlay_deterministic Demo.with_fonts Demo.one_image
           {| heap := [Image Lum (1, 1) (PxRaw [0]); Demo.blank];
              stdout := ["earlier output"] |}
           0%nat 1%nat Demo.blank Demo.time_blocking
           {| title := "Time Blocking";
              subtitle := "Schedule your day in focused chunks";
              visual_theme := "calm trustworthy green" |}
           1 "landscape" eq_refl eq_refl eq_refl eq_refl).
Defined.

(** C10.  A call of [add_text_overlay] leaves the input canvas, and every
    other image that existed before the call, exactly as it was: it only
    adds objects to the store, the returned image is one of the added
    objects, and nothing is printed. *)
Theorem input_canvas_unchanged `{FontEnv} (w : world) (input : ref)
    (im : image) (slide_data : slide) (slide_number : Z)
    (format_type : string) :
  heap w !! input = Some im →
  ∃ r w',
    add_text_overlay input slide_data slide_number format_type w = (Ok r, w') ∧
    heap w' !! input = Some im ∧
    (∀ j x, heap w !! j = Some x → heap w' !! j = Some x) ∧
    (length (heap w) <= r)%nat ∧
    stdout w' = stdout w.
Proof.
  intros Him. eexists _, _. split; [by apply add_text_overlay_run|].
  cbn [heap stdout]. split_and!.
  - by apply lookup_app_l_Some.
  - intros j x Hj. by apply lookup_app_l_Some.
  - lia.
  - done.
Qed.

Lemma input_canvas_unchanged_witness :
  ∃ r w',
    @add_text_overlay Demo.with_fonts 0%nat Demo.time_blocking 1 "landscape"
      Demo.one_image = (Ok r, w') ∧
    heap w' !! 0%nat = Some Demo.blank ∧
    (1 <= r)%nat.
Proof.
  destruct (@input_canvas_unchanged Demo.with_fonts Demo.one_image 0%nat
              Demo.blank Demo.time_blocking 1 "landscape" eq_refl)
    as (r & w' & Hrun & Hsame & _ & Hfresh & _).
  exists r, w'. split; [exact Hrun|]. split; [exact Hsame|exact Hfresh].
Defined.

(** ** Rejection of unknown formats *)

Lemma formats_contains format_type :
  dict_contains format_type FORMATS
  = bool_decide (format_type = "landscape" ∨ format_type = "portrait").
Proof.
  unfold dict_contains, FORMATS.
  destruct (decide (format_type = "landscape")) as [->|Hl].
  { by rewrite lookup_insert_eq. }
  rewrite lookup_insert_ne by done.
  destruct (decide (format_type = "portrait")) as [->|Hp].
  { by rewrite lookup_insert_eq. }
  rewrite lookup_insert_ne, lookup_empty by done.
  symmetry. apply bool_decide_eq_false. intros [?|?]; done.
Qed.

(** C9.  For a format key other than ["landscape"] and ["portrait"],
    [generate_listicle_images] raises [ValueError] at once: nothing is
    printed, no slide content is produced and no image object exists that
    was not there before, so no canvas reaches [add_text_overlay].  The
    [/generate] endpoint, when the generator is available, refuses such a
    key with status 400 before it calls the generator. *)
Theorem unknown_format_rejected `{FontEnv} `{Externals}
    (topic format_type background_type : string) (num_slides : Z)
    (w : world) :
  format_type ≠ "landscape" →
  format_type ≠ "portrait" →
  generate_listicle_images topic format_type background_type num_slides w
  = (Raise (ValueError "Format must be one of: ['landscape', 'portrait']"), w)
  ∧ (generator_imported = true →
     generate_listicle
       {| req_topic := topic; req_format_type := format_type;
          req_background_type := background_type;
          req_num_slides := num_slides |} w
     = (Raise (HTTPException 400
                 "Invalid format. Must be one of: ['landscape', 'portrait']"),
        w)).
Proof.
  intros Hl Hp. split.
  - unfold generate_listicle_images. rewrite formats_contains.
    rewrite bool_decide_eq_false_2; [done|]. intros [?|?]; done.
  - intros Hgen. unfold generate_listicle. rewrite Hgen. cbn [negb].
    cbv zeta. cbn [req_format_type].
    rewrite bool_decide_eq_false_2; [done|].
    rewrite !elem_of_cons, elem_of_nil. intros [?|[?|[]]]; done.
Qed.

Lemma unknown_format_rejected_witness :
  @generate_listicle_images Demo.with_fonts Demo.externals
    "productivity" "square" "color" 5 Demo.one_image
  = (Raise (ValueError "Format must be one of: ['landscape', 'portrait']"),
     Demo.one_image)
  ∧ @generate_listicle Demo.with_fonts Demo.externals
      {| req_topic := "productivity"; req_format_type := "square";
         req_background_type := "color"; req_num_slides := 5 |}
      Demo.one_image
    = (Raise (HTTPException 400
                "Invalid format. Must be one of: ['landscape', 'portrait']"),
       Demo.one_image).
Proof.
  destruct (@unknown_format_rejected Demo.with_fonts Demo.externals
              "productivity" "square" "color" 5 Demo.one_image)
    as [Hgen Hapi]; [discriminate|discriminate|].
  split; [exact Hgen|]. apply Hapi. reflexivity.
Defined.

(** ** More about the greedy wrapper *)

Lemma append_assoc (a b c : string) : (a +:+ b) +:+ c = a +:+ b +:+ c.
Proof.
  induction a as [|x a IH]; [done|].
  change (String x ((a +:+ b) +:+ c) = String x (a +:+ b +:+ c)).
  by rewrite IH.
Qed.

Lemma join_split sep s :
  PyStr.join (String sep "") (PyStr.split sep s) = s.
Proof.
  induction s as [|c s IH]; [done|]. simpl.
  destruct (split_cons sep s) as (tok & toks & Hs). rewrite Hs in *.
  destruct (Ascii.eqb_spec c sep) as [->|Hc].
  - change (PyStr.join (String sep "") ("" :: tok :: toks))
      with ("" +:+ String sep (PyStr.join (String sep "") (tok :: toks))).
    by rewrite IH.
  - destruct toks as [|tok' toks]; simpl in *; by rewrite <- IH.
Qed.

Lemma join_snoc sep ls x :
  PyStr.join sep (ls ++ [x])
  = match ls with
    | [] => x
    | _ => PyStr.join sep ls +:+ sep +:+ x
    end.
Proof.
  induction ls as [|l ls IH]; [done|].
  destruct ls as [|l' ls]; [done|].
  change (PyStr.join sep ((l :: l' :: ls) ++ [x]))
    with (l +:+ sep +:+ PyStr.join sep ((l' :: ls) ++ [x])).
  rewrite IH.
  change (PyStr.join sep (l :: l' :: ls))
    with (l +:+ sep +:+ PyStr.join sep (l' :: ls)).
  by rewrite !append_assoc.
Qed.

Lemma join_app_ne sep a b :
  a ≠ [] → b ≠ [] →
  PyStr.join sep (a ++ b) = PyStr.join sep a +:+ sep +:+ PyStr.join sep b.
Proof.
  intros Ha Hb. induction a as [|x a IH]; [done|].
  destruct a as [|x' a].
  - simpl. by destruct b.
  - change (PyStr.join sep ((x :: x' :: a) ++ b))
      with (x +:+ sep +:+ PyStr.join sep ((x' :: a) ++ b)).
    rewrite IH by done.
    change (PyStr.join sep (x :: x' :: a))
      with (x +:+ sep +:+ PyStr.join sep (x' :: a)).
    by rewrite !append_assoc.
Qed.

Lemma wrap_lines_emitted `{FontEnv} text f max_width draw :
  wrap_lines text f max_width draw
  = emitted (fold_left (wrap_step f max_width draw)
               (PyStr.split PyStr.space text)
               {| lines := []; current_line := "" |}).
Proof. reflexivity. Qed.

Section Greedy.
Context `{FontEnv} (f : font) (max_width : Z) (draw : PIL.ImageDraw).

Local Abbreviation step := (wrap_step f max_width draw).

(** One more word behind what was emitted so far, as far as joining with
    single spaces can tell. *)
Lemma wrap_step_join st word :
  word ≠ "" →
  PyStr.join " " (emitted (step st word))
  = PyStr.join " " (emitted st ++ [word])
  ∧ emitted (step st word) ≠ [].
Proof.
  intros Hw. assert (PyStr.truthy word = true) as Htw by by destruct word.
  unfold emitted.
  destruct (wrap_step_cases f max_width draw st word)
    as [[_ ->]|[(_ & Ht & ->)|(_ & Hc & ->)]]; simpl.
  - destruct (current_line st) as [|c cur] eqn:Hcur; simpl.
    + change ("" +:+ "" +:+ word) with word. rewrite Htw.
      split; [done|]. by destruct (lines st).
    + split; [|by destruct (lines st)].
      rewrite (join_snoc " " (lines st ++ [String c cur])), !join_snoc.
      destruct (lines st) as [|l ls]; simpl; [done|].
      by rewrite !append_assoc.
  - rewrite Ht, Htw. split; [done|]. by destruct (lines st).
  - rewrite Hc. simpl. split; [done|]. by destruct (lines st).
Qed.

Lemma wrap_fold_join ws st :
  Forall (fun w => w ≠ "") ws →
  PyStr.join " " (emitted (fold_left step ws st))
  = PyStr.join " " (emitted st ++ ws).
Proof.
  intros Hws. revert st.
  induction Hws as [|w ws Hw _ IH]; intros st; simpl.
  - by rewrite app_nil_r.
  - destruct (wrap_step_join st w Hw) as [Hjoin Hstep].
    rewrite IH, (cons_middle w (emitted st) ws), app_assoc.
    destruct ws as [|w' ws]; [by rewrite !app_nil_r|].
    rewrite (join_app_ne " " (emitted (step st w))) by done.
    rewrite (join_app_ne " " (emitted st ++ [w])), Hjoin; [done| |done].
    by destruct (emitted st).
Qed.

Lemma adjacent_snoc {A : Type} (P : A → A → Prop) (l : list A) (x : A) :
  adjacent P l →
  (∀ a, last l = Some a → P a x) →
  adjacent P (l ++ [x]).
Proof.
  intros Hadj Hlast i a b Ha Hb.
  apply lookup_app_Some in Hb as [Hb|[Hlen Hb]].
  - apply lookup_app_Some in Ha as [Ha|[Hlen _]].
    + by apply (Hadj i).
    + apply lookup_lt_Some in Hb. lia.
  - apply list_lookup_singleton_Some in Hb as [Hi ->].
    apply Hlast. rewrite last_lookup.
    apply lookup_app_Some in Ha as [Ha|[Hlen' _]]; [|lia].
    replace (Nat.pred (length l)) with i by lia. done.
Qed.

Lemma first_word_token w :
  PyStr.mem PyStr.space w = false → first_word w = w.
Proof. intros Hw. unfold first_word. by rewrite split_no_sep. Qed.

Lemma first_word_extend cur w :
  first_word (cur +:+ " " +:+ w) = first_word cur.
Proof.
  unfold first_word.
  change (cur +:+ " " +:+ w) with (cur +:+ String PyStr.space w).
  rewrite split_app. by destruct (split_cons PyStr.space cur) as (t & ts & ->).
Qed.

Lemma wrap_step_greedy st word :
  word ≠ "" → PyStr.mem PyStr.space word = false →
  greedy_state f max_width draw st →
  greedy_state f max_width draw (step st word).
Proof.
  intros Hw Hsp [Hadj Hlast].
  assert (PyStr.truthy word = true) as Htw by by destruct word.
  unfold greedy_state.
  destruct (wrap_step_cases f max_width draw st word)
    as [[_ ->]|[(Hover & Ht & ->)|(Hover & Hc & ->)]]; simpl.
  - split; [done|]. intros l Hl. specialize (Hlast l Hl).
    destruct (current_line st) as [|c cur]; simpl in *.
    + change ("" +:+ "" +:+ word) with word. rewrite Htw. by right.
    + unfold forced_break in *.
      change (String c cur +:+ " " +:+ word)
        with (String c cur +:+ " " +:+ word) in *.
      by rewrite (first_word_extend (String c cur) word).
  - rewrite Ht in *. split.
    + by apply adjacent_snoc.
    + intros l Hl. rewrite last_snoc in Hl. injection Hl as <-.
      rewrite Htw. left. by rewrite first_word_token.
  - rewrite Hc in *. simpl in *.
    change ("" +:+ "" +:+ word) with word in Hover. split.
    + apply adjacent_snoc; [done|]. intros a Ha. right. by apply Hlast.
    + intros l Hl. rewrite last_snoc in Hl. by injection Hl as <-.
Qed.

Lemma wrap_fold_greedy ws st :
  Forall (fun w => w ≠ "" ∧ PyStr.mem PyStr.space w = false) ws →
  greedy_state f max_width draw st →
  greedy_state f max_width draw (fold_left step ws st).
Proof.
  intros Hws. revert st.
  induction Hws as [|w ws [Hw Hsp] _ IH]; intros st Hst; simpl; [done|].
  apply IH. by apply wrap_step_greedy.
Qed.

(** *** Blank lines *)

Lemma wrap_fold_no_blank ws st :
  measured draw f "" <= max_width →
  Forall (fun l => l ≠ "") (lines st) →
  Forall (fun l => l ≠ "") (lines (fold_left step ws st)).
Proof.
  intros Hfit. revert st.
  induction ws as [|w ws IH]; intros st Hst; simpl; [done|].
  apply IH.
  destruct (wrap_step_cases f max_width draw st w)
    as [[_ ->]|[(_ & Ht & ->)|(Hover & Hc & ->)]]; simpl; [done| |].
  - apply Forall_app. split; [done|]. apply Forall_singleton.
    by destruct (current_line st).
  - apply Forall_app. split; [done|]. apply Forall_singleton.
    intros ->. rewrite Hc in Hover. simpl in Hover.
    change ("" +:+ "" +:+ "") with "" in Hover. lia.
Qed.

(** *** Texts of spaces only *)

Lemma wrap_fold_blank_text ws :
  measured draw f "" <= max_width →
  Forall (fun w => w = "") ws →
  fold_left step ws {| lines := []; current_line := "" |}
  = {| lines := []; current_line := "" |}.
Proof.
  intros Hfit Hws. induction Hws as [|w ws -> _ IH]; simpl; [done|].
  destruct (wrap_step_cases f max_width draw
              {| lines := []; current_line := "" |} "")
    as [[_ ->]|[(_ & Ht & _)|(Hover & _ & _)]]; simpl in *; [done|done|].
  change ("" +:+ "" +:+ "") with "" in Hover. lia.
Qed.

End Greedy.

(** X1.  For a text whose pieces between spaces are all non-empty (no
    leading, trailing or doubled space), joining the lines of [wrap_text]
    with single spaces gives back the text, whatever the budget. *)
Theorem wrap_text_join_round_trip `{FontEnv} (text : string) (f : font)
    (max_width : Z) (draw : PIL.ImageDraw) :
  Forall (fun w => w ≠ "") (PyStr.split PyStr.space text) →
  PyStr.join " " (wrap_lines text f max_width draw) = text.
Proof.
  intros Hws. rewrite wrap_lines_emitted, wrap_fold_join by done.
  apply (join_split PyStr.space).
Qed.

Lemma wrap_text_join_round_trip_witness :
  PyStr.join " "
    (@wrap_lines Demo.with_fonts "Eliminate Distractions now"
       (FreeTypeFont helvetica 70) 400 Demo.surface)
  = "Eliminate Distractions now".
Proof.
  apply (@wrap_text_join_round_trip Demo.with_fonts).
  compute_done.
Defined.

(** X2.  The wrapper is greedy: for a text whose pieces are all non-empty,
    whenever one line is followed by another, the first word of the second
    did not fit behind the first (the joined string measures more than the
    budget), or the first line is a single word that is over the budget by
    itself. *)
Theorem wrap_text_breaks_are_forced `{FontEnv} (text : string) (f : font)
    (max_width : Z) (draw : PIL.ImageDraw) (i : nat) (line next : string) :
  Forall (fun w => w ≠ "") (PyStr.split PyStr.space text) →
  wrap_lines text f max_width draw !! i = Some line →
  wrap_lines text f max_width draw !! S i = Some next →
  max_width < measured draw f (line +:+ " " +:+ first_word next)
  ∨ max_width < measured draw f line.
Proof.
  intros Hws. rewrite wrap_lines_emitted.
  set (st := fold_left _ _ _).
  assert (greedy_state f max_width draw st) as [Hadj Hlast].
  { apply wrap_fold_greedy.
    - pose proof (split_space_tokens text) as Hsp.
      rewrite Forall_forall in *. intros w Hw. split; auto.
    - split; [intros j a b Ha; done|done]. }
  assert (adjacent (forced_break f max_width draw) (emitted st)) as Hem.
  { unfold emitted. destruct (PyStr.truthy (current_line st)) eqn:Ht; [|done].
    apply adjacent_snoc; [done|]. intros a Ha. by apply Hlast. }
  apply Hem.
Qed.

Lemma wrap_text_breaks_are_forced_witness :
  400 < @measured Demo.with_fonts Demo.surface (FreeTypeFont helvetica 70)
          "Eliminate Distractions"
  ∨ 400 < @measured Demo.with_fonts Demo.surface (FreeTypeFont helvetica 70)
            "Eliminate".
Proof.
  apply (@wrap_text_breaks_are_forced Demo.with_fonts
           "Eliminate Distractions now" (FreeTypeFont helvetica 70) 400
           Demo.surface 0%nat "Eliminate" "Distractions").
  - compute_done.
  - reflexivity.
  - reflexivity.
Defined.

(** X3.  When every piece of [text.split(' ')] measures at most the budget,
    every line [wrap_text] builds measures at most the budget: nothing
    overflows. *)
Theorem wrap_text_all_lines_fit `{FontEnv} (text : string) (f : font)
    (max_width : Z) (draw : PIL.ImageDraw) :
  Forall (fun w => measured draw f w <= max_width)
    (PyStr.split PyStr.space text) →
  Forall (fun line => measured draw f line <= max_width)
    (wrap_lines text f max_width draw).
Proof.
  intros Hws. eapply Forall_impl; [apply wrap_lines_ok|].
  intros line [Hfit|Hword]; [done|].
  rewrite Forall_forall in Hws. by apply Hws.
Qed.

Lemma wrap_text_all_lines_fit_witness :
  Forall (fun line =>
            @measured Demo.with_fonts Demo.surface (FreeTypeFont helvetica 70)
              line <= 420)
    (@wrap_lines Demo.with_fonts "Eliminate Distractions now"
       (FreeTypeFont helvetica 70) 420 Demo.surface).
Proof.
  apply (@wrap_text_all_lines_fit Demo.with_fonts).
  compute_done.
Defined.

(** X4.  When the empty string measures at most the budget (any budget of
    at least zero under a real font), [wrap_text] builds no empty line,
    however many spaces the text has in a row. *)
Theorem wrap_text_no_blank_line `{FontEnv} (text : string) (f : font)
    (max_width : Z) (draw : PIL.ImageDraw) :
  measured draw f "" <= max_width →
  Forall (fun line => line ≠ "") (wrap_lines text f max_width draw).
Proof.
  intros Hfit. rewrite wrap_lines_emitted. unfold emitted.
  set (st := fold_left _ _ _).
  assert (Forall (fun l => l ≠ "") (lines st)) as Hlines.
  { by apply wrap_fold_no_blank. }
  destruct (current_line st) eqn:Hcur; simpl; [done|].
  apply Forall_app. split; [done|]. by apply Forall_singleton.
Qed.

Lemma wrap_text_no_blank_line_witness :
  Forall (fun line => line ≠ "")
    (@wrap_lines Demo.with_fonts "  a   b  " DefaultFont 100 Demo.surface).
Proof.
  apply (@wrap_text_no_blank_line Demo.with_fonts).
  vm_compute. discriminate.
Defined.

(** X5.  A text made of spaces only (or empty) wraps to no line at all when
    the empty string measures at most the budget: [wrap_text] returns the
    empty string, and the caller's [.split('\n')] reads it back as one
    empty line. *)
Theorem wrap_text_of_spaces `{FontEnv} (text : string) (f : font)
    (max_width : Z) (draw : PIL.ImageDraw) :
  measured draw f "" <= max_width →
  Forall (fun w => w = "") (PyStr.split PyStr.space text) →
  wrap_lines text f max_width draw = [] ∧
  wrap_text text f max_width draw = "" ∧
  wrapped_lines text f max_width draw = [""].
Proof.
  intros Hfit Hws.
  assert (wrap_lines text f max_width draw = []) as Hlines.
  { rewrite wrap_lines_emitted, wrap_fold_blank_text; done. }
  unfold wrapped_lines, wrap_text. by rewrite Hlines.
Qed.

Lemma wrap_text_of_spaces_witness :
  @wrap_lines Demo.with_fonts "   " DefaultFont 100 Demo.surface = [] ∧
  @wrap_text Demo.with_fonts "   " DefaultFont 100 Demo.surface = "" ∧
  @wrapped_lines Demo.with_fonts "   " DefaultFont 100 Demo.surface = [""].
Proof.
  apply (@wrap_text_of_spaces Demo.with_fonts).
  - vm_compute. discriminate.
  - compute_done.
Defined.

(** X6.  For a text with at least one word and no line break, the lines
    the caller obtains by splitting the returned string at line breaks are
    exactly the lines [wrap_text] built, and there is at least one. *)
Theorem caller_reads_back_the_lines `{FontEnv} (text : string) (f : font)
    (max_width : Z) (draw : PIL.ImageDraw) :
  PyStr.words text ≠ [] →
  PyStr.mem PyStr.newline text = false →
  wrap_lines text f max_width draw ≠ [] ∧
  PyStr.split PyStr.newline (wrap_text text f max_width draw)
  = wrap_lines text f max_width draw.
Proof.
  intros Hwords Hnl.
  assert (wrap_lines text f max_width draw ≠ []) as Hne.
  { intros Hnil. apply Hwords.
    by rewrite <- (wrap_lines_words f max_width draw text), Hnil. }
  split; [done|].
  pose proof (wrapped_lines_eq f max_width draw text Hnl) as Heq.
  unfold wrapped_lines in Heq. rewrite Heq.
  by destruct (wrap_lines text f max_width draw).
Qed.

Lemma caller_reads_back_the_lines_witness :
  PyStr.split PyStr.newline
    (@wrap_text Demo.with_fonts "Eliminate Distractions now"
       (FreeTypeFont helvetica 70) 400 Demo.surface)
  = ["Eliminate"; "Distractions"; "now"].
Proof.
  refine (proj2 (@caller_reads_back_the_lines Demo.with_fonts
                   "Eliminate Distractions now" (FreeTypeFont helvetica 70)
                   400 Demo.surface _ _)).
  - vm_compute. discriminate.
  - reflexivity.
Defined.

(** ** More about the placement *)

Lemma line_ops_elem `{FontEnv} draw width f start_y line_height sw first ls
    op :
  op ∈ line_ops draw width f start_y line_height sw first ls →
  op_font op = f ∧
  (op_xy op).1 = (width - measured draw f (op_text op)) / 2.
Proof.
  unfold line_ops. intros Hop.
  by apply elem_of_lookup_imap in Hop as (i & line & -> & _).
Qed.

(** The title and subtitle calls of [overlay_ops]: all but the first. *)
Lemma overlay_ops_lines `{FontEnv} draw size slide_data slide_number
    format_type :
  ∃ number_op line_calls,
    overlay_ops draw size slide_data slide_number format_type
    = number_op :: line_calls ∧
    number_op
    = TextOp (margin (format_metrics format_type),
              margin (format_metrics format_type))
        (PyStr.of_int slide_number)
        (chosen_fonts (format_metrics format_type)).2 "white" 3 "black" ∧
    Forall (fun op =>
              (op_xy op).1
              = (size.1 - measured draw (op_font op) (op_text op)) / 2)
      line_calls.
Proof.
  unfold overlay_ops. cbv zeta. eexists _, _. split; [reflexivity|].
  split; [reflexivity|].
  apply Forall_app. split; apply Forall_forall; intros op Hop;
    apply line_ops_elem in Hop as [-> ->]; done.
Qed.

(** X7.  The first thing drawn over the darkened canvas is the slide number
    in decimal, at [(margin, margin)] with [margin] 60 for the portrait
    format and 80 otherwise, in the number font, white with a black outline
    of width 3; the title and subtitle calls follow it. *)
Theorem slide_number_is_drawn_first `{FontEnv} (w : world) (input : ref)
    (im : image) (slide_data : slide) (slide_number : Z)
    (format_type : string) :
  heap w !! input = Some im →
  let m := if String.eqb format_type "portrait" then 60 else 80 in
  ∃ r w' out line_calls,
    add_text_overlay input slide_data slide_number format_type w = (Ok r, w') ∧
    heap w' !! r = Some out ∧
    im_px out =
      PxConvert RGBA RGB
        (fold_left PxText
           (TextOp (m, m) (PyStr.of_int slide_number)
              (chosen_fonts (format_metrics format_type)).2
              "white" 3 "black" :: line_calls)
           (dark_base im)).
Proof.
  intros Him m.
  destruct (overlay_result input im slide_data slide_number format_type w Him)
    as (r & w' & out & Hrun & Hout & ->).
  destruct (overlay_ops_lines (overlay_draw w) (im_size im) slide_data
              slide_number format_type)
    as (number_op & line_calls & Hops & -> & _).
  eexists r, w', _, line_calls. split; [done|]. split; [done|].
  cbn [im_px]. rewrite Hops. subst m. unfold format_metrics.
  by destruct (String.eqb format_type "portrait").
Qed.

Lemma slide_number_is_drawn_first_witness :
  ∃ r w' out line_calls,
    @add_text_overlay Demo.without_fonts 0%nat Demo.time_blocking 12
      "portrait" Demo.one_image = (Ok r, w') ∧
    heap w' !! r = Some out ∧
    im_px out =
      PxConvert RGBA RGB
        (fold_left PxText
           (TextOp (60, 60) "12" DefaultFont "white" 3 "black" :: line_calls)
           (dark_base Demo.blank)).
Proof.
  exact (@slide_number_is_drawn_first Demo.without_fonts Demo.one_image
           0%nat Demo.blank Demo.time_blocking 12 "portrait" eq_refl).
Defined.





(** ** More about the generator *)

Lemma bind_Ok_inv {A B : Type} (m : M A) (k : A → M B) w b w' :
  (m ≫= k) w = (Ok b, w') →
  ∃ a w1, m w = (Ok a, w1) ∧ k a w1 = (Ok b, w').
Proof.
  unfold mbind, M_bind. destruct (m w) as [[a|e] w1]; [|done].
  intros Hk. by exists a, w1.
Qed.

Lemma backgrounds_contains background_type :
  dict_contains background_type BACKGROUND_TYPES
  = bool_decide (background_type ∈ ["color"; "ai"; "stock"]).
Proof.
  unfold dict_contains, BACKGROUND_TYPES.
  destruct (decide (background_type = "color")) as [->|H1].
  { by rewrite lookup_insert_eq. }
  rewrite lookup_insert_ne by done.
  destruct (decide (background_type = "ai")) as [->|H2].
  { by rewrite lookup_insert_eq. }
  rewrite lookup_insert_ne by done.
  destruct (decide (background_type = "stock")) as [->|H3].
  { by rewrite lookup_insert_eq. }
  rewrite lookup_insert_ne, lookup_empty by done.
  symmetry. apply bool_decide_eq_false.
  rewrite !elem_of_cons, elem_of_nil. intros [?|[?|[?|[]]]]; done.
Qed.

(** X10.  For a known format and a background key other than ["color"],
    ["ai"] and ["stock"], [generate_listicle_images] raises [ValueError]
    before it prints, looks up content or creates any image. *)
Theorem unknown_background_rejected `{FontEnv} `{Externals}
    (topic format_type background_type : string) (num_slides : Z)
    (w : world) :
  format_type = "landscape" ∨ format_type = "portrait" →
  background_type ∉ ["color"; "ai"; "stock"] →
  generate_listicle_images topic format_type background_type num_slides w
  = (Raise (ValueError
              "Background type must be one of: ['color', 'ai', 'stock']"),
     w).
Proof.
  intros Hfmt Hbg. unfold generate_listicle_images.
  rewrite formats_contains, backgrounds_contains.
  rewrite bool_decide_eq_true_2, bool_decide_eq_false_2 by done. done.
Qed.

Lemma unknown_background_rejected_witness :
  @generate_listicle_images Demo.with_fonts Demo.externals "productivity"
    "portrait" "video" 5 Demo.one_image
  = (Raise (ValueError
              "Background type must be one of: ['color', 'ai', 'stock']"),
     Demo.one_image).
Proof.
  apply (@unknown_background_rejected Demo.with_fonts Demo.externals).
  - by right.
  - compute_done.
Defined.

Lemma generate_slide_Ok `{FontEnv} `{Externals} topic format_type
    background_type num_slides width height i slide_data acc w acc' w' :
  generate_slide topic format_type background_type num_slides width height
    (os_path_join [os_path_join [script_dir; ".."; "outputs"]; format_type])
    i slide_data acc w = (Ok acc', w') →
  ∃ timestamp, acc' = acc ++ [slide_path topic format_type i timestamp].
Proof.
  unfold generate_slide. intros Hrun.
  apply bind_Ok_inv in Hrun as (_ & w1 & _ & Hrun).
  apply bind_Ok_inv in Hrun as (background & w2 & _ & Hrun).
  apply bind_Ok_inv in Hrun as (image_with_text & w3 & _ & Hrun).
  apply bind_Ok_inv in Hrun as (timestamp & w4 & _ & Hrun).
  cbv zeta in Hrun.
  apply bind_Ok_inv in Hrun as (_ & w5 & _ & Hrun).
  apply bind_Ok_inv in Hrun as (_ & w6 & _ & Hrun).
  injection Hrun as <- _. by exists timestamp.
Qed.

Lemma slides_loop_Ok `{FontEnv} `{Externals} topic format_type
    background_type num_slides width height slides k acc w paths w' :
  for_enumerate_acc k slides acc
    (generate_slide topic format_type background_type num_slides width height
       (os_path_join [os_path_join [script_dir; ".."; "outputs"]; format_type]))
    w = (Ok paths, w') →
  ∃ new,
    paths = acc ++ new ∧ length new = length slides ∧
    ∀ (j : nat) p, new !! j = Some p →
      ∃ timestamp,
        p = slide_path topic format_type (k + Z.of_nat j) timestamp.
Proof.
  revert k acc w. induction slides as [|s slides IH]; intros k acc w Hrun.
  - injection Hrun as <- _. exists []. by rewrite app_nil_r.
  - simpl in Hrun. apply bind_Ok_inv in Hrun as (acc1 & w1 & Hs & Hrun).
    apply generate_slide_Ok in Hs as (timestamp & ->).
    apply IH in Hrun as (new & -> & Hlen & Hnew).
    exists (slide_path topic format_type k timestamp :: new).
    split; [by rewrite <- app_assoc|]. split; [simpl; lia|].
    intros [|j] p Hp; simpl in Hp.
    + injection Hp as <-. exists timestamp. by rewrite Z.add_0_r.
    + apply Hnew in Hp as (ts & ->). exists ts. f_equal. lia.
Qed.

(** X11.  Whatever the collaborators do, when [generate_listicle_images]
    returns, it returns one path per slide of the content, in slide order,
    and path [j] (from 0) is the output directory of the format joined
    with [slide_NN_<topic>_<format>_<timestamp>.png], [NN] being [j + 1]
    on two digits and the topic having its spaces replaced by underscores
    and its commas and colons removed before lower-casing. *)
Theorem generated_paths `{FontEnv} `{Externals}
    (topic format_type background_type : string) (num_slides : Z)
    (w w' : world) (paths : list string) :
  generate_listicle_images topic format_type background_type num_slides w
  = (Ok paths, w') →
  length paths = length (generate_content_for_topic topic num_slides) ∧
  ∀ (j : nat) p, paths !! j = Some p →
    ∃ timestamp, p = slide_path topic format_type (Z.of_nat j) timestamp.
Proof.
  unfold generate_listicle_images. intros Hrun.
  destruct (dict_contains format_type FORMATS); [|done].
  destruct (dict_contains background_type BACKGROUND_TYPES); [|done].
  cbn [negb] in Hrun.
  apply bind_Ok_inv in Hrun as (cfg & w1 & _ & Hrun). cbv zeta in Hrun.
  apply bind_Ok_inv in Hrun as (_ & w2 & _ & Hrun).
  apply bind_Ok_inv in Hrun as (name & w3 & _ & Hrun).
  apply bind_Ok_inv in Hrun as (_ & w4 & _ & Hrun).
  apply bind_Ok_inv in Hrun as (_ & w5 & _ & Hrun).
  apply bind_Ok_inv in Hrun as (_ & w6 & _ & Hrun).
  apply slides_loop_Ok in Hrun as (new & -> & Hlen & Hnew).
  split; [done|]. intros j p Hp. apply Hnew in Hp as (ts & ->).
  by exists ts.
Qed.

Lemma generated_paths_witness :
  length
    ["/app/scripts/../outputs/portrait/slide_01_Top_5_tips_portrait_1700000000.png";
     "/app/scripts/../outputs/portrait/slide_02_Top_5_tips_portrait_1700000000.png"]
  = length (@generate_content_for_topic Demo.externals "Top 5 tips" 2).
Proof.
  refine (proj1 (@generated_paths Demo.with_fonts Demo.externals "Top 5 tips"
                   "portrait" "color" 2 {| heap := []; stdout := [] |}
                   _ _ _)).
  vm_compute. reflexivity.
Defined.

(** ** More about the endpoint *)

Lemma image_urls_of_Ok `{Externals} paths w urls w' :
  image_urls_of paths w = (Ok urls, w') → length urls = length paths.
Proof.
  revert w urls w'. induction paths as [|p paths IH]; intros w urls w' Hrun.
  - by injection Hrun as <- _.
  - simpl in Hrun. apply bind_Ok_inv in Hrun as (url & w1 & _ & Hrun).
    apply bind_Ok_inv in Hrun as (rest & w2 & Hrest & Hrun).
    injection Hrun as <- _. simpl. by rewrite (IH _ _ _ Hrest).
Qed.

(** The three ways a call of the endpoint can go. *)
Lemma generate_listicle_cases `{FontEnv} `{Externals} request w :
  (generator_imported = false ∧
   generate_listicle request w
   = (Raise (HTTPException 500
               "Listicle generator not available. Check server setup."), w))
  ∨ (generator_imported = true ∧ ¬ valid_request request ∧
     ∃ detail,
       generate_listicle request w = (Raise (HTTPException 400 detail), w))
  ∨ (generator_imported = true ∧ valid_request request ∧
     generate_listicle request w
     = match generate_listicle_images (req_topic request)
               (req_format_type request) (req_background_type request)
               (req_num_slides request)
               {| heap := heap w;
                  stdout := stdout w ++
                    ["Generating listicle: " +:+ req_topic request +:+ ", "
                     +:+ req_format_type request +:+ ", "
                     +:+ req_background_type request] |} with
       | (Raise e, w1) =>
           (Raise (HTTPException 500
                     ("Error generating listicle: " +:+ exception_str e)), w1)
       | (Ok image_paths, w1) =>
           match image_urls_of image_paths
                   {| heap := heap w1;
                      stdout := stdout w1 ++
                        ["Generated paths: " +:+ repr_list image_paths] |}
           with
           | (Raise e, w2) =>
               (Raise (HTTPException 500
                         ("Error generating listicle: " +:+ exception_str e)),
                w2)
           | (Ok image_urls, w2) =>
               match create_download_zip image_paths (req_topic request)
                       (req_format_type request) w2 with
               | (Raise e, w3) =>
                   (Raise (HTTPException 500
                             ("Error generating listicle: "
                              +:+ exception_str e)), w3)
               | (Ok url, w3) =>
                   (Ok {| success := true;
                          message := "Successfully generated " +:+
                            PyStr.of_int (Z.of_nat (length image_paths)) +:+
                            " slides";
                          images := image_urls;
                          download_url := Some url |}, w3)
               end
           end
       end).
Proof.
  unfold generate_listicle, valid_request.
  destruct generator_imported; [|by left]. right. cbn [negb]. cbv zeta.
  destruct (decide (req_format_type request ∈ ["landscape"; "portrait"]))
    as [Hf|Hf]; [rewrite (bool_decide_eq_true_2 _ Hf)
                |rewrite (bool_decide_eq_false_2 _ Hf)]; cbn [negb];
    [|left; split; [done|]; split; [tauto|by eexists]].
  destruct (decide (req_background_type request ∈ ["color"; "ai"; "stock"]))
    as [Hb|Hb]; [rewrite (bool_decide_eq_true_2 _ Hb)
                |rewrite (bool_decide_eq_false_2 _ Hb)]; cbn [negb];
    [|left; split; [done|]; split; [tauto|by eexists]].
  destruct (PyStr.truthy (str_strip (req_topic request))) eqn:Ht; cbn [negb];
    [|left; split; [done|]; split; [intros (_ & _ & ? & _); done|by eexists]].
  destruct (Z.ltb_spec (req_num_slides request) 1) as [Hlo|Hlo]; cbn [orb];
    [left; split; [done|]; split; [lia|by eexists]|].
  destruct (Z.ltb_spec 10 (req_num_slides request)) as [Hhi|Hhi];
    [left; split; [done|]; split; [lia|by eexists]|].
  right. split; [done|]. split; [split_and!; first [done|lia]|].
  unfold try_except_as, mbind, M_bind, mret, M_ret, raise, print.
  cbn [heap stdout].
  destruct (generate_listicle_images _ _ _ _ _) as [[image_paths|e] w1];
    [|done].
  destruct (image_urls_of image_paths _) as [[image_urls|e] w2]; [|done].
  by destruct (create_download_zip _ _ _ _) as [[url|e] w3].
Qed.

(** X12.  Whatever the collaborators do, the endpoint either answers or
    raises an [HTTPException] with status 400 or 500, never anything else;
    and a 400 leaves the world as it was: nothing printed, no image
    created. *)
Theorem endpoint_raises_only_http_errors `{FontEnv} `{Externals}
    (request : ListicleRequest) (w w' : world)
    (r : result ListicleResponse) :
  generate_listicle request w = (r, w') →
  (∃ response, r = Ok response)
  ∨ (∃ detail, r = Raise (HTTPException 400 detail) ∧ w' = w)
  ∨ (∃ detail, r = Raise (HTTPException 500 detail)).
Proof.
  intros Hrun.
  destruct (generate_listicle_cases request w)
    as [[_ Hc]|[(_ & _ & d & Hc)|(_ & _ & Hc)]]; rewrite Hc in Hrun.
  - injection Hrun as <- <-. right. right. by eexists.
  - injection Hrun as <- <-. right. left. by eexists.
  - destruct (generate_listicle_images _ _ _ _ _) as [[image_paths|e] w1];
      [|injection Hrun as <- _; right; right; by eexists].
    destruct (image_urls_of _ _) as [[image_urls|e] w2];
      [|injection Hrun as <- _; right; right; by eexists].
    destruct (create_download_zip _ _ _ _) as [[url|e] w3];
      injection Hrun as <- _; [left|right; right]; by eexists.
Qed.

Lemma endpoint_raises_only_http_errors_witness :
  let r := @Raise ListicleResponse
             (HTTPException 400 "Number of slides must be between 1 and 10") in
  (∃ response, r = Ok response)
  ∨ (∃ detail, r = Raise (HTTPException 400 detail)
               ∧ Demo.one_image = Demo.one_image)
  ∨ (∃ detail, r = Raise (HTTPException 500 detail)).
Proof.
  apply (@endpoint_raises_only_http_errors Demo.with_fonts Demo.externals
           {| req_topic := "productivity"; req_format_type := "portrait";
              req_background_type := "color"; req_num_slides := 11 |}
           Demo.one_image).
  reflexivity.
Defined.

(** X13.  With the generator available, a request that fails any of the
    four checks (format key, background key, topic not blank, 1 to 10
    slides) is refused with status 400 before anything is generated. *)
Theorem invalid_request_gets_400 `{FontEnv} `{Externals}
    (request : ListicleRequest) (w : world) :
  generator_imported = true →
  ¬ valid_request request →
  ∃ detail,
    generate_listicle request w = (Raise (HTTPException 400 detail), w).
Proof.
  intros Hgen Hbad.
  destruct (generate_listicle_cases request w)
    as [[Hno _]|[(_ & _ & Hc)|(_ & Hok & _)]]; [congruence|done|done].
Qed.

Lemma invalid_request_gets_400_witness :
  ∃ detail,
    @generate_listicle Demo.with_fonts Demo.externals
      {| req_topic := ""; req_format_type := "portrait";
         req_background_type := "color"; req_num_slides := 3 |}
      Demo.one_image
    = (Raise (HTTPException 400 detail), Demo.one_image).
Proof.
  apply (@invalid_request_gets_400 Demo.with_fonts Demo.externals).
  - reflexivity.
  - intros (_ & _ & Htopic & _). discriminate Htopic.
Defined.

(** X14.  When the endpoint answers, the request had passed all four
    checks, the answer reports success, carries one URL per generated
    image, a download link, and the message
    [Successfully generated <count> slides] with that count. *)
Theorem successful_response_shape `{FontEnv} `{Externals}
    (request : ListicleRequest) (w w' : world) (response : ListicleResponse) :
  generate_listicle request w = (Ok response, w') →
  valid_request request ∧
  success response = true ∧
  is_Some (download_url response) ∧
  message response
  = "Successfully generated " +:+
    PyStr.of_int (Z.of_nat (length (images response))) +:+ " slides".
Proof.
  intros Hrun.
  destruct (generate_listicle_cases request w)
    as [[_ Hc]|[(_ & _ & d & Hc)|(_ & Hok & Hc)]]; rewrite Hc in Hrun;
    [done|done|].
  split; [done|].
  destruct (generate_listicle_images _ _ _ _ _) as [[image_paths|e] w1];
    [|done].
  destruct (image_urls_of _ _) as [[image_urls|e] w2] eqn:Hurls; [|done].
  destruct (create_download_zip _ _ _ _) as [[url|e] w3]; [|done].
  injection Hrun as <- _. cbn.
  apply image_urls_of_Ok in Hurls. rewrite Hurls. eauto.
Qed.

Lemma successful_response_shape_witness :
  @valid_request Demo.externals
    {| req_topic := "x"; req_format_type := "landscape";
       req_background_type := "color"; req_num_slides := 1 |}.
Proof.
  refine (proj1 (@successful_response_shape Demo.with_fonts Demo.externals
                   {| req_topic := "x"; req_format_type := "landscape";
                      req_background_type := "color"; req_num_slides := 1 |}
                   {| heap := []; stdout := [] |} _ _ _)).
  vm_compute. reflexivity.
Defined.

(** X15.  When a request passes the checks and the generator raises, the
    endpoint raises status 500 with the exception's text in the detail,
    and the world is left as the generator left it: what was printed,
    created or saved before the failure stays. *)
Theorem generator_failure_becomes_500 `{FontEnv} `{Externals}
    (request : ListicleRequest) (w w1 : world) (e : exn) :
  generator_imported = true →
  valid_request request →
  generate_listicle_images (req_topic request) (req_format_type request)
    (req_background_type request) (req_num_slides request)
    {| heap := heap w;
       stdout := stdout w ++
         ["Generating listicle: " +:+ req_topic request +:+ ", "
          +:+ req_format_type request +:+ ", "
          +:+ req_background_type request] |}
  = (Raise e, w1) →
  generate_listicle request w
  = (Raise (HTTPException 500
              ("Error generating listicle: " +:+ exception_str e)), w1).
Proof.
  intros Hgen Hok Hfail.
  destruct (generate_listicle_cases request w)
    as [[Hno _]|[(_ & Hbad & _)|(_ & _ & Hc)]]; [congruence|done|].
  by rewrite Hc, Hfail.
Qed.

Lemma generator_failure_becomes_500_witness :
  (@generate_listicle Demo.with_fonts Sample.read_only
     {| req_topic := "x"; req_format_type := "landscape";
        req_background_type := "color"; req_num_slides := 1 |}
     {| heap := []; stdout := [] |}).1
  = Raise (HTTPException 500
             "Error generating listicle: Read-only file system").
Proof.
  refine (f_equal fst
            (@generator_failure_becomes_500 Demo.with_fonts Sample.read_only
               {| req_topic := "x"; req_format_type := "landscape";
                  req_background_type := "color"; req_num_slides := 1 |}
               {| heap := []; stdout := [] |} _
               (OSError "Read-only file system") eq_refl _ _)).
  - unfold valid_request. cbn. split_and!; [compute_done|compute_done|done|lia|lia].
  - vm_compute. reflexivity.
Defined.

(** X16.  The endpoint and the generator accept the same keys: a format
    key passes the endpoint's check exactly when it is a key of [FORMATS],
    a background key exactly when it is a key of [BACKGROUND_TYPES]; so a
    request accepted by the endpoint never meets the generator's own
    [ValueError]. *)
Theorem endpoint_and_generator_accept_the_same_keys (key : string) :
  (key ∈ ["landscape"; "portrait"] ↔ dict_contains key FORMATS = true) ∧
  (key ∈ ["color"; "ai"; "stock"]
   ↔ dict_contains key BACKGROUND_TYPES = true).
Proof.
  rewrite formats_contains, backgrounds_contains. split.
  - rewrite bool_decide_eq_true, !elem_of_cons, elem_of_nil. tauto.
  - by rewrite bool_decide_eq_true.
Qed.

(** ** The content lookup *)

Example clean_topic_top_5 :
  Content.clean_topic "Top 5 Productivity Tips" = "productivity tips".
Proof. reflexivity. Qed.

Example clean_topic_one_prefix_only :
  Content.clean_topic "top top 5 x" = "top 5 x".
Proof. reflexivity. Qed.

Example split_ws_runs : Content.split_ws "  a  bc d " = ["a"; "bc"; "d"].
Proof. reflexivity. Qed.

Example content_for_chess :
  Content.generate_content_for_topic "Chess" 1
  = Some [ {| title := "Research First";
              subtitle := "Learn the fundamentals of chess";
              visual_theme := "modern blue professional" |} ].
Proof. reflexivity. Qed.

Lemma find_content_Some library topic_keywords clean content :
  Content.find_content library topic_keywords clean = Some content →
  ∃ key, (key, content) ∈ library
         ∧ Content.key_matches topic_keywords clean key = true.
Proof.
  induction library as [|[key c] library IH]; simpl; [done|].
  destruct (Content.key_matches topic_keywords clean key) eqn:Hkey.
  - intros [= ->]. exists key. split; [by left|done].
  - intros Hfind. destruct (IH Hfind) as (k & Hin & Hk).
    exists k. split; [by right|done].
Qed.

Lemma matched_content_cases topic :
  (∃ key, (key, Content.matched_content topic) ∈ Content.content_library)
  ∨ Content.matched_content topic
    = Content.generic_content (Content.clean_topic topic).
Proof.
  unfold Content.matched_content. cbv zeta.
  destruct (Content.find_content _ _ _) as [[|item items]|] eqn:Hfind;
    [by right| |by right].
  left. apply find_content_Some in Hfind as (key & Hin & _). by exists key.
Qed.

Lemma library_entries key content :
  (key, content) ∈ Content.content_library →
  length content = 5%nat ∧
  forallb (fun it => plain_title it.1) content = true.
Proof.
  intros Hin.
  assert (Forall (fun kc => length kc.2 = 5%nat ∧
                            forallb (fun it => plain_title it.1) kc.2 = true)
            Content.content_library) as Hall.
  { unfold Content.content_library. repeat constructor. }
  rewrite Forall_forall in Hall. apply (Hall _ Hin).
Qed.

Lemma matched_content_length topic :
  length (Content.matched_content topic) = 5%nat
  ∨ length (Content.matched_content topic) = 8%nat.
Proof.
  destruct (matched_content_cases topic) as [[key Hin]| ->].
  - left. by apply library_entries in Hin as [? _].
  - by right.
Qed.

Lemma matched_content_titles topic :
  forallb (fun it => plain_title it.1) (Content.matched_content topic) = true.
Proof.
  destruct (matched_content_cases topic) as [[key Hin]| ->].
  - by apply library_entries in Hin as [_ ?].
  - reflexivity.
Qed.

Lemma make_slide_Some matched i :
  matched ≠ [] → 0 <= i →
  ∃ s,
    Content.make_slide matched i = Some s ∧
    matched !! Z.to_nat (i mod Z.of_nat (length matched))
    = Some (title s, subtitle s) ∧
    Content.themes !! Z.to_nat (i mod 8) = Some (visual_theme s).
Proof.
  intros Hne Hi.
  assert (0 < Z.of_nat (length matched)) as Hlen.
  { destruct matched; [done|]. simpl. lia. }
  pose proof (Z.mod_pos_bound i (Z.of_nat (length matched)) Hlen) as Hk.
  pose proof (Z.mod_pos_bound i 8 ltac:(lia)) as Ht.
  destruct (lookup_lt_is_Some_2 matched
              (Z.to_nat (i mod Z.of_nat (length matched))))
    as [[t st] Hitem]; [lia|].
  destruct (lookup_lt_is_Some_2 Content.themes (Z.to_nat (i mod 8)))
    as [theme Htheme]; [simpl; lia|].
  exists {| title := t; subtitle := st; visual_theme := theme |}.
  split; [|done].
  unfold Content.make_slide, Content.py_mod, Content.py_index.
  change (Z.of_nat (length Content.themes)) with 8.
  rewrite (proj2 (Z.eqb_neq (Z.of_nat (length matched)) 0)) by lia. simpl.
  rewrite (proj2 (Z.leb_le 0 (i mod Z.of_nat (length matched)))) by lia.
  rewrite Hitem. simpl.
  rewrite (proj2 (Z.leb_le 0 (i mod 8))) by lia. by rewrite Htheme.
Qed.

Lemma matched_content_nonempty topic : Content.matched_content topic ≠ [].
Proof.
  destruct (matched_content_length topic) as [Hl|Hl];
    by destruct (Content.matched_content topic).
Qed.

(** What slide [i] of the result holds. *)
Lemma generated_slide topic num_slides slides (i : nat) s :
  Content.generate_content_for_topic topic num_slides = Some slides →
  slides !! i = Some s →
  Content.matched_content topic
    !! Z.to_nat (Z.of_nat i mod Z.of_nat (length (Content.matched_content topic)))
  = Some (title s, subtitle s) ∧
  Content.themes !! Z.to_nat (Z.of_nat i mod 8) = Some (visual_theme s).
Proof.
  unfold Content.generate_content_for_topic. intros Hgen Hs.
  apply mapM_Some in Hgen.
  destruct (Forall2_lookup_r _ _ _ _ _ Hgen Hs) as (x & Hx & Hmake).
  apply lookup_seqZ in Hx as [-> _]. rewrite Z.add_0_l in Hmake.
  destruct (make_slide_Some (Content.matched_content topic) (Z.of_nat i)
              (matched_content_nonempty topic) ltac:(lia))
    as (s' & Hs' & Hitem & Htheme).
  rewrite Hs' in Hmake. injection Hmake as ->. done.
Qed.

Lemma content_lookup_defined topic num_slides :
  is_Some (Content.generate_content_for_topic topic num_slides).
Proof.
  unfold Content.generate_content_for_topic.
  apply mapM_is_Some. apply Forall_forall. intros i Hi.
  apply elem_of_seqZ in Hi.
  destruct (make_slide_Some (Content.matched_content topic) i
              (matched_content_nonempty topic) ltac:(lia)) as (s & Hs & _).
  simpl. rewrite Hs. by eexists.
Qed.

(** X17.  The content lookup never fails, for any topic and any slide
    count: no library list is empty and the generic list has eight
    entries, so [i % len(matched_content)] and the two indexings are
    always in range; the result has exactly [num_slides] slides, or none
    when [num_slides] is zero or negative. *)
Theorem content_lookup_never_fails (topic : string) (num_slides : Z) :
  ∃ slides,
    Content.generate_content_for_topic topic num_slides = Some slides ∧
    length slides = Z.to_nat num_slides.
Proof.
  destruct (content_lookup_defined topic num_slides) as [slides Hgen].
  exists slides. split; [done|].
  unfold Content.generate_content_for_topic in Hgen.
  apply length_mapM in Hgen. by rewrite <- Hgen, length_seqZ.
Qed.

Lemma content_lookup_never_fails_example :
  Content.generate_content_for_topic "Chess" (-3) = Some [].
Proof. reflexivity. Qed.

(** X18.  The slides cycle through the matched list: it has 5 entries (a
    library list) or 8 (the generic advice), and a slide repeats the title
    and subtitle of the slide that many places earlier, so asking for more
    slides than the list has entries starts again at its first entry.  The
    visual themes repeat with period 8. *)
Theorem content_repeats_cyclically (topic : string) (num_slides : Z)
    (slides : list slide) (i : nat) (a b c : slide) :
  Content.generate_content_for_topic topic num_slides = Some slides →
  let period := length (Content.matched_content topic) in
  (period = 5%nat ∨ period = 8%nat) ∧
  (slides !! i = Some a → slides !! (i + period)%nat = Some b →
   title a = title b ∧ subtitle a = subtitle b) ∧
  (slides !! i = Some a → slides !! (i + 8)%nat = Some c →
   visual_theme a = visual_theme c).
Proof.
  intros Hgen period. split; [apply matched_content_length|].
  assert (0 < Z.of_nat period) as Hpos.
  { pose proof (matched_content_length topic). subst period. lia. }
  split.
  - intros Ha Hb.
    destruct (generated_slide topic num_slides slides i a Hgen Ha) as [Hia _].
    destruct (generated_slide topic num_slides slides _ b Hgen Hb) as [Hib _].
    fold period in Hia, Hib.
    replace (Z.of_nat (i + period) mod Z.of_nat period)
      with (Z.of_nat i mod Z.of_nat period) in Hib.
    + rewrite Hia in Hib. by injection Hib as -> ->.
    + rewrite Nat2Z.inj_add.
      replace (Z.of_nat i + Z.of_nat period)
        with (Z.of_nat i + 1 * Z.of_nat period) by lia.
      by rewrite Z.mod_add by lia.
  - intros Ha Hc.
    destruct (generated_slide topic num_slides slides i a Hgen Ha) as [_ Hta].
    destruct (generated_slide topic num_slides slides _ c Hgen Hc) as [_ Htc].
    replace (Z.of_nat (i + 8) mod 8) with (Z.of_nat i mod 8) in Htc.
    + rewrite Hta in Htc. by injection Htc as ->.
    + rewrite Nat2Z.inj_add. change (Z.of_nat 8) with (1 * 8).
      by rewrite Z.mod_add by lia.
Qed.

Lemma content_repeats_cyclically_witness :
  (5 = 5 ∨ 5 = 8)%nat ∧
  ("Time Blocking" = "Time Blocking" ∧
   "Schedule your day in focused chunks"
   = "Schedule your day in focused chunks").
Proof.
  destruct (content_lookup_defined "Top 10 Productivity Tips" 10)
    as (slides & Hgen).
  assert (Content.generate_content_for_topic "Top 10 Productivity Tips" 10
          = Some slides) as Hgen' by exact Hgen.
  vm_compute in Hgen. injection Hgen as <-.
  destruct (content_repeats_cyclically "Top 10 Productivity Tips" 10 _
              0%nat
              {| title := "Time Blocking";
                 subtitle := "Schedule your day in focused chunks";
                 visual_theme := "modern blue professional" |}
              {| title := "Time Blocking";
                 subtitle := "Schedule your day in focused chunks";
                 visual_theme := "cool contemporary teal" |}
              {| title := "Batch Similar Tasks";
                 subtitle := "Group emails, calls, and admin together";
                 visual_theme := "modern blue professional" |}
              Hgen') as (Hperiod & Hrep & _).
  split; [exact Hperiod|]. apply Hrep; reflexivity.
Defined.

Lemma plain_title_facts t :
  plain_title t = true →
  PyStr.mem PyStr.newline t = false ∧
  Forall (fun w => w ≠ "") (PyStr.split PyStr.space t) ∧
  PyStr.words t ≠ [].
Proof.
  unfold plain_title. intros [[Ht Hnl]%andb_true_iff Hws]%andb_true_iff.
  apply negb_true_iff in Hnl. split; [done|].
  rewrite forallb_forall in Hws.
  assert (Forall (fun w => PyStr.truthy w = true) (PyStr.split PyStr.space t))
    as Hall.
  { apply Forall_forall. intros w Hw. apply Hws. by apply list_elem_of_In. }
  split.
  - eapply Forall_impl; [exact Hall|]. by intros [|c w].
  - unfold PyStr.words.
    destruct (split_cons PyStr.space t) as (w & ws & Hsplit).
    rewrite Hsplit in *. apply Forall_cons in Hall as [Hw _].
    simpl. by rewrite Hw.
Qed.

Lemma generated_title_plain topic num_slides slides s :
  Content.generate_content_for_topic topic num_slides = Some slides →
  s ∈ slides → plain_title (title s) = true.
Proof.
  intros Hgen [i Hs]%list_elem_of_lookup.
  destruct (generated_slide topic num_slides slides i s Hgen Hs) as [Hitem _].
  pose proof (matched_content_titles topic) as Hall.
  rewrite forallb_forall in Hall.
  apply (Hall (title s, subtitle s)).
  apply list_elem_of_In, list_elem_of_lookup. eauto.
Qed.

(** X19.  Every title the content lookup produces is wrapped without loss,
    for every font, budget and drawing handle: it has no line break and
    only single spaces, so the lines [wrap_text] builds, joined with single
    spaces, are the title again, there is at least one line, and
    [add_text_overlay] reads back exactly those lines from the returned
    string. *)
Theorem generated_titles_wrap_without_loss `{FontEnv} (topic : string)
    (num_slides : Z) (slides : list slide) (s : slide) (f : font)
    (max_width : Z) (draw : PIL.ImageDraw) :
  Content.generate_content_for_topic topic num_slides = Some slides →
  s ∈ slides →
  PyStr.join " " (wrap_lines (title s) f max_width draw) = title s ∧
  wrap_lines (title s) f max_width draw ≠ [] ∧
  PyStr.split PyStr.newline (wrap_text (title s) f max_width draw)
  = wrap_lines (title s) f max_width draw.
Proof.
  intros Hgen Hs.
  destruct (plain_title_facts _ (generated_title_plain _ _ _ _ Hgen Hs))
    as (Hnl & Hws & Hwords).
  assert (wrap_lines (title s) f max_width draw ≠ []) as Hne.
  { intros Hnil. apply Hwords.
    by rewrite <- (wrap_lines_words f max_width draw (title s)), Hnil. }
  split_and!; [|done|].
  - rewrite wrap_lines_emitted, wrap_fold_join by done.
    apply (join_split PyStr.space).
  - pose proof (wrapped_lines_eq f max_width draw (title s) Hnl) as Heq.
    unfold wrapped_lines in Heq. rewrite Heq.
    by destruct (wrap_lines (title s) f max_width draw).
Qed.

Lemma generated_titles_wrap_without_loss_witness :
  PyStr.join " "
    (@wrap_lines Demo.with_fonts "Eliminate Distractions"
       (FreeTypeFont helvetica 75) 300 Demo.surface)
  = "Eliminate Distractions".
Proof.
  refine (proj1 (@generated_titles_wrap_without_loss Demo.with_fonts
                   "Top 5 Productivity Tips" 3 _
                   {| title := "Eliminate Distractions";
                      subtitle := "Turn off notifications during deep work";
                      visual_theme := "calm trustworthy green" |}
                   (FreeTypeFont helvetica 75) 300 Demo.surface _ _)).
  - reflexivity.
  - do 2 right. left.
Defined.

(** X20.  A keyword only has to occur inside a key: when one of the words
    of the cleaned topic is a substring of ["productivity"] (for instance
    [it], [o] or [product]), the productivity list is used, whatever else
    the topic says, because that key is tried first. *)
Theorem word_inside_first_key_selects_productivity (topic keyword : string)
    (num_slides : Z) (slides : list slide) (s : slide) :
  keyword ∈ Content.split_ws (Content.clean_topic topic) →
  Content.contains keyword "productivity" = true →
  Content.generate_content_for_topic topic num_slides = Some slides →
  s ∈ slides →
  title s ∈ ["Time Blocking"; "The 2-Minute Rule"; "Eliminate Distractions";
             "Batch Similar Tasks"; "Take Regular Breaks"].
Proof.
  intros Hkw Hin Hgen [i Hs]%list_elem_of_lookup.
  destruct (generated_slide topic num_slides slides i s Hgen Hs) as [Hitem _].
  assert (Content.matched_content topic
          = [ ("Time Blocking", "Schedule your day in focused chunks");
              ("The 2-Minute Rule",
               "If it takes less than 2 minutes, do it now");
              ("Eliminate Distractions",
               "Turn off notifications during deep work");
              ("Batch Similar Tasks",
               "Group emails, calls, and admin together");
              ("Take Regular Breaks",
               "Use the Pomodoro Technique for focus") ]) as Hmatched.
  { unfold Content.matched_content, Content.content_library. cbv zeta.
    cbn [Content.find_content].
    assert (Content.key_matches
              (Content.split_ws (Content.clean_topic topic))
              (Content.clean_topic topic) "productivity" = true) as ->; [|done].
    unfold Content.key_matches. apply orb_true_iff. left.
    apply existsb_exists. exists keyword.
    split; [by apply list_elem_of_In|done]. }
  rewrite Hmatched in Hitem.
  apply list_elem_of_lookup_2 in Hitem.
  apply (list_elem_of_fmap_2 fst) in Hitem. exact Hitem.
Qed.

Lemma word_inside_first_key_selects_productivity_witness :
  "Time Blocking"
  ∈ ["Time Blocking"; "The 2-Minute Rule"; "Eliminate Distractions";
     "Batch Similar Tasks"; "Take Regular Breaks"].
Proof.
  refine (word_inside_first_key_selects_productivity
            "Best travel: do it right" "it" 1 _
            {| title := "Time Blocking";
               subtitle := "Schedule your day in focused chunks";
               visual_theme := "modern blue professional" |} _ _ _ _).
  - compute_done.
  - reflexivity.
  - reflexivity.
  - by left.
Defined.

Lemma drop_while_all p a b :
  all_chars p a = true →
  Content.drop_while p (a +:+ b) = Content.drop_while p b.
Proof.
  induction a as [|c a IH]; [done|].
  intros [Hc Ha]%andb_true_iff.
  change (String c a +:+ b) with (String c (a +:+ b)). simpl.
  rewrite Hc. auto.
Qed.

Lemma space_is_no_digit c :
  Content.is_space c = true → Content.is_digit c = false.
Proof.
  destruct c as [[] [] [] [] [] [] [] []]; vm_compute; congruence.
Qed.

Lemma prefix_app p t : String.prefix p (p +:+ t) = true.
Proof.
  induction p as [|c p IH]; [by destruct t|].
  change (String c p +:+ t) with (String c (p +:+ t)). simpl.
  by destruct (ascii_dec c c).
Qed.

Lemma prefix_other a p b q t :
  a ≠ b → String.prefix (String a p) (String b q +:+ t) = false.
Proof.
  intros Hab. change (String b q +:+ t) with (String b (q +:+ t)). simpl.
  by destruct (ascii_dec a b).
Qed.

Lemma drop_chars_app p t : Content.drop_chars (String.length p) (p +:+ t) = t.
Proof. induction p as [|c p IH]; [by destruct t|done]. Qed.

Lemma replace_first_prefix p new t :
  Content.replace_first p new (p +:+ t) = new +:+ t.
Proof.
  assert (∀ s, Content.replace_first p new s
               = if String.prefix p s
                 then new +:+ Content.drop_chars (String.length p) s
                 else match s with
                      | EmptyString => EmptyString
                      | String c rest =>
                          String c (Content.replace_first p new rest)
                      end) as Hunfold by by intros [|c s].
  by rewrite Hunfold, prefix_app, drop_chars_app.
Qed.

Lemma strip_prefix_known prefix tail :
  prefix ∈ ["top "; "best "; "ultimate "; "essential "] →
  Content.strip_prefix ["top "; "best "; "ultimate "; "essential "]
    (prefix +:+ tail) = tail.
Proof.
  rewrite !elem_of_cons, elem_of_nil.
  intros [->|[->|[->|[->|[]]]]]; unfold Content.strip_prefix;
    rewrite ?prefix_other by discriminate;
    by rewrite prefix_app, replace_first_prefix.
Qed.

(** X21.  Cleaning removes one leading prefix and the number behind it: if
    the lower-cased topic is one of the prefixes [top ], [best ],
    [ultimate ], [essential ] followed by digits, white space and a rest
    that starts with neither a digit nor white space, the cleaned topic is
    exactly that rest. *)
Theorem clean_topic_strips_prefix_and_number
    (topic prefix digits spaces rest : string) :
  prefix ∈ ["top "; "best "; "ultimate "; "essential "] →
  digits ≠ "" →
  all_chars Content.is_digit digits = true →
  all_chars Content.is_space spaces = true →
  starts_with_text rest →
  Content.lower topic = prefix +:+ digits +:+ spaces +:+ rest →
  Content.clean_topic topic = rest.
Proof.
  intros Hp Hne Hdigits Hspaces Hrest Hlower.
  unfold Content.clean_topic. rewrite Hlower, strip_prefix_known by done.
  assert (Content.drop_while Content.is_space rest = rest) as Hrs.
  { destruct rest as [|c rest]; [done|]. simpl. by destruct Hrest as [_ ->]. }
  assert (Content.drop_while Content.is_digit (spaces +:+ rest)
          = spaces +:+ rest) as Hsd.
  { destruct spaces as [|c spaces].
    - destruct rest as [|c rest]; [done|]. simpl. by destruct Hrest as [-> _].
    - apply andb_true_iff in Hspaces as [Hc _].
      change (String c spaces +:+ rest) with (String c (spaces +:+ rest)).
      simpl. by rewrite (space_is_no_digit c Hc). }
  destruct digits as [|d digits]; [done|].
  pose proof Hdigits as [Hd _]%andb_true_iff.
  change (Content.sub_leading_number (String d digits +:+ spaces +:+ rest))
    with (if Content.is_digit d
          then Content.drop_while Content.is_space
                 (Content.drop_while Content.is_digit
                    (String d digits +:+ spaces +:+ rest))
          else String d digits +:+ spaces +:+ rest).
  rewrite Hd.
  by rewrite (drop_while_all _ _ _ Hdigits), Hsd,
       (drop_while_all _ _ _ Hspaces), Hrs.
Qed.

Lemma clean_topic_strips_prefix_and_number_witness :
  Content.clean_topic "Best 10   Fitness Hacks" = "fitness hacks".
Proof.
  apply (clean_topic_strips_prefix_and_number "Best 10   Fitness Hacks"
           "best " "10" "   " "fitness hacks").
  - compute_done.
  - discriminate.
  - reflexivity.
  - reflexivity.
  - split; reflexivity.
  - reflexivity.
Defined.

Lemma listicle_paths_length `{FontEnv} `{Externals} topic format_type
    background_type num_slides w paths w' :
  generate_listicle_images topic format_type background_type num_slides w
  = (Ok paths, w') →
  length paths = length (generate_content_for_topic topic num_slides).
Proof.
  unfold generate_listicle_images. intros Hrun.
  destruct (dict_contains format_type FORMATS); [|done].
  destruct (dict_contains background_type BACKGROUND_TYPES); [|done].
  cbn [negb] in Hrun.
  do 6 (apply bind_Ok_inv in Hrun as (? & ? & _ & Hrun); cbv zeta in Hrun).
  by apply slides_loop_Ok in Hrun as (new & -> & Hlen & _).
Qed.

(** X22.  With the content lookup of the scripts in place, an answer of
    the endpoint carries exactly as many image URLs as slides were
    requested, between 1 and 10, whatever the other collaborators do. *)
Theorem endpoint_returns_one_image_per_requested_slide `{FontEnv}
    `{Externals} (request : ListicleRequest) (w w' : world)
    (response : ListicleResponse) :
  (∀ topic n,
     Content.generate_content_for_topic topic n
     = Some (generate_content_for_topic topic n)) →
  generate_listicle request w = (Ok response, w') →
  length (images response) = Z.to_nat (req_num_slides request) ∧
  (1 <= length (images response) <= 10)%nat.
Proof.
  intros Hcontent Hrun.
  destruct (generate_listicle_cases request w)
    as [[_ Hc]|[(_ & _ & d & Hc)|(_ & Hok & Hc)]]; rewrite Hc in Hrun;
    [done|done|].
  destruct (generate_listicle_images _ _ _ _ _) as [[image_paths|e] w1]
    eqn:Hgen; [|done].
  destruct (image_urls_of _ _) as [[image_urls|e] w2] eqn:Hurls; [|done].
  destruct (create_download_zip _ _ _ _) as [[url|e] w3]; [|done].
  injection Hrun as <- _. cbn [images].
  apply image_urls_of_Ok in Hurls. apply listicle_paths_length in Hgen.
  specialize (Hcontent (req_topic request) (req_num_slides request)).
  unfold Content.generate_content_for_topic in Hcontent.
  apply length_mapM in Hcontent. rewrite length_seqZ in Hcontent.
  destruct Hok as (_ & _ & _ & Hn). lia.
Qed.

Lemma endpoint_returns_one_image_per_requested_slide_witness :
  ∃ response w',
    @generate_listicle Demo.with_fonts Sample.with_content
      {| req_topic := "Top 5 Productivity Tips";
         req_format_type := "portrait"; req_background_type := "color";
         req_num_slides := 7 |} {| heap := []; stdout := [] |}
    = (Ok response, w') ∧
    length (images response) = 7%nat.
Proof.
  eexists _, _. split; [vm_compute; reflexivity|].
  refine (proj1 (@endpoint_returns_one_image_per_requested_slide
                   Demo.with_fonts Sample.with_content
                   {| req_topic := "Top 5 Productivity Tips";
                      req_format_type := "portrait";
                      req_background_type := "color"; req_num_slides := 7 |}
                   {| heap := []; stdout := [] |} _ _ _ _)).
  - intros topic n. cbn.
    by destruct (content_lookup_defined topic n) as [slides ->].
  - vm_compute. reflexivity.
Defined.

(** ** The clean-up of old images *)

Example cleanup_keeps_two :
  @Cleanup.cleanup_old_images Sample.all_removable Sample.four_files 2 []
  = ([Cleanup.File "out/a.png" 30; Cleanup.File "out/c.png" 40],
     ["Cleaned up old image: d.png"; "Cleaned up old image: b.png"]).
Proof. vm_compute. reflexivity. Qed.

Example cleanup_with_locked_file :
  @Cleanup.cleanup_old_images Sample.b_locked Sample.four_files 2 []
  = ([Cleanup.File "out/a.png" 30; Cleanup.File "out/b.png" 10;
      Cleanup.File "out/c.png" 40],
     ["Cleaned up old image: d.png";
      "Error removing out/b.png: [Errno 13] Permission denied"]).
Proof. vm_compute. reflexivity. Qed.

Example cleanup_with_dangling_link :
  @Cleanup.cleanup_old_images Sample.d_dangling Sample.four_files 2 []
  = (Sample.four_files,
     ["Error during cleanup: [Errno 2] No such file or directory: 'out/d.png'"])
  ∧ @Cleanup.cleanup_old_images Sample.d_dangling Sample.four_files 4 []
    = (Sample.four_files, []).
Proof. split; vm_compute; reflexivity. Qed.

Example sort_is_stable :
  Cleanup.sort_newest_first
    [Cleanup.File "a" 5; Cleanup.File "b" 5; Cleanup.File "c" 7]
  = [Cleanup.File "c" 7; Cleanup.File "a" 5; Cleanup.File "b" 5].
Proof. reflexivity. Qed.

Lemma insert_by_mtime_perm x l : Cleanup.insert_by_mtime x l ≡ₚ x :: l.
Proof.
  induction l as [|y l IH]; simpl; [done|].
  destruct (Cleanup.mtime y <=? Cleanup.mtime x); [done|].
  by rewrite IH, Permutation_swap.
Qed.

Lemma sort_newest_first_perm l : Cleanup.sort_newest_first l ≡ₚ l.
Proof.
  induction l as [|x l IH]; simpl; [done|].
  by rewrite insert_by_mtime_perm, IH.
Qed.

Lemma insert_by_mtime_sorted x l :
  newest_first l → newest_first (Cleanup.insert_by_mtime x l).
Proof.
  induction l as [|y l IH]; simpl; [done|]. intros [Hy Hl].
  destruct (Z.leb_spec (Cleanup.mtime y) (Cleanup.mtime x)) as [Hle|Hgt].
  - simpl. split_and!; [|done|done].
    apply Forall_cons. split; [done|].
    eapply Forall_impl; [exact Hy|]. simpl. intros z Hz. lia.
  - simpl. split; [|by apply IH].
    rewrite insert_by_mtime_perm. apply Forall_cons. split; [lia|done].
Qed.

Lemma sort_newest_first_sorted l : newest_first (Cleanup.sort_newest_first l).
Proof.
  induction l as [|x l IH]; simpl; [done|]. by apply insert_by_mtime_sorted.
Qed.

Lemma newest_first_split l k a b :
  newest_first l → a ∈ take k l → b ∈ drop k l →
  Cleanup.mtime b <= Cleanup.mtime a.
Proof.
  revert k. induction l as [|x l IH]; intros k Hs Ha Hb.
  - by rewrite take_nil in Ha; apply elem_of_nil in Ha.
  - destruct k as [|k]; [by apply elem_of_nil in Ha|].
    simpl in *. destruct Hs as [Hx Hl].
    apply elem_of_cons in Ha as [->|Ha]; [|by apply (IH k)].
    rewrite Forall_forall in Hx. apply Hx. by apply (subseteq_drop k l).
Qed.

Section CleanupFacts.
Context `{Cleanup.FsEnv}.

Lemma remove_loop_elem ps st f :
  f ∈ (fold_left Cleanup.remove_one ps st).1
  ↔ f ∈ st.1 ∧
    ∀ p, p ∈ ps → Cleanup.remove_fails p = false → Cleanup.path f ≠ p.
Proof.
  revert st. induction ps as [|q ps IH]; intros st; simpl.
  - split; [intros Hf; split; [done|]; intros p Hp; by apply elem_of_nil in Hp
           |by intros [? _]].
  - rewrite IH. unfold Cleanup.remove_one.
    destruct (Cleanup.remove_fails q) eqn:Hq; simpl.
    + split; intros [Hf Hps]; (split; [done|]).
      * intros p [->|Hp]%elem_of_cons Hok; [congruence|by apply Hps].
      * intros p Hp Hok. apply Hps; [by right|done].
    + rewrite list_elem_of_filter. split.
      * intros [[Hne Hf] Hps]. split; [done|].
        intros p [->|Hp]%elem_of_cons Hok; [done|by apply Hps].
      * intros [Hf Hps]. split; [split; [|done]|].
        -- apply Hps; [by left|done].
        -- intros p Hp Hok. apply Hps; [by right|done].
Qed.

Lemma remove_loop_printed ps st :
  length (fold_left Cleanup.remove_one ps st).2
  = (length st.2 + length ps)%nat.
Proof.
  revert st. induction ps as [|q ps IH]; intros st; simpl; [lia|].
  rewrite IH. unfold Cleanup.remove_one.
  destruct (Cleanup.remove_fails q); simpl; rewrite length_app; simpl; lia.
Qed.

Lemma remove_loop_NoDup ps st :
  NoDup st.1 → NoDup (fold_left Cleanup.remove_one ps st).1.
Proof.
  revert st. induction ps as [|q ps IH]; intros st Hst; simpl; [done|].
  apply IH. unfold Cleanup.remove_one.
  destruct (Cleanup.remove_fails q); simpl; [done|by apply NoDup_filter].
Qed.

Lemma sort_key_error_None files :
  Cleanup.sort_key_error files = None ↔
  ∀ f, f ∈ files → Cleanup.getmtime_error (Cleanup.path f) = None.
Proof.
  induction files as [|g files IH]; simpl.
  - split; [by intros _ f ?%elem_of_nil|done].
  - destruct (Cleanup.getmtime_error (Cleanup.path g)) as [e|] eqn:Hg.
    + split; [done|]. intros Hall. rewrite <- Hg. apply Hall. by left.
    + rewrite IH. split.
      * intros Hall f [->|Hf]%elem_of_cons; [done|by apply Hall].
      * intros Hall f Hf. apply Hall. by right.
Qed.

Lemma sort_key_error_Some files e :
  Cleanup.sort_key_error files = Some e →
  ∃ f, f ∈ files ∧ Cleanup.getmtime_error (Cleanup.path f) = Some e.
Proof.
  induction files as [|g files IH]; simpl; [done|].
  destruct (Cleanup.getmtime_error (Cleanup.path g)) as [e'|] eqn:Hg.
  - intros [= ->]. exists g. split; [by left|done].
  - intros (f & Hf & He)%IH. exists f. split; [by right|done].
Qed.

(** The three outcomes of a clean-up with a non-negative [keep_latest]:
    nothing to do, the removal loop, or the outer handler. *)
Lemma cleanup_cases directory keep_latest printed :
  0 <= keep_latest →
  (Cleanup.glob_error = None ∧
   Z.of_nat (length directory) <= keep_latest ∧
   Cleanup.cleanup_old_images directory keep_latest printed
   = (directory, printed))
  ∨ (Cleanup.glob_error = None ∧
     Cleanup.sort_key_error directory = None ∧
     keep_latest < Z.of_nat (length directory) ∧
     Cleanup.cleanup_old_images directory keep_latest printed
     = fold_left Cleanup.remove_one
         (Cleanup.path <$>
            drop (Z.to_nat keep_latest) (Cleanup.sort_newest_first directory))
         (directory, printed))
  ∨ (∃ e,
       (Cleanup.glob_error = Some e
        ∨ (Cleanup.glob_error = None ∧
           keep_latest < Z.of_nat (length directory) ∧
           Cleanup.sort_key_error directory = Some e)) ∧
       Cleanup.cleanup_old_images directory keep_latest printed
       = (directory, printed ++ ["Error during cleanup: " +:+ e])).
Proof.
  intros Hk. unfold Cleanup.cleanup_old_images, Cleanup.cleanup_try.
  cbv zeta.
  destruct Cleanup.glob_error as [e|]; [right; right; exists e; auto|].
  destruct (Z.leb_spec (Z.of_nat (length directory)) keep_latest);
    [by left|right].
  destruct (Cleanup.sort_key_error directory) as [e|] eqn:Hkeys.
  - right. exists e. split; [right|]; done.
  - left. split_and!; [done..|]. unfold Cleanup.slice_from.
    rewrite (proj2 (Z.leb_le 0 keep_latest)) by done. by rewrite fmap_drop.
Qed.

Lemma newest_not_listed directory k f p :
  NoDup (Cleanup.path <$> directory) →
  f ∈ take k (Cleanup.sort_newest_first directory) →
  p ∈ Cleanup.path <$> drop k (Cleanup.sort_newest_first directory) →
  Cleanup.path f ≠ p.
Proof.
  intros Hnd Hf Hp Heq.
  rewrite <- (sort_newest_first_perm directory) in Hnd.
  rewrite <- (take_drop k (Cleanup.sort_newest_first directory)) in Hnd.
  rewrite fmap_app in Hnd. apply NoDup_app in Hnd as (_ & Hdisj & _).
  apply (Hdisj p); [|done]. rewrite <- Heq. by apply list_elem_of_fmap_2.
Qed.

End CleanupFacts.

Lemma same_path_same_file (directory : list Cleanup.file) a b :
  NoDup (Cleanup.path <$> directory) →
  a ∈ directory → b ∈ directory → Cleanup.path a = Cleanup.path b → a = b.
Proof.
  intros Hnd [i Hi]%list_elem_of_lookup [j Hj]%list_elem_of_lookup Hpath.
  assert (i = j) as ->; [|congruence].
  apply (NoDup_lookup _ i j (Cleanup.path a) Hnd);
    rewrite list_lookup_fmap; [by rewrite Hi|by rewrite Hj, Hpath].
Qed.

(** X23.  With a non-negative [keep_latest] and distinct paths, the
    clean-up only ever removes: every file left is a file that was there.
    A file is gone only if the listing and every modification time could be
    read and its own removal succeeded, and then at least [keep_latest]
    files at least as new as it are left.  When the listing and the times
    can be read, one line is printed per file beyond the [keep_latest]
    newest, and a directory of at most [keep_latest] files is left
    untouched with nothing printed.  When [glob.glob] raises, or there are
    more than [keep_latest] files and reading a modification time raises,
    nothing is removed and the only line printed is [Error during cleanup:]
    with the text of that exception; among several unreadable times it is
    the exception of the first file in listing order. *)
Theorem cleanup_removes_only_old_files `{Cleanup.FsEnv}
    (directory : list Cleanup.file) (keep_latest : Z)
    (printed : list string) :
  0 <= keep_latest →
  NoDup (Cleanup.path <$> directory) →
  let result := Cleanup.cleanup_old_images directory keep_latest printed in
  let readable :=
    Cleanup.glob_error = None ∧
    ∀ f, f ∈ directory → Cleanup.getmtime_error (Cleanup.path f) = None in
  (∀ f, f ∈ result.1 → f ∈ directory) ∧
  (∀ b, b ∈ directory → b ∉ result.1 →
     readable ∧
     Cleanup.remove_fails (Cleanup.path b) = false ∧
     (Z.to_nat keep_latest
      <= length (filter (fun a => (Cleanup.mtime b <= Cleanup.mtime a)%Z)
                   result.1))%nat) ∧
  (readable →
   length result.2
   = (length printed + (length directory - Z.to_nat keep_latest))%nat) ∧
  (Cleanup.glob_error = None →
   Z.of_nat (length directory) <= keep_latest →
   result = (directory, printed)) ∧
  (∀ e,
     Cleanup.glob_error = Some e
     ∨ (Cleanup.glob_error = None ∧
        keep_latest < Z.of_nat (length directory) ∧
        Cleanup.sort_key_error directory = Some e) →
     result = (directory, printed ++ ["Error during cleanup: " +:+ e])).
Proof.
  intros Hk Hnd result readable.
  destruct (cleanup_cases directory keep_latest printed Hk)
    as [(Hglob & Hfew & Hres)|[(Hglob & Hkeys & Hmany & Hres)
                               |(e & Herr & Hres)]];
    subst result; rewrite Hres.
  { split_and!; [done|done|simpl; lia|done|].
    intros e [He|(_ & Hmany & _)]; [congruence|lia]. }
  2:{ split_and!; [done|done| | |].
      - intros [Hglob Htimes].
        destruct Herr as [He|(_ & _ & He)]; [congruence|].
        apply sort_key_error_Some in He as (f & Hf & He).
        rewrite Htimes in He; done.
      - intros Hglob Hfew.
        destruct Herr as [He|(_ & Hmany & _)]; [congruence|lia].
      - intros e' [He'|(Hglob & _ & He')];
          destruct Herr as [He|(Hglob' & _ & He)]; congruence. }
  set (k := Z.to_nat keep_latest).
  set (sorted := Cleanup.sort_newest_first directory).
  fold k in Hres |- *. fold sorted in Hres |- *.
  assert (sorted ≡ₚ directory) as Hperm by apply sort_newest_first_perm.
  assert readable as Hreadable.
  { split; [done|]. by apply sort_key_error_None. }
  split_and!.
  - intros f Hf. by apply remove_loop_elem in Hf as [Hf _].
  - intros b Hb Hgone. split; [done|].
    assert (∃ p, p ∈ Cleanup.path <$> drop k sorted
                 ∧ Cleanup.remove_fails p = false ∧ Cleanup.path b = p)
      as (p & Hp & Hok & Hbp).
    { destruct (decide (Exists (fun p => Cleanup.remove_fails p = false
                                         ∧ Cleanup.path b = p)
                          (Cleanup.path <$> drop k sorted))) as [Hex|Hno].
      - apply Exists_exists in Hex as (p & Hp & Hok & Hbp). eauto.
      - exfalso. apply Hgone. apply remove_loop_elem. split; [done|].
        intros p Hp Hok Hbp. apply Hno. apply Exists_exists. eauto. }
    split; [by rewrite Hbp|].
    apply list_elem_of_fmap in Hp as (g & Hg & Hgd).
    assert (b = g) as <-.
    { apply (same_path_same_file directory); [done|done| |congruence].
      rewrite <- Hperm. by apply (subseteq_drop k sorted). }
    assert (take k sorted ⊆+ filter
              (fun a => Cleanup.mtime b <= Cleanup.mtime a)
              (fold_left Cleanup.remove_one
                 (Cleanup.path <$> drop k sorted) (directory, printed)).1)
      as Hsub.
    { apply NoDup_submseteq.
      - apply (NoDup_fmap_1 Cleanup.path).
        rewrite <- Hperm, <- (take_drop k sorted), fmap_app in Hnd.
        by apply NoDup_app in Hnd as (? & _ & _).
      - intros a Ha. apply list_elem_of_filter. split.
        + by apply (newest_first_split sorted k);
            [apply sort_newest_first_sorted| |].
        + apply remove_loop_elem. split.
          * simpl. rewrite <- Hperm. by apply (subseteq_take k sorted).
          * intros q Hq _. by apply (newest_not_listed directory k). }
    apply submseteq_length in Hsub. rewrite length_take in Hsub.
    rewrite (Permutation_length Hperm) in Hsub. lia.
  - intros _. rewrite remove_loop_printed, length_fmap, length_drop.
    by rewrite (Permutation_length Hperm).
  - lia.
  - intros e [He|(_ & _ & He)]; congruence.
Qed.

Lemma cleanup_removes_only_old_files_witness :
  (let result :=
     @Cleanup.cleanup_old_images Sample.b_locked Sample.four_files 2 [] in
   (∀ f, f ∈ result.1 → f ∈ Sample.four_files) ∧
   length result.2 = 2%nat)
  ∧ @Cleanup.cleanup_old_images Sample.d_dangling Sample.four_files 2 []
    = (Sample.four_files,
       ["Error during cleanup: " +:+
        "[Errno 2] No such file or directory: 'out/d.png'"]).
Proof.
  split.
  - destruct (@cleanup_removes_only_old_files Sample.b_locked
                Sample.four_files 2 [] ltac:(lia) ltac:(compute_done))
      as (Hsub & _ & Hprinted & _).
    split; [exact Hsub|]. apply Hprinted. split; [done|]. by intros f _.
  - destruct (@cleanup_removes_only_old_files Sample.d_dangling
                Sample.four_files 2 [] ltac:(lia) ltac:(compute_done))
      as (_ & _ & _ & _ & Herror).
    apply Herror. right. split_and!; [done|simpl; lia|reflexivity].
Defined.

(** X24.  When the listing and every modification time can be read and
    every removal succeeds, the clean-up leaves exactly the [keep_latest]
    newest files (all of them if there are fewer): the number left is
    [min(len, keep_latest)], and no removed file is newer than a file that
    is left. *)
Theorem cleanup_keeps_exactly_the_newest `{Cleanup.FsEnv}
    (directory : list Cleanup.file) (keep_latest : Z)
    (printed : list string) :
  Cleanup.glob_error = None →
  (∀ p, Cleanup.getmtime_error p = None) →
  (∀ p, Cleanup.remove_fails p = false) →
  0 <= keep_latest →
  NoDup (Cleanup.path <$> directory) →
  let result := Cleanup.cleanup_old_images directory keep_latest printed in
  length result.1 = (length directory `min` Z.to_nat keep_latest)%nat ∧
  ∀ a b, a ∈ result.1 → b ∈ directory → b ∉ result.1 →
         Cleanup.mtime b <= Cleanup.mtime a.
Proof.
  intros Hglob Htimes Hok Hk Hnd result.
  destruct (cleanup_cases directory keep_latest printed Hk)
    as [(_ & Hfew & Hres)|[(_ & _ & Hmany & Hres)|(e & Herr & _)]].
  3:{ exfalso. destruct Herr as [He|(_ & _ & He)]; [congruence|].
      apply sort_key_error_Some in He as (f & _ & He).
      by rewrite Htimes in He. }
  all: subst result; rewrite Hres.
  { simpl. split; [lia|]. by intros a b _ Hb Hnb. }
  set (k := Z.to_nat keep_latest).
  set (sorted := Cleanup.sort_newest_first directory).
  fold k in Hres |- *. fold sorted in Hres |- *.
  assert (sorted ≡ₚ directory) as Hperm by apply sort_newest_first_perm.
  assert (∀ f, f ∈ (fold_left Cleanup.remove_one
                      (Cleanup.path <$> drop k sorted) (directory, printed)).1
               ↔ f ∈ take k sorted) as Hsame.
  { intros f. rewrite remove_loop_elem. simpl. split.
    - intros [Hf Hps]. rewrite <- Hperm, <- (take_drop k sorted) in Hf.
      apply elem_of_app in Hf as [Hf|Hf]; [done|]. exfalso.
      apply (Hps (Cleanup.path f)); [by apply list_elem_of_fmap_2|done|done].
    - intros Hf. split.
      + rewrite <- Hperm. by apply (subseteq_take k sorted).
      + intros p Hp _. by apply (newest_not_listed directory k). }
  split.
  - rewrite (Permutation_length (l' := take k sorted)).
    + rewrite length_take, (Permutation_length Hperm). lia.
    + apply NoDup_Permutation; [|
        |done].
      * apply remove_loop_NoDup. simpl. by apply (NoDup_fmap_1 Cleanup.path).
      * apply (NoDup_fmap_1 Cleanup.path).
        rewrite <- Hperm, <- (take_drop k sorted), fmap_app in Hnd.
        by apply NoDup_app in Hnd as (? & _ & _).
  - intros a b Ha Hb Hnb. apply Hsame in Ha.
    apply (newest_first_split sorted k);
      [apply sort_newest_first_sorted|done|].
    rewrite <- Hperm, <- (take_drop k sorted) in Hb.
    apply elem_of_app in Hb as [Hb|Hb]; [|done].
    exfalso. apply Hnb. by apply Hsame.
Qed.

Lemma cleanup_keeps_exactly_the_newest_witness :
  length (@Cleanup.cleanup_old_images Sample.all_removable
            Sample.four_files 2 []).1 = 2%nat.
Proof.
  refine (proj1 (@cleanup_keeps_exactly_the_newest Sample.all_removable
                   Sample.four_files 2 [] _ _ _ _ _)).
  - reflexivity.
  - reflexivity.
  - reflexivity.
  - lia.
  - compute_done.
Defined.

(** ** The topic inside the file name *)

Lemma mem_replace_char_self c by_ s :
  PyStr.mem c by_ = false → PyStr.mem c (replace_char c by_ s) = false.
Proof.
  intros Hby. induction s as [|d s IH]; [done|]. simpl.
  destruct (Ascii.eqb_spec d c) as [->|Hd].
  - by rewrite mem_app, Hby, IH.
  - simpl. rewrite IH. by rewrite (proj2 (Ascii.eqb_neq d c)).
Qed.

Lemma mem_replace_char_other c d by_ s :
  c ≠ d → PyStr.mem c by_ = false →
  PyStr.mem c (replace_char d by_ s) = PyStr.mem c s.
Proof.
  intros Hcd Hby. induction s as [|x s IH]; [done|]. simpl.
  destruct (Ascii.eqb_spec x d) as [->|Hx].
  - rewrite mem_app, Hby, IH. simpl.
    by rewrite (proj2 (Ascii.eqb_neq d c)) by done.
  - simpl. by rewrite IH.
Qed.

Lemma mem_replace_char_keeps c d by_ s :
  c ≠ d → PyStr.mem c s = true → PyStr.mem c (replace_char d by_ s) = true.
Proof.
  intros Hcd. induction s as [|x s IH]; [done|]. simpl.
  intros [Hx|Hs]%orb_true_iff.
  - apply Ascii.eqb_eq in Hx as ->.
    rewrite (proj2 (Ascii.eqb_neq c d)) by done. simpl.
    by rewrite Ascii.eqb_refl.
  - destruct (Ascii.eqb x d).
    + rewrite mem_app, IH by done. apply orb_true_r.
    + simpl. rewrite IH by done. apply orb_true_r.
Qed.

Lemma lower_char_punctuation c x :
  x = " "%char ∨ x = ","%char ∨ x = ":"%char →
  Ascii.eqb (Content.lower_char c) x = Ascii.eqb c x.
Proof.
  intros [->|[->| ->]];
    destruct c as [[] [] [] [] [] [] [] []]; vm_compute; reflexivity.
Qed.

Lemma mem_lower_punctuation x s :
  x = " "%char ∨ x = ","%char ∨ x = ":"%char →
  PyStr.mem x (Content.lower s) = PyStr.mem x s.
Proof.
  intros Hx. induction s as [|c s IH]; [done|]. simpl.
  by rewrite IH, lower_char_punctuation.
Qed.

Lemma mem_lower_char c s :
  PyStr.mem c s = true →
  PyStr.mem (Content.lower_char c) (Content.lower s) = true.
Proof.
  induction s as [|d s IH]; [done|]. simpl.
  intros [Hd|Hs]%orb_true_iff; apply orb_true_iff.
  - left. apply Ascii.eqb_eq in Hd as ->. apply Ascii.eqb_refl.
  - right. by apply IH.
Qed.

(** X25.  The topic as it enters a slide's file name (spaces replaced by
    underscores, commas and colons removed, then lower-cased) holds no
    space, comma or colon; every other character of the topic is kept, up
    to case: in particular a slash in the topic stays in the file name. *)
Theorem topic_in_file_name (topic : string) :
  let clean_topic :=
    Content.lower
      (replace_char ":" "" (replace_char "," "" (replace_char " " "_" topic)))
  in
  PyStr.mem " " clean_topic = false ∧
  PyStr.mem "," clean_topic = false ∧
  PyStr.mem ":" clean_topic = false ∧
  ∀ c, PyStr.mem c topic = true →
       c ≠ " "%char → c ≠ ","%char → c ≠ ":"%char →
       PyStr.mem (Content.lower_char c) clean_topic = true.
Proof.
  intros clean_topic. subst clean_topic. split_and!.
  - rewrite mem_lower_punctuation by auto.
    rewrite !mem_replace_char_other by done.
    by apply mem_replace_char_self.
  - rewrite mem_lower_punctuation by auto.
    rewrite mem_replace_char_other by done.
    by apply mem_replace_char_self.
  - rewrite mem_lower_punctuation by auto.
    by apply mem_replace_char_self.
  - intros c Hc Hsp Hco Hcl. apply mem_lower_char.
    by do 3 (apply mem_replace_char_keeps; [done|]).
Qed.

Lemma topic_in_file_name_witness :
  PyStr.mem "/"
    (Content.lower
       (replace_char ":" ""
          (replace_char "," "" (replace_char " " "_" "Top 5: A/B Tests"))))
  = true.
Proof.
  apply (proj2 (proj2 (proj2 (topic_in_file_name "Top 5: A/B Tests")))
           "/"%char); [reflexivity|discriminate..].
Defined.

Example topic_with_slash :
  Content.lower
    (replace_char ":" "" (replace_char "," ""
       (replace_char " " "_" "Top 5: ../Tips, now")))
  = "top_5_../tips_now".
Proof. reflexivity. Qed.

(** ** The background providers *)

Example replace_every_occurrence :
  Background.replace "top " "" "top top x" = "x".
Proof. reflexivity. Qed.

Lemma try_ok {A : Type} (body : M A) (handler : exn → M A) w a w' :
  body w = (Ok a, w') → try_except_as body handler w = (Ok a, w').
Proof. intros Hb. unfold try_except_as. by rewrite Hb. Qed.

Lemma try_raise {A : Type} (body : M A) (handler : exn → M A) w e w' :
  body w = (Raise e, w') → try_except_as body handler w = handler e w'.
Proof. intros Hb. unfold try_except_as. by rewrite Hb. Qed.

Lemma try_handler_returns {A : Type} (body : M A) (handler : exn → M A) w :
  (∀ e w1, ∃ a w', handler e w1 = (Ok a, w')) →
  ∃ a w', try_except_as body handler w = (Ok a, w').
Proof.
  intros Hh. unfold try_except_as.
  destruct (body w) as [[a|e] w1]; [by eexists _, _|apply Hh].
Qed.

Lemma try_Raise_inv {A : Type} (body : M A) (handler : exn → M A) w e w' :
  try_except_as body handler w = (Raise e, w') →
  ∃ e0 w1, body w = (Raise e0, w1) ∧ handler e0 w1 = (Raise e, w').
Proof.
  unfold try_except_as. destruct (body w) as [[a|e0] w1]; [done|].
  intros Hh. by exists e0, w1.
Qed.

Lemma bind_Raise_inv {A B : Type} (m : M A) (k : A → M B) w e w' :
  (m ≫= k) w = (Raise e, w') →
  m w = (Raise e, w') ∨ ∃ a w1, m w = (Ok a, w1) ∧ k a w1 = (Raise e, w').
Proof.
  unfold mbind, M_bind. destruct (m w) as [[a|e0] w1].
  - intros Hk. right. by exists a, w1.
  - intros [= -> ->]. by left.
Qed.

Section Providers.
Context `{Externals} `{Background.ProviderEnv}.

Lemma search_once_returns width height search_term w :
  ∃ found w', Background.search_once width height search_term w
              = (Ok found, w').
Proof.
  unfold Background.search_once. apply try_handler_returns.
  intros e w1. by eexists _, _.
Qed.

Lemma search_all_returns width height search_terms w :
  ∃ found w', Background.search_all width height search_terms w
              = (Ok found, w').
Proof.
  revert w. induction search_terms as [|t ts IH]; intros w; simpl.
  - by eexists _, _.
  - destruct (search_once_returns width height t w) as (found & w1 & Hone).
    erewrite bind_ok by exact Hone.
    destruct found as [image|]; [by eexists _, _|apply IH].
Qed.

(** A search that gets no status 200 finds nothing and prints nothing. *)
Lemma search_all_refused width height search_terms w :
  (∀ url world, ∃ status content,
     Background.requests_get url 10 world = (Ok (status, content), world)
     ∧ status ≠ 200) →
  Background.search_all width height search_terms w = (Ok None, w).
Proof.
  intros Hget. induction search_terms as [|t ts IH]; simpl; [done|].
  erewrite (bind_ok _ _ w w None); [exact IH|].
  unfold Background.search_once. cbv zeta. apply try_ok.
  destruct (Hget ("https://source.unsplash.com/" +:+ PyStr.of_int width +:+
                  "x" +:+ PyStr.of_int height +:+ "/?" +:+
                  replace_char " " "," t) w)
    as (status & content & Hreq & Hstatus).
  erewrite bind_ok by exact Hreq. simpl.
  by rewrite (proj2 (Z.eqb_neq status 200)).
Qed.

End Providers.

(** X26.  [create_stock_background] lets no failure of the network, the
    file system or the image decoder escape: if it raises at all, the
    exception is one that [create_color_background(width, height, 0)]
    raised in the outer handler. *)
Theorem stock_background_raises_only_from_the_fallback `{Externals}
    `{Background.ProviderEnv} (width height : Z) (slide_data : slide)
    (topic : string) (w w' : world) (e : exn) :
  Background.create_stock_background width height slide_data topic w
  = (Raise e, w') →
  ∃ w0, create_color_background width height 0 w0 = (Raise e, w').
Proof.
  unfold Background.create_stock_background. cbv zeta.
  intros Hrun.
  apply try_Raise_inv in Hrun as (e0 & w1 & _ & Hhandler).
  apply bind_Raise_inv in Hhandler as [Hprint|(_ & w2 & _ & Hcolor)];
    [done|by exists w2].
Qed.

Lemma stock_background_raises_only_from_the_fallback_witness :
  ∃ w0,
    @create_color_background Sample.no_disk_space 1920 1080 0 w0
    = (Raise (OSError "No space left on device"),
       {| heap := [];
          stdout :=
            ["All stock image searches failed, using color background";
             "Stock background creation failed: No space left on device"] |}).
Proof.
  apply (@stock_background_raises_only_from_the_fallback
           Sample.no_disk_space Sample.offline 1920 1080 Demo.time_blocking
           "travel" {| heap := []; stdout := [] |}).
  vm_compute. reflexivity.
Defined.

(** X27.  When no request comes back with status 200,
    [create_stock_background] prints the one line that all searches failed
    and returns [create_color_background(width, height, 0)]: the first
    colour, whatever the slide. *)
Theorem stock_background_without_hits_is_the_first_colour `{Externals}
    `{Background.ProviderEnv} (width height : Z) (slide_data : slide)
    (topic : string) (w w' : world) (r : ref) :
  (∀ url world, ∃ status content,
     Background.requests_get url 10 world = (Ok (status, content), world)
     ∧ status ≠ 200) →
  create_color_background width height 0
    {| heap := heap w;
       stdout := stdout w ++
         ["All stock image searches failed, using color background"] |}
  = (Ok r, w') →
  Background.create_stock_background width height slide_data topic w
  = (Ok r, w').
Proof.
  intros Hget Hcolor. unfold Background.create_stock_background. cbv zeta.
  apply try_ok.
  erewrite bind_ok by by apply search_all_refused.
  cbv iota. erewrite bind_ok by reflexivity. exact Hcolor.
Qed.

Lemma stock_background_without_hits_is_the_first_colour_witness :
  @Background.create_stock_background Demo.externals Sample.offline
    1920 1080 Demo.time_blocking "travel" {| heap := []; stdout := [] |}
  = (Ok 0%nat,
     {| heap := [Image RGB (1920, 1080)
                   (PxNew RGB (1920, 1080) (52, 73, 94, 255))];
        stdout :=
          ["All stock image searches failed, using color background"] |}).
Proof.
  apply (@stock_background_without_hits_is_the_first_colour Demo.externals
           Sample.offline).
  - intros url world. by exists 503, [].
  - reflexivity.
Defined.

(** One search that is answered with status 200: the objects it creates
    and the one it returns. *)
Lemma stock_search_hit `{Externals} `{Background.ProviderEnv}
    (width height : Z) (w : world) (content : list Z) (im : image) :
  (∀ url, Background.requests_get url 10 w = (Ok (200, content), w)) →
  os_makedirs "../temp" w = (Ok tt, w) →
  (∀ temp_path, Background.write_file temp_path content w = (Ok tt, w)) →
  (∀ temp_path, Background.image_open temp_path w = alloc im w) →
  (∀ temp_path world, Background.os_remove temp_path world = (Ok tt, world)) →
  ∃ w',
    (∀ search_term,
       Background.search_once width height search_term w
       = (Ok (Some (length (heap w) + 5)%nat), w')) ∧
    stdout w' = stdout w ∧
    heap w' !! (length (heap w) + 5)%nat
    = Some (Image RGB (im_size im)
              (PxConvert RGBA RGB
                 (PxComposite
                    (PxConvert RGB RGBA
                       (PxConvert (im_mode im) RGB (im_px im)))
                    (PxNew RGBA (im_size im) (0, 0, 0, 100))))).
Proof.
  intros Hget Hmk Hwrite Hopen Hremove.
  destruct w as [h out]. cbn [heap stdout].
  eexists. split; [intros search_term|].
  - unfold Background.search_once. cbv zeta. apply try_ok.
    erewrite bind_ok by apply Hget. cbn [fst snd].
    change (200 =? 200) with true. cbv iota.
    erewrite bind_ok by exact Hmk.
    erewrite bind_ok by apply Hwrite.
    erewrite bind_ok by (rewrite Hopen; reflexivity).
    cbn [heap stdout].
    erewrite bind_ok by (apply convert_run; live). tidy.
    erewrite bind_ok by (apply size_run; live). tidy.
    erewrite bind_ok by apply new_run. tidy.
    erewrite bind_ok by (apply convert_run; live). tidy.
    erewrite bind_ok by (apply alpha_composite_run; [live|live|done..]).
    tidy.
    erewrite bind_ok by apply Hremove.
    erewrite bind_ok by (apply convert_run; live). tidy.
    reflexivity.
  - split; [reflexivity|]. cbn [heap]. by apply lookup_tail.
Qed.

(** X28.  When the first request is answered with status 200 and the
    picture can be stored, opened and removed, [create_stock_background]
    prints nothing and returns the downloaded picture in RGB under a black
    layer of alpha 100, in the picture's own size.  [add_text_overlay] then
    puts its own black layer of alpha 100 over it: the stock picture is
    darkened twice. *)
Theorem stock_picture_is_darkened_twice `{FontEnv} `{Externals}
    `{Background.ProviderEnv} (width height : Z) (slide_data : slide)
    (topic : string) (w : world) (content : list Z) (im : image)
    (slide_number : Z) (format_type : string) :
  (∀ url, Background.requests_get url 10 w = (Ok (200, content), w)) →
  os_makedirs "../temp" w = (Ok tt, w) →
  (∀ temp_path, Background.write_file temp_path content w = (Ok tt, w)) →
  (∀ temp_path, Background.image_open temp_path w = alloc im w) →
  (∀ temp_path world, Background.os_remove temp_path world = (Ok tt, world)) →
  let veil := PxNew RGBA (im_size im) (0, 0, 0, 100) in
  let picture :=
    PxConvert RGBA RGB
      (PxComposite
         (PxConvert RGB RGBA (PxConvert (im_mode im) RGB (im_px im))) veil) in
  ∃ r w',
    Background.create_stock_background width height slide_data topic w
    = (Ok r, w') ∧
    stdout w' = stdout w ∧
    heap w' !! r = Some (Image RGB (im_size im) picture) ∧
    ∃ r2 w2 out ops,
      add_text_overlay r slide_data slide_number format_type w'
      = (Ok r2, w2) ∧
      heap w2 !! r2 = Some out ∧
      im_size out = im_size im ∧
      im_px out =
        PxConvert RGBA RGB
          (fold_left PxText ops
             (PxComposite (PxConvert RGB RGBA picture) veil)).
Proof.
  intros Hget Hmk Hwrite Hopen Hremove veil picture.
  destruct (stock_search_hit width height w content im Hget Hmk Hwrite Hopen
              Hremove) as (w' & Hsearch & Hout & Hr).
  exists (length (heap w) + 5)%nat, w'. split_and!; [|done..|].
  - unfold Background.create_stock_background. cbv zeta.
    apply try_ok. cbn [Background.search_all].
    erewrite bind_ok by (erewrite bind_ok by apply Hsearch; reflexivity).
    reflexivity.
  - destruct (overlay_result _ _ slide_data slide_number format_type w' Hr)
      as (r2 & w2 & out & Hoverlay & Hout2 & ->).
    eexists r2, w2, _, _. split_and!; [done|done|reflexivity|reflexivity].
Qed.

Lemma stock_picture_is_darkened_twice_witness :
  ∃ r w',
    @Background.create_stock_background Demo.externals Sample.online
      1920 1080 Demo.time_blocking "travel" {| heap := []; stdout := [] |}
    = (Ok r, w') ∧
    stdout w' = [] ∧
    heap w' !! r
    = Some (Image RGB (800, 600)
              (PxConvert RGBA RGB
                 (PxComposite
                    (PxConvert RGB RGBA
                       (PxConvert RGB RGB (PxRaw [255; 216; 255])))
                    (PxNew RGBA (800, 600) (0, 0, 0, 100))))).
Proof.
  destruct (@stock_picture_is_darkened_twice Demo.with_fonts Demo.externals
              Sample.online 1920 1080 Demo.time_blocking "travel"
              {| heap := []; stdout := [] |} [255; 216; 255] Sample.photo
              1 "landscape")
    as (r & w' & Hrun & Hout & Hr & _); try reflexivity.
  by exists r, w'.
Defined.

Lemma attempt_ok {A : Type} (m : M A) w a w' :
  m w = (Ok a, w') → Background.attempt m w = (Ok (inr a), w').
Proof. intros Hm. unfold Background.attempt. by rewrite Hm. Qed.

Lemma attempt_raise {A : Type} (m : M A) w e w' :
  m w = (Raise e, w') → Background.attempt m w = (Ok (inl e), w').
Proof. intros Hm. unfold Background.attempt. by rewrite Hm. Qed.

Lemma attempt_Raise_inv {A : Type} (m : M A) w e w' :
  Background.attempt m w = (Raise e, w') → False.
Proof. unfold Background.attempt. by destruct (m w) as [[a|e0] w1]. Qed.

Lemma ai_fallback_Raise_inv `{Externals} `{Background.ProviderEnv}
    width height attr e0 w e w' :
  Background.ai_fallback width height attr e0 w = (Raise e, w') →
  ∃ w0, create_color_background width height 0 w0 = (Raise e, w').
Proof.
  unfold Background.ai_fallback. intros Hrun.
  apply bind_Raise_inv in Hrun as [Hprint|(_ & w1 & _ & Hrun)]; [done|].
  apply bind_Raise_inv in Hrun as [Hprint|(_ & w2 & _ & Hrun)]; [done|].
  apply bind_Raise_inv in Hrun as [Hcolor|(image & w3 & _ & Hret)];
    [by exists w2|done].
Qed.

Lemma ai_fallback_run `{Externals} `{Background.ProviderEnv}
    width height attr e w r w' :
  create_color_background width height 0
    {| heap := heap w;
       stdout := stdout w ++
         ["AI generation failed: " +:+ exception_str e;
          "Falling back to color background..."] |}
  = (Ok r, w') →
  Background.ai_fallback width height attr e w = (Ok (r, attr), w').
Proof.
  intros Hcolor. unfold Background.ai_fallback.
  erewrite bind_ok by reflexivity.
  erewrite bind_ok by reflexivity. cbn [heap stdout].
  rewrite <- app_assoc. cbn [app].
  by erewrite bind_ok by exact Hcolor.
Qed.

(** X29.  [create_ai_background] lets no failure of the model download, of
    the move to the device or of the generation escape: if it raises at
    all, whether or not a pipeline is cached, the exception is one that
    [create_color_background(width, height, 0)] raised in the handler. *)
Theorem ai_background_raises_only_from_the_fallback `{Externals}
    `{Background.ProviderEnv} (pipe_attr : option Background.pipeline)
    (width height : Z) (slide_data : slide) (w w' : world) (e : exn) :
  Background.create_ai_background pipe_attr width height slide_data w
  = (Raise e, w') →
  ∃ w0, create_color_background width height 0 w0 = (Raise e, w').
Proof.
  unfold Background.create_ai_background. cbv zeta.
  assert (∀ pipe w1,
    (Background.attempt
       (Background.run_pipeline pipe
          ("minimalist gradient background, " +:+ visual_theme slide_data +:+
           ", professional, clean design, no text, abstract")
          "text, letters, words, watermark, signature, people, faces, objects"
          height width)
     ≫= λ generated,
          match generated with
          | inl e0 => Background.ai_fallback width height (Some pipe) e0
          | inr image => mret (image, Some pipe)
          end) w1 = (Raise e, w') →
    ∃ w0, create_color_background width height 0 w0 = (Raise e, w'))
    as Hgenerate.
  { intros pipe w1 Hrun.
    apply bind_Raise_inv in Hrun as [Hrun|([e0|image] & w2 & _ & Hrun)].
    - by apply attempt_Raise_inv in Hrun.
    - by eapply ai_fallback_Raise_inv.
    - done. }
  destruct pipe_attr as [pipe|]; [apply Hgenerate|].
  intros Hrun.
  apply bind_Raise_inv in Hrun as [Hprint|(_ & w1 & _ & Hrun)]; [done|].
  apply bind_Raise_inv in Hrun as [Hrun|([e0|pipe] & w2 & _ & Hrun)].
  - by apply attempt_Raise_inv in Hrun.
  - by eapply ai_fallback_Raise_inv.
  - apply bind_Raise_inv in Hrun as [Hrun|([e0|moved] & w3 & _ & Hrun)].
    + by apply attempt_Raise_inv in Hrun.
    + by eapply ai_fallback_Raise_inv.
    + by eapply Hgenerate.
Qed.

Lemma ai_background_raises_only_from_the_fallback_witness :
  ∃ w0,
    @create_color_background Sample.no_disk_space 1920 1080 0 w0
    = (Raise (OSError "No space left on device"),
       {| heap := [];
          stdout :=
            ["Loading Stable Diffusion model...";
             "AI generation failed: model not found";
             "Falling back to color background..."] |}).
Proof.
  apply (@ai_background_raises_only_from_the_fallback Sample.no_disk_space
           Sample.offline None 1920 1080 Demo.time_blocking
           {| heap := []; stdout := [] |}).
  vm_compute. reflexivity.
Defined.

(** X30.  When the model loads but the move to the device raises, the
    function attribute [pipe] keeps the pipeline that was never moved.
    That call falls back to the first colour; a later call finds the
    attribute set, loads nothing and prints no loading line, and runs the
    unmoved pipeline. *)
Theorem failed_device_move_leaves_the_unmoved_pipeline_cached `{Externals}
    `{Background.ProviderEnv} (width height : Z) (slide_data : slide)
    (w w1 w2 w3 : world) (pipe : Background.pipeline) (e : exn) (r : ref) :
  Background.from_pretrained
    {| heap := heap w;
       stdout := stdout w ++ ["Loading Stable Diffusion model..."] |}
  = (Ok pipe, w1) →
  Background.to_mps pipe w1 = (Raise e, w2) →
  create_color_background width height 0
    {| heap := heap w2;
       stdout := stdout w2 ++
         ["AI generation failed: " +:+ exception_str e;
          "Falling back to color background..."] |}
  = (Ok r, w3) →
  ∃ pipe_attr,
    Background.create_ai_background None width height slide_data w
    = (Ok (r, pipe_attr), w3) ∧
    pipe_attr = Some pipe ∧
    ∀ next_slide w4 generated w5,
      Background.run_pipeline pipe
        ("minimalist gradient background, " +:+ visual_theme next_slide +:+
         ", professional, clean design, no text, abstract")
        "text, letters, words, watermark, signature, people, faces, objects"
        height width w4 = (Ok generated, w5) →
      Background.create_ai_background pipe_attr width height next_slide w4
      = (Ok (generated, Some pipe), w5).
Proof.
  intros Hload Hmove Hcolor. exists (Some pipe). split_and!; [|done|].
  - unfold Background.create_ai_background. cbv zeta.
    erewrite bind_ok by reflexivity.
    erewrite bind_ok by (apply attempt_ok; exact Hload). cbv iota.
    erewrite bind_ok by (apply attempt_raise; exact Hmove). cbv iota.
    by apply ai_fallback_run.
  - intros next_slide w4 generated w5 Hrun.
    unfold Background.create_ai_background. cbv zeta.
    by erewrite bind_ok by (apply attempt_ok; exact Hrun).
Qed.

Lemma failed_device_move_leaves_the_unmoved_pipeline_cached_witness :
  ∃ pipe_attr,
    @Background.create_ai_background Demo.externals Sample.online None
      1920 1080 Demo.time_blocking {| heap := []; stdout := [] |}
    = (Ok (0%nat, pipe_attr),
       {| heap := [Demo.blank];
          stdout :=
            ["Loading Stable Diffusion model...";
             "AI generation failed: error";
             "Falling back to color background..."] |}) ∧
    pipe_attr = Some "runwayml/stable-diffusion-v1-5".
Proof.
  destruct (@failed_device_move_leaves_the_unmoved_pipeline_cached
              Demo.externals Sample.online 1920 1080 Demo.time_blocking
              {| heap := []; stdout := [] |}
              {| heap := [];
                 stdout := ["Loading Stable Diffusion model..."] |}
              {| heap := [];
                 stdout := ["Loading Stable Diffusion model..."] |}
              {| heap := [Demo.blank];
                 stdout :=
                   ["Loading Stable Diffusion model...";
                    "AI generation failed: error";
                    "Falling back to color background..."] |}
              "runwayml/stable-diffusion-v1-5"
              (OSError "MPS backend not available") 0%nat)
    as (pipe_attr & Hrun & Hattr & _); try reflexivity.
  by exists pipe_attr.
Defined.

(** ** Line widths: one-word lines and empty pieces *)






(** ** The raising library against the library that answers every call *)

Section Agreement.
Context `{FontEnv} `{Raising.DrawFaults}.
















End Agreement.

(** ** What [wrap_text] raises *)





(** ** The font fallback *)




